(** * Resilient transport and retrieval layer of the Atlassian client

    A shallow embedding of the Python sources
    - [atlassian/graph/throttle.py]                (module [Throttle]),
    - [atlassian_graphql/errors.py], [models.py]   ([exn], [GraphQLResult]),
    - [atlassian_graphql/retry.py]                 (module [Retry]),
    - [atlassian/rest/gen/jira_agile_api.py]       (modules [Expect], [AgileApi]),
    - [atlassian/rest/api/jira_sprints.py], [jira_boards.py] and their
      mappers                                      (module [RestPaging]),
    - the models rendered by [tools/generate_jira_worklog_models.py] and
      [tools/generate_jira_issue_models.py]        (modules [WorklogsApi], [IssuesApi]),
    - [atlassian/graph/api/jira_worklogs.py] and its mapper
                                                   (module [WorklogPaging]),
    - [atlassian/graph/api/jira_issues.py] and its mapper
                                                   (modules [IssueApi], [EnvAuth]),
    - [atlassian/rest/api/jira_versions.py] and its mapper
                                                   (module [RestVersions]),
    - [atlassian_graphql/logging.py]               (module [Logging]),
    - [parse_error_items] of [atlassian_graphql/models.py]
                                                   (module [ErrorItems]),
    followed by the properties of the specification that concern them and
    by further properties of the same code.

    Conventions.  Python [float] values are idealised as exact rationals
    ([Q]); a [datetime] and a [timedelta] are whole numbers of
    microseconds, with the rounding and the range of the Python types.
    A Python [str] is the [string] of the bytes of its UTF-8 encoding, and
    [None] is [JNull] wherever a JSON value is expected.  A function that can raise returns
    [result A = exn + A].  A [while True] loop is a [Fixpoint] on a fuel
    argument, with a distinguished outcome for a loop that is still
    running when the fuel is used up. *)

From Stdlib Require Import QArith Qround Lqa ZArith Lia List Bool Ascii String.
From stdpp Require Import base option list gmap strings pretty.

Import ListNotations.
Local Open Scope string_scope.

(** ** Python strings

    A [str] is held as the bytes of its UTF-8 encoding (a lone surrogate
    as the three bytes of its code point), so that equality,
    concatenation and emptiness of strings are those of the bytes. *)

Module PyStr.

(** [str.isspace] on a code point of one byte: TAB..CR, FS..US and
    SPACE. *)
Definition is_space (c : ascii) : bool :=
  let n := nat_of_ascii c in
  ((9 <=? n)%nat && (n <=? 13)%nat) || ((28 <=? n)%nat && (n <=? 32)%nat).

(** [str.isspace] on a code point of two bytes: U+0085 and U+00A0, that
    is [C2 85] and [C2 A0]. *)
Definition is_space2 (c1 c2 : ascii) : bool :=
  (nat_of_ascii c1 =? 194)%nat
  && ((nat_of_ascii c2 =? 133)%nat || (nat_of_ascii c2 =? 160)%nat).

(** [str.isspace] on a code point of three bytes: U+1680 ([E1 9A 80]),
    U+2000..U+200A ([E2 80 80] to [E2 80 8A]), U+2028, U+2029 and U+202F
    ([E2 80 A8], [E2 80 A9], [E2 80 AF]), U+205F ([E2 81 9F]) and U+3000
    ([E3 80 80]).  No code point of four bytes is white space. *)
Definition is_space3 (c1 c2 c3 : ascii) : bool :=
  let n1 := nat_of_ascii c1 in
  let n2 := nat_of_ascii c2 in
  let n3 := nat_of_ascii c3 in
  ((n1 =? 225)%nat && (n2 =? 154)%nat && (n3 =? 128)%nat)
  || ((n1 =? 226)%nat && (n2 =? 128)%nat
      && (((128 <=? n3)%nat && (n3 <=? 138)%nat)
          || (n3 =? 168)%nat || (n3 =? 169)%nat || (n3 =? 175)%nat))
  || ((n1 =? 226)%nat && (n2 =? 129)%nat && (n3 =? 159)%nat)
  || ((n1 =? 227)%nat && (n2 =? 128)%nat && (n3 =? 128)%nat).

Section Front.
(** The white space of one, two and three bytes, in the order in which
    the bytes are met. *)
Variable sp1 : ascii -> bool.
Variable sp2 : ascii -> ascii -> bool.
Variable sp3 : ascii -> ascii -> ascii -> bool.

(** The string begins with a white-space code point. *)
Definition front_space (s : string) : bool :=
  match s with
  | EmptyString => false
  | String c1 r1 =>
      sp1 c1
      || match r1 with
         | EmptyString => false
         | String c2 r2 =>
             sp2 c1 c2
             || match r2 with
                | EmptyString => false
                | String c3 _ => sp3 c1 c2 c3
                end
         end
  end.

(** The string without the white-space code points it begins with. *)
Fixpoint strip_front (s : string) : string :=
  match s with
  | EmptyString => EmptyString
  | String c1 r1 =>
      if sp1 c1 then strip_front r1
      else
        match r1 with
        | EmptyString => s
        | String c2 r2 =>
            if sp2 c1 c2 then strip_front r2
            else
              match r2 with
              | EmptyString => s
              | String c3 r3 => if sp3 c1 c2 c3 then strip_front r3 else s
              end
        end
  end.
End Front.

(** The white space of two and three bytes, read from the end of a
    string. *)
Definition is_space2_back (c2 c1 : ascii) : bool := is_space2 c1 c2.
Definition is_space3_back (c3 c2 c1 : ascii) : bool := is_space3 c1 c2 c3.

(** [s.lstrip()] *)
Definition lstrip (s : string) : string :=
  strip_front is_space is_space2 is_space3 s.

(** [s.rstrip()] *)
Definition rstrip (s : string) : string :=
  String.rev (strip_front is_space is_space2_back is_space3_back (String.rev s)).

(** [s.strip()] *)
Definition strip (s : string) : string := rstrip (lstrip s).

(** Truthiness of a [str]: non-empty. *)
Definition truthy (s : string) : bool :=
  match s with EmptyString => false | _ => true end.

(** Truthiness of an [Optional[str]]. *)
Definition otruthy (o : option string) : bool :=
  match o with Some s => truthy s | None => false end.

Fixpoint ends_with_Z (s : string) : bool :=
  match s with
  | EmptyString => false
  | String c EmptyString => Ascii.eqb c "Z"
  | String _ s' => ends_with_Z s'
  end.

(** [s[:-1]], for a string whose last code point is of one byte. *)
Fixpoint drop_last (s : string) : string :=
  match s with
  | EmptyString => EmptyString
  | String _ EmptyString => EmptyString
  | String c s' => String c (drop_last s')
  end.

(** [str.lower()] on a code point of one byte. *)
Definition lower_char (c : ascii) : ascii :=
  let n := nat_of_ascii c in
  if ((65 <=? n)%nat && (n <=? 90)%nat) then ascii_of_nat (n + 32) else c.

(** U+212A KELVIN SIGN, [E2 84 AA]. *)
Definition is_kelvin (c1 c2 c3 : ascii) : bool :=
  (nat_of_ascii c1 =? 226)%nat && (nat_of_ascii c2 =? 132)%nat
  && (nat_of_ascii c3 =? 170)%nat.

(** [str.lower()], as far as the comparison of its result with a string
    of ASCII characters goes, which is all that the code modelled here
    does with it: the letters A to Z are lowered, and so is U+212A, the
    one code point beyond ASCII that [str.lower] turns into an ASCII
    character ([k]); every other code point beyond ASCII is left as it
    is, where [str.lower] gives a result that is not ASCII either. *)
Fixpoint lower (s : string) : string :=
  match s with
  | EmptyString => EmptyString
  | String c1 r1 =>
      match r1 with
      | String c2 (String c3 r3) =>
          if is_kelvin c1 c2 c3 then String "k" (lower r3)
          else String (lower_char c1) (lower r1)
      | _ => String (lower_char c1) (lower r1)
      end
  end.

End PyStr.

(** ** JSON values, as [json.loads] and the HTTP clients produce them *)

#[warnings="-register-all"]
Inductive json : Type :=
| JNull
| JBool (b : bool)
| JInt (n : Z)
| JFloat (q : Q)
| JStr (s : string)
| JList (l : list json)
| JDict (d : gmap string json).

(** [raw.get(key)]: the value, or [None] when the key is absent. *)
Definition dict_get (raw : gmap string json) (key : string) : json :=
  default JNull (raw !! key).

(** ** Exceptions ([atlassian_graphql/errors.py]) and results *)

(** One entry of a GraphQL [errors] array ([models.py], [GraphQLErrorItem]);
    only the message is inspected by the code modelled here.  Python's
    [None] is [JNull] throughout, also for [partial_data] and
    [GraphQLResult.data]. *)
Record GraphQLErrorItem := mkErrorItem { message : string }.

Inductive exn : Type :=
| ValueError (msg : string)
| SerializationError (msg : string)
| LocalRateLimitError (estimated_cost wait_seconds max_wait_seconds : Q)
| GraphQLOperationError (errors : list GraphQLErrorItem) (partial_data : json)
| TransportError (status_code : Z) (body_snippet : string)
| OverflowError.

Definition error : Type := exn.
Definition result (A : Type) : Type := error + A.

#[export] Instance result_ret : MRet (sum error) := fun _ x => inr x.
#[export] Instance result_bind : MBind (sum error) :=
  fun _ _ f m => match m with inl e => inl e | inr x => f x end.

(** ** The local rate limiter ([atlassian/graph/throttle.py]) *)

Module Throttle.

Local Open Scope Q_scope.

(** A [datetime] is held as the number of microseconds between
    [datetime.min] (0001-01-01T00:00:00) and it, on the time scale of the
    injected clock, and a [timedelta] as a number of microseconds. *)
Abbreviation datetime := Z.
Abbreviation timedelta := Z.

(** [datetime.max], 9999-12-31T23:59:59.999999. *)
Definition MAX_DATETIME : datetime := 315537897599999999%Z.

(** [timedelta.min] and [timedelta.max]: -999999999 days, and
    999999999 days, 23:59:59.999999. *)
Definition MIN_TIMEDELTA : timedelta := (-86399999913600000000)%Z.
Definition MAX_TIMEDELTA : timedelta := 86399999999999999999%Z.

(** Rounding to the nearest integer, a tie to the even one. *)
Definition round_half_even (q : Q) : Z :=
  let up := Qfloor (q + (1 # 2)) in
  if Qeq_bool (q + (1 # 2)) (inject_Z up) && Z.odd up then (up - 1)%Z else up.

(** [timedelta(seconds=x)]: [x] is rounded to microseconds; [None] stands
    for the [OverflowError] of a value beyond [timedelta.max]. *)
Definition timedelta_of_seconds (x : Q) : option timedelta :=
  let us := round_half_even (x * 1000000) in
  if (MIN_TIMEDELTA <=? us)%Z && (us <=? MAX_TIMEDELTA)%Z then Some us else None.

(** [d + td]; [None] stands for the [OverflowError] of a date beyond
    [datetime.max] or before [datetime.min]. *)
Definition datetime_add (d : datetime) (td : timedelta) : option datetime :=
  let r := (d + td)%Z in
  if (0 <=? r)%Z && (r <=? MAX_DATETIME)%Z then Some r else None.

(** [(a - b).total_seconds()] *)
Definition seconds_between (a b : datetime) : Q :=
  inject_Z (a - b) * (1 # 1000000).

Record TokenBucket := mkTokenBucket {
  capacity : Q;
  refill_rate_per_sec : Q;
  _tokens : Q;
  _last_refill : datetime
}.

(** Python's [min(a, b)]: [b] when [b < a], otherwise [a]. *)
Definition py_min (a b : Q) : Q := if Qle_bool a b then a else b.

Definition Qlt_bool (a b : Q) : bool := negb (Qle_bool b a).

(** [_refill_locked(self, now)] *)
Definition _refill_locked (self : TokenBucket) (now : datetime) : TokenBucket :=
  let elapsed := seconds_between now (_last_refill self) in
  if Qlt_bool 0 elapsed then
    {| capacity := capacity self;
       refill_rate_per_sec := refill_rate_per_sec self;
       _tokens := py_min (capacity self)
                         (_tokens self + elapsed * refill_rate_per_sec self);
       _last_refill := now |}
  else self.

(** The result of a [consume] call. [Blocked] is not a Python outcome: it
    marks a call that is still inside its loop when the fuel is used up. *)
Inductive outcome :=
| Returned (waited : Q)
| Raised (e : error)
| Blocked.

(** [now + timedelta(seconds=max_wait_seconds)] *)
Definition deadline_of (now : datetime) (max_wait_seconds : Q) : option datetime :=
  timedelta_of_seconds max_wait_seconds ≫= datetime_add now.

Section Clock.
(** The injected collaborators: [now()] reads the clock and [sleeper(d)]
    blocks for [d] seconds; both act on an abstract world. *)
Context {W : Type}.
Variable now : W -> datetime * W.
Variable sleeper : Q -> W -> W.

(** [TokenBucket.__init__] *)
Definition init (cap rate : Q) (w : W) : (error + TokenBucket) * W :=
  if Qle_bool cap 0 then (inl (ValueError "capacity must be positive"), w)
  else if Qle_bool rate 0 then
    (inl (ValueError "refill_rate_per_sec must be positive"), w)
  else
    let '(t, w') := now w in
    (inr {| capacity := cap; refill_rate_per_sec := rate;
            _tokens := cap; _last_refill := t |}, w').

(** The [while True] loop of [consume]. *)
Fixpoint consume_loop (fuel : nat) (cost max_wait_seconds : Q) (deadline : datetime)
         (waited : Q) (self : TokenBucket) (w : W) : outcome * TokenBucket * W :=
  match fuel with
  | O => (Blocked, self, w)
  | S fuel' =>
      let '(t, w1) := now w in
      let b := _refill_locked self t in
      if Qle_bool cost (_tokens b) then
        (Returned waited,
         {| capacity := capacity b;
            refill_rate_per_sec := refill_rate_per_sec b;
            _tokens := _tokens b - cost;
            _last_refill := _last_refill b |}, w1)
      else
        let needed := cost - _tokens b in
        let last_wait_needed := needed / refill_rate_per_sec b in
        let '(t2, w2) := now w1 in
        let remaining := seconds_between deadline t2 in
        if Qle_bool remaining 0 || Qle_bool last_wait_needed 0 then
          (Raised (LocalRateLimitError cost last_wait_needed max_wait_seconds),
           b, w2)
        else
          let sleep_for := py_min last_wait_needed remaining in
          consume_loop fuel' cost max_wait_seconds deadline
                       (waited + sleep_for) b (sleeper sleep_for w2)
  end.

(** [TokenBucket.consume(cost, max_wait_seconds)] *)
Definition consume (fuel : nat) (cost max_wait_seconds : Q)
           (self : TokenBucket) (w : W) : outcome * TokenBucket * W :=
  if Qle_bool cost 0 then (Returned 0, self, w)
  else
    let '(t0, w0) := now w in
    match deadline_of t0 max_wait_seconds with
    | None => (Raised OverflowError, self, w0)
    | Some deadline =>
        consume_loop fuel cost max_wait_seconds deadline 0 self w0
    end.

(** A sequence of [consume] calls on one bucket, each with its own
    budget of loop iterations. *)
Fixpoint consume_all (calls : list (Q * Q * nat)) (self : TokenBucket) (w : W)
  : TokenBucket * W :=
  match calls with
  | [] => (self, w)
  | (cost, max_wait, fuel) :: rest =>
      let '(_, b, w') := consume fuel cost max_wait self w in
      consume_all rest b w'
  end.
End Clock.

(** The deterministic clock used in tests: the world is the current
    [datetime]; reading it does not advance it, and sleeping [d] seconds
    advances it by [timedelta(seconds=d)]. *)
Definition fake_now (t : datetime) : datetime * datetime := (t, t).
Definition fake_sleeper (d : Q) (t : datetime) : datetime :=
  (t + round_half_even (d * 1000000))%Z.

(** The invariant of the data model. *)
Definition bucket_inv (b : TokenBucket) : Prop :=
  0 <= _tokens b /\ _tokens b <= capacity b.

(** A bucket as the constructor can build it, at any later time. *)
Definition well_formed (b : TokenBucket) : Prop :=
  0 < refill_rate_per_sec b /\ bucket_inv b.

End Throttle.

(** The statement pattern
    [x = None; if v is not None: x = expect(v, path)]. *)
Definition optional {A} (expect : json -> string -> result A)
           (v : json) (path : string) : result (option A) :=
  match v with
  | JNull => inr None
  | _ => x ← expect v path; mret (Some x)
  end.

(** A list comprehension over [enumerate(items)] whose body can raise. *)
Fixpoint from_dict_items {A} (from_dict : json -> string -> result A)
         (prefix : string) (idx : nat) (items : list json) : result (list A) :=
  match items with
  | [] => inr []
  | item :: rest =>
      x ← from_dict item (prefix +:+ "[" +:+ pretty idx +:+ "]");
      xs ← from_dict_items from_dict prefix (S idx) rest;
      mret (x :: xs)
  end.

(** ** The type checks of the generated models

    Every model file ([jira_agile_api.py] and the files rendered by
    [tools/generate_jira_worklog_models.py] and
    [tools/generate_jira_issue_models.py]) carries its own, identical copies
    of these helpers. *)

Module Expect.

Definition _expect_dict (obj : json) (path : string) : result (gmap string json) :=
  match obj with
  | JDict d => inr d
  | _ => inl (SerializationError ("Expected object at " +:+ path))
  end.

Definition _expect_list (obj : json) (path : string) : result (list json) :=
  match obj with
  | JList l => inr l
  | _ => inl (SerializationError ("Expected list at " +:+ path))
  end.

Definition _expect_str (obj : json) (path : string) : result string :=
  match obj with
  | JStr s => inr s
  | _ => inl (SerializationError ("Expected string at " +:+ path))
  end.

Definition _expect_bool (obj : json) (path : string) : result bool :=
  match obj with
  | JBool b => inr b
  | _ => inl (SerializationError ("Expected boolean at " +:+ path))
  end.

Definition _expect_int (obj : json) (path : string) : result Z :=
  match obj with
  | JInt n => inr n
  | _ => inl (SerializationError ("Expected integer at " +:+ path))
  end.

Definition _expect_optional_str (obj : json) (path : string) : result (option string) :=
  match obj with
  | JNull => inr None
  | JStr s =>
      if PyStr.truthy s then inr (Some s)
      else inl (SerializationError ("Expected non-empty string at " +:+ path))
  | _ => inl (SerializationError ("Expected string at " +:+ path))
  end.

End Expect.

(** ** Jira Agile REST models ([atlassian/rest/gen/jira_agile_api.py]) *)

Module AgileApi.
Import Expect.

Record Sprint := mkSprint {
  sprint_id : option Z;
  sprint_name : option string;
  sprint_state : option string;
  start_date : option string;
  end_date : option string;
  complete_date : option string;
  origin_board_id : option Z;
  goal : option string
}.

Definition Sprint_from_dict (obj : json) (path : string) : result Sprint :=
  raw ← _expect_dict obj path;
  sprint_id ← optional _expect_int (dict_get raw "id") (path +:+ ".id");
  name ← optional _expect_str (dict_get raw "name") (path +:+ ".name");
  state ← optional _expect_str (dict_get raw "state") (path +:+ ".state");
  start_date ← optional _expect_str (dict_get raw "startDate") (path +:+ ".startDate");
  end_date ← optional _expect_str (dict_get raw "endDate") (path +:+ ".endDate");
  complete_date ← optional _expect_str (dict_get raw "completeDate")
                           (path +:+ ".completeDate");
  origin_board_id ← optional _expect_int (dict_get raw "originBoardId")
                             (path +:+ ".originBoardId");
  goal ← optional _expect_str (dict_get raw "goal") (path +:+ ".goal");
  mret (mkSprint sprint_id name state start_date end_date complete_date
                 origin_board_id goal).

Record Board := mkBoard {
  board_id : option Z;
  board_name : option string;
  board_type : option string
}.

Definition Board_from_dict (obj : json) (path : string) : result Board :=
  raw ← _expect_dict obj path;
  board_id ← optional _expect_int (dict_get raw "id") (path +:+ ".id");
  name ← optional _expect_str (dict_get raw "name") (path +:+ ".name");
  board_type ← optional _expect_str (dict_get raw "type") (path +:+ ".type");
  mret (mkBoard board_id name board_type).

(** [SprintPage] and [BoardPage] have the same fields; the element type
    is the parameter. *)
Record Page (A : Type) := mkPage {
  start_at : option Z;
  max_results : option Z;
  is_last : option bool;
  values : list A
}.
Arguments mkPage {A}.
Arguments start_at {A}.
Arguments max_results {A}.
Arguments is_last {A}.
Arguments values {A}.

(** The common body of [SprintPage.from_dict] and [BoardPage.from_dict]. *)
Definition Page_from_dict {A} (item_from_dict : json -> string -> result A)
           (obj : json) (path : string) : result (Page A) :=
  raw ← _expect_dict obj path;
  start_at ← optional _expect_int (dict_get raw "startAt") (path +:+ ".startAt");
  max_results ← optional _expect_int (dict_get raw "maxResults")
                         (path +:+ ".maxResults");
  is_last ← optional _expect_bool (dict_get raw "isLast") (path +:+ ".isLast");
  let values_raw := dict_get raw "values" in
  values_list ← match values_raw with
                | JNull => inr []
                | _ => _expect_list values_raw (path +:+ ".values")
                end;
  values ← from_dict_items item_from_dict (path +:+ ".values") 0 values_list;
  mret (mkPage start_at max_results is_last values).

Definition SprintPage_from_dict : json -> string -> result (Page Sprint) :=
  Page_from_dict Sprint_from_dict.

Definition BoardPage_from_dict : json -> string -> result (Page Board) :=
  Page_from_dict Board_from_dict.

End AgileApi.

(** ** The shape of a page object

    Vocabulary for the statements about [SprintPage.from_dict] and
    [BoardPage.from_dict]: when a field counts as mistyped, what a
    well-typed field denotes, and the complaint raised about each of the
    four fields, listed in the order in which the fields are read.  A
    field that is absent or null is never mistyped. *)

Module PageShape.

Definition mistyped_int (v : json) : bool :=
  match v with JNull | JInt _ => false | _ => true end.

Definition mistyped_bool (v : json) : bool :=
  match v with JNull | JBool _ => false | _ => true end.

Definition mistyped_list (v : json) : bool :=
  match v with JNull | JList _ => false | _ => true end.

Definition opt_int (v : json) : option Z :=
  match v with JInt n => Some n | _ => None end.

Definition opt_bool (v : json) : option bool :=
  match v with JBool b => Some b | _ => None end.

Definition items_of (v : json) : list json :=
  match v with JList l => l | _ => [] end.

Definition complaint (mistyped : bool) (kind path : string) : list error :=
  if mistyped then [SerializationError ("Expected " +:+ kind +:+ " at " +:+ path)]
  else [].

Definition page_field_complaints (raw : gmap string json) (path : string) : list error :=
  complaint (mistyped_int (dict_get raw "startAt")) "integer" (path +:+ ".startAt")
  ++ complaint (mistyped_int (dict_get raw "maxResults")) "integer"
               (path +:+ ".maxResults")
  ++ complaint (mistyped_bool (dict_get raw "isLast")) "boolean" (path +:+ ".isLast")
  ++ complaint (mistyped_list (dict_get raw "values")) "list" (path +:+ ".values").

(** The path of the element at position [i] of a list field. *)
Definition item_path (prefix : string) (i : nat) : string :=
  prefix +:+ "[" +:+ pretty i +:+ "]".

End PageShape.

(** ** Canonical models ([atlassian/canonical_models.py]) *)

Record JiraUser := mkJiraUser {
  account_id : string;
  display_name : string;
  email : option string
}.

Record JiraSprint := mkJiraSprint {
  js_id : string;
  js_name : string;
  js_state : string;
  js_start_at : option string;
  js_end_at : option string;
  js_complete_at : option string
}.

Record JiraBoard := mkJiraBoard {
  jb_id : string;
  jb_name : string;
  jb_type : string
}.

Record JiraWorklog := mkJiraWorklog {
  wl_issue_key : string;
  wl_worklog_id : string;
  wl_started_at : string;
  wl_time_spent_seconds : Z;
  wl_created_at : string;
  wl_updated_at : string;
  wl_author : option JiraUser
}.

Record JiraIssue := mkJiraIssue {
  ji_cloud_id : string;
  ji_key : string;
  ji_project_key : string;
  ji_issue_type : string;
  ji_status : string;
  ji_created_at : string;
  ji_updated_at : string;
  ji_resolved_at : option string;
  ji_assignee : option JiraUser;
  ji_reporter : option JiraUser;
  ji_labels : list string;
  ji_components : list string;
  ji_story_points : option Q;
  ji_sprint_ids : list string
}.

(** ** A pagination run *)

(** The states in which a drained iterator can be found.  [Fetching] is the
    state of a run that would fetch another page when the fuel ran out. *)
Inductive status : Type :=
| Done
| Failed (e : error)
| Fetching.

Record run (A : Type) : Type := mkRun {
  yielded : list A;
  fetches : nat;
  final : status
}.
Arguments mkRun {A}.
Arguments yielded {A}.
Arguments fetches {A}.
Arguments final {A}.

(** [for item in items: yield f(item)], appended to what was yielded so
    far; the first exception ends the loop. *)
Fixpoint drain {A B} (f : A -> result B) (items : list A) (acc : list B)
  : list B * option error :=
  match items with
  | [] => (acc, None)
  | x :: rest =>
      match f x with
      | inl e => (acc, Some e)
      | inr y => drain f rest (acc ++ [y])
      end
  end.

(** ** Offset-based pagination over REST
       ([atlassian/rest/api/jira_sprints.py], [jira_boards.py],
        [atlassian/rest/mappers/jira_sprints.py], [jira_boards.py]) *)

Module RestPaging.
Import AgileApi.

(** [value if value is not None and value.strip() else None], with the
    stripped value kept. *)
Definition strip_opt (o : option string) : option string :=
  match o with
  | Some s => if PyStr.truthy (PyStr.strip s) then Some (PyStr.strip s) else None
  | None => None
  end.

(** [map_sprint(sprint=...)] *)
Definition map_sprint (sprint : Sprint) : result JiraSprint :=
  match sprint_id sprint with
  | None => inl (ValueError "sprint.id is required")
  | Some sid =>
      match sprint_name sprint with
      | None => inl (ValueError "sprint.name is required")
      | Some name =>
          if negb (PyStr.truthy (PyStr.strip name)) then
            inl (ValueError "sprint.name is required")
          else
            match sprint_state sprint with
            | None => inl (ValueError "sprint.state is required")
            | Some state =>
                if negb (PyStr.truthy (PyStr.strip state)) then
                  inl (ValueError "sprint.state is required")
                else
                  inr {| js_id := pretty sid;
                         js_name := PyStr.strip name;
                         js_state := PyStr.strip state;
                         js_start_at := strip_opt (start_date sprint);
                         js_end_at := strip_opt (end_date sprint);
                         js_complete_at := strip_opt (complete_date sprint) |}
            end
      end
  end.

(** [map_rest_board(board)] *)
Definition map_rest_board (board : Board) : result JiraBoard :=
  inr {| jb_id := match board_id board with Some i => pretty i | None => "" end;
         jb_name := default "" (board_name board);
         jb_type := default "" (board_type board) |}.

Definition repeated_start_at : error :=
  SerializationError "Pagination startAt repeated; aborting to prevent infinite loop".

Definition empty_page_not_last : error :=
  SerializationError
    "Received empty page with isLast=false; cannot continue pagination".

Section Client.
(** [client.get_json(path, params=...)]; the first argument counts the
    requests already made in this run, so that the server may answer
    the same request differently over time. *)
Variable get_json : nat -> string -> list (string * json) -> result json.

Section Sprints.
Variable board_path : string.
Variable state_clean : option string.
Variable page_size : Z.

Definition sprint_params (start_at : Z) : list (string * json) :=
  [("startAt", JInt start_at); ("maxResults", JInt page_size)]
    ++ match state_clean with
       | Some s => [("state", JStr s)]
       | None => []
       end.

(** The [while True] loop of [iter_board_sprints_via_rest]; [n] counts
    the requests made, [acc] is what was yielded so far. *)
Fixpoint sprints_loop (fuel : nat) (n : nat) (start_at : Z) (seen_start_at : gset Z)
         (acc : list JiraSprint) : run JiraSprint :=
  match fuel with
  | O => mkRun acc n Fetching
  | S fuel' =>
      if decide (start_at ∈ seen_start_at) then
        mkRun acc n (Failed repeated_start_at)
      else
        let seen' := {[start_at]} ∪ seen_start_at in
        match get_json n board_path (sprint_params start_at) with
        | inl e => mkRun acc (S n) (Failed e)
        | inr payload =>
            match SprintPage_from_dict payload "data" with
            | inl e => mkRun acc (S n) (Failed e)
            | inr page =>
                let vals := values page in
                match drain map_sprint vals acc with
                | (acc', Some e) => mkRun acc' (S n) (Failed e)
                | (acc', None) =>
                    let has_is_last := bool_decide (is_Some (is_last page)) in
                    if has_is_last && default false (is_last page) then
                      mkRun acc' (S n) Done
                    else if (Z.of_nat (length vals) <? page_size)%Z then
                      mkRun acc' (S n) Done
                    else if (length vals =? 0)%nat then
                      if has_is_last && negb (default false (is_last page)) then
                        mkRun acc' (S n) (Failed empty_page_not_last)
                      else mkRun acc' (S n) Done
                    else
                      sprints_loop fuel' (S n)
                                   (start_at + Z.of_nat (length vals))%Z seen' acc'
                end
            end
        end
  end.
End Sprints.

(** [iter_board_sprints_via_rest(client, board_id=, state=, page_size=)],
    drained. *)
Definition iter_board_sprints_via_rest (fuel : nat) (board_id : Z)
           (state : option string) (page_size : Z) : run JiraSprint :=
  if (board_id <=? 0)%Z then
    mkRun [] 0 (Failed (ValueError "board_id must be a positive integer"))
  else if (page_size <=? 0)%Z then
    mkRun [] 0 (Failed (ValueError "page_size must be > 0"))
  else
    let state_clean := (fun s => PyStr.lower (PyStr.strip s)) <$> state in
    let state_ok :=
      match state_clean with
      | Some s => bool_decide (s ∈ ["future"; "active"; "closed"])
      | None => true
      end in
    if negb state_ok then
      mkRun [] 0 (Failed (ValueError "state must be one of: future, active, closed"))
    else
      sprints_loop ("/rest/agile/1.0/board/" +:+ pretty board_id +:+ "/sprint")
                   state_clean page_size fuel 0 0%Z ∅ [].

Section Boards.
Variable page_size : Z.

(** The [while True] loop of [iter_boards_via_rest]. *)
Fixpoint boards_loop (fuel : nat) (n : nat) (start_at : Z) (seen_start_at : gset Z)
         (acc : list JiraBoard) : run JiraBoard :=
  match fuel with
  | O => mkRun acc n Fetching
  | S fuel' =>
      if decide (start_at ∈ seen_start_at) then
        mkRun acc n (Failed repeated_start_at)
      else
        let seen' := {[start_at]} ∪ seen_start_at in
        match get_json n "/rest/agile/1.0/board"
                       [("startAt", JInt start_at); ("maxResults", JInt page_size)] with
        | inl e => mkRun acc (S n) (Failed e)
        | inr payload =>
            match BoardPage_from_dict payload "data" with
            | inl e => mkRun acc (S n) (Failed e)
            | inr page =>
                let vals := values page in
                match drain map_rest_board vals acc with
                | (acc', Some e) => mkRun acc' (S n) (Failed e)
                | (acc', None) =>
                    let has_is_last := bool_decide (is_Some (is_last page)) in
                    if has_is_last && default false (is_last page) then
                      mkRun acc' (S n) Done
                    else if (Z.of_nat (length vals) <? page_size)%Z then
                      mkRun acc' (S n) Done
                    else if (length vals =? 0)%nat then
                      mkRun acc' (S n) Done
                    else
                      boards_loop fuel' (S n)
                                  (start_at + Z.of_nat (length vals))%Z seen' acc'
                end
            end
        end
  end.
End Boards.

(** [iter_boards_via_rest(client, page_size)], drained. *)
Definition iter_boards_via_rest (fuel : nat) (page_size : Z) : run JiraBoard :=
  if (page_size <=? 0)%Z then
    mkRun [] 0 (Failed (ValueError "page_size must be > 0"))
  else boards_loop page_size fuel 0 0%Z ∅ [].
End Client.

End RestPaging.

(** ** GraphQL results ([atlassian_graphql/models.py]) *)

Record GraphQLResult := mkGraphQLResult {
  data : json;
  errors : option (list GraphQLErrorItem);
  extensions : json
}.

(** Truthiness of [result.errors]. *)
Definition has_errors (r : GraphQLResult) : bool :=
  match errors r with
  | Some (_ :: _) => true
  | _ => false
  end.

(** The variables of the two queries. *)
Record Variables := mkVariables {
  var_cloudId : string;
  var_key : string;
  var_first : option Z;
  var_after : option string
}.

(** The handler [except SerializationError as exc: if result.errors: raise
    GraphQLOperationError(errors=result.errors, partial_data=result.data)
    from exc; raise] around a parser. *)
Definition parse_or_operation_error {A} (parse : json -> result A)
           (r : GraphQLResult) : result A :=
  match parse (data r) with
  | inl (SerializationError msg) =>
      if has_errors r then
        inl (GraphQLOperationError (default [] (errors r)) (data r))
      else inl (SerializationError msg)
  | other => other
  end.

(** ** Worklog models, as rendered by [tools/generate_jira_worklog_models.py] *)

Module WorklogsApi.
Import Expect.

Record PageInfo := mkPageInfo {
  has_next_page : bool;
  end_cursor : option string
}.

Record ApiUser := mkApiUser { api_account_id : string; api_name : string }.

Record JiraEstimate := mkJiraEstimate { time_in_seconds : option Z }.

Record JiraWorklogNode := mkJiraWorklogNode {
  worklog_id : string;
  author : option ApiUser;
  time_spent : JiraEstimate;
  created : string;
  updated : option string;
  started : option string
}.

Record JiraWorklogEdge := mkJiraWorklogEdge {
  cursor : option string;
  node : JiraWorklogNode
}.

Record JiraWorklogConnection := mkJiraWorklogConnection {
  page_info : PageInfo;
  edges : list JiraWorklogEdge
}.

Section Schema.
(** The two constants the generator derives from the schema. *)
Variable PAGEINFO_HAS_END_CURSOR : bool.
Variable WORKLOGS_EDGE_HAS_CURSOR : bool.

Definition PageInfo_from_dict (obj : json) (path : string) : result PageInfo :=
  raw ← _expect_dict obj path;
  has_next ← match dict_get raw "hasNextPage" with
             | JBool b => inr b
             | _ => inl (SerializationError
                           ("Expected boolean at " +:+ path +:+ ".hasNextPage"))
             end;
  end_cursor ← (if PAGEINFO_HAS_END_CURSOR then
                  optional _expect_str (dict_get raw "endCursor")
                           (path +:+ ".endCursor")
                else inr None);
  mret (mkPageInfo has_next end_cursor).

Definition ApiUser_from_dict (obj : json) (path : string) : result ApiUser :=
  raw ← _expect_dict obj path;
  account_id ← _expect_str (dict_get raw "accountId") (path +:+ ".accountId");
  name ← _expect_str (dict_get raw "name") (path +:+ ".name");
  mret (mkApiUser account_id name).

Definition JiraEstimate_from_dict (obj : json) (path : string) : result JiraEstimate :=
  raw ← _expect_dict obj path;
  v ← optional _expect_int (dict_get raw "timeInSeconds") (path +:+ ".timeInSeconds");
  mret (mkJiraEstimate v).

Definition JiraWorklogNode_from_dict (obj : json) (path : string)
  : result JiraWorklogNode :=
  raw ← _expect_dict obj path;
  worklog_id ← _expect_str (dict_get raw "worklogId") (path +:+ ".worklogId");
  author ← optional ApiUser_from_dict (dict_get raw "author") (path +:+ ".author");
  time_spent ← JiraEstimate_from_dict (dict_get raw "timeSpent") (path +:+ ".timeSpent");
  created ← _expect_str (dict_get raw "created") (path +:+ ".created");
  updated ← _expect_optional_str (dict_get raw "updated") (path +:+ ".updated");
  started ← _expect_optional_str (dict_get raw "startDate") (path +:+ ".startDate");
  mret (mkJiraWorklogNode worklog_id author time_spent created updated started).

Definition JiraWorklogEdge_from_dict (obj : json) (path : string)
  : result JiraWorklogEdge :=
  raw ← _expect_dict obj path;
  cursor ← (if WORKLOGS_EDGE_HAS_CURSOR then
              optional _expect_str (dict_get raw "cursor") (path +:+ ".cursor")
            else inr None);
  node ← JiraWorklogNode_from_dict (dict_get raw "node") (path +:+ ".node");
  mret (mkJiraWorklogEdge cursor node).

Definition JiraWorklogConnection_from_dict (obj : json) (path : string)
  : result JiraWorklogConnection :=
  raw ← _expect_dict obj path;
  page_info ← PageInfo_from_dict (dict_get raw "pageInfo") (path +:+ ".pageInfo");
  edges_list ← _expect_list (dict_get raw "edges") (path +:+ ".edges");
  edges ← from_dict_items JiraWorklogEdge_from_dict (path +:+ ".edges") 0 edges_list;
  mret (mkJiraWorklogConnection page_info edges).

Definition parse_issue_worklogs_page (data : json) : result JiraWorklogConnection :=
  root ← _expect_dict data "data";
  match dict_get root "issue" with
  | JNull => inl (SerializationError "Missing data.issue")
  | issue =>
      issue_obj ← _expect_dict issue "data.issue";
      match dict_get issue_obj "worklogs" with
      | JNull => inl (SerializationError "Missing data.issue.worklogs")
      | worklogs => JiraWorklogConnection_from_dict worklogs "data.issue.worklogs"
      end
  end.
End Schema.

End WorklogsApi.

(** ** Cursor-based pagination over GraphQL
       ([atlassian/graph/api/jira_worklogs.py],
        [atlassian/graph/mappers/jira_worklogs.py]) *)

Module WorklogPaging.
Import WorklogsApi.

(** [_require_non_empty(value, path)] on an [Optional[str]] *)
Definition _require_non_empty (value : option string) (path : string) : result string :=
  match value with
  | Some s =>
      if PyStr.truthy (PyStr.strip s) then inr (PyStr.strip s)
      else inl (ValueError (path +:+ " is required"))
  | None => inl (ValueError (path +:+ " is required"))
  end.

Definition _map_user (user : option ApiUser) (path : string) : result (option JiraUser) :=
  match user with
  | None => inr None
  | Some u =>
      account_id ← _require_non_empty (Some (api_account_id u)) (path +:+ ".accountId");
      display_name ← _require_non_empty (Some (api_name u)) (path +:+ ".name");
      mret (Some (mkJiraUser account_id display_name None))
  end.

(** [map_worklog(issue_key=..., worklog=...)] *)
Definition map_worklog (issue_key : string) (worklog : JiraWorklogNode)
  : result JiraWorklog :=
  let issue_key_clean := PyStr.strip issue_key in
  if negb (PyStr.truthy issue_key_clean) then inl (ValueError "issue_key is required")
  else
    worklog_id ← _require_non_empty (Some (worklog_id worklog)) "worklog.worklogId";
    started_at ← _require_non_empty (started worklog) "worklog.startDate";
    created_at ← _require_non_empty (Some (created worklog)) "worklog.created";
    updated_at ← _require_non_empty (updated worklog) "worklog.updated";
    match time_in_seconds (time_spent worklog) with
    | None => inl (ValueError "worklog.timeSpent.timeInSeconds is required")
    | Some secs =>
        if (secs <? 0)%Z then
          inl (ValueError "worklog.timeSpent.timeInSeconds must be >= 0")
        else
          author ← _map_user (author worklog) "worklog.author";
          mret (mkJiraWorklog issue_key_clean worklog_id started_at secs
                              created_at updated_at author)
    end.

(** [for cursor in cursors: if cursor: return cursor] *)
Fixpoint first_truthy (cursors : list (option string)) : option string :=
  match cursors with
  | [] => None
  | c :: rest => if PyStr.otruthy c then c else first_truthy rest
  end.

Definition cursor_repeated : error :=
  SerializationError "Pagination cursor repeated; aborting to prevent infinite loop".

Section Client.
Variable PAGEINFO_HAS_END_CURSOR : bool.
Variable WORKLOGS_EDGE_HAS_CURSOR : bool.

(** [client.execute(query, variables=, operation_name=, experimental_apis=)]
    for the worklogs page query; the first argument counts the requests
    already made in this run. *)
Variable execute : nat -> Variables -> option (list string) -> result GraphQLResult.

(** [_next_after_from_pageinfo] *)
Definition _next_after_from_pageinfo (has_next_page : bool)
           (end_cursor : option string) (edge_has_cursor : bool)
           (edges_cursors : list (option string)) (path : string)
  : result (option string) :=
  if negb has_next_page then inr None
  else if PAGEINFO_HAS_END_CURSOR && PyStr.otruthy end_cursor then inr end_cursor
  else
    match (if edge_has_cursor then first_truthy (reverse edges_cursors)
           else None) with
    | Some c => inr (Some c)
    | None => inl (SerializationError ("Pagination cursor missing for " +:+ path))
    end.

Section Run.
Variable cloud_id_clean : string.
Variable issue_key_clean : string.
Variable page_size : Z.
Variable experimental_apis : option (list string).

(** The call of [_next_after_from_pageinfo] in the loop. *)
Definition next_after_of (conn : JiraWorklogConnection) : result (option string) :=
  _next_after_from_pageinfo (has_next_page (page_info conn))
                            (end_cursor (page_info conn))
                            WORKLOGS_EDGE_HAS_CURSOR
                            (cursor <$> edges conn)
                            ("jira.issue[" +:+ issue_key_clean +:+ "].worklogs").

(** The [while True] loop of [iter_issue_worklogs_via_graphql]. *)
Fixpoint worklogs_loop (fuel : nat) (n : nat) (after : option string)
         (seen_after : gset string) (acc : list JiraWorklog) : run JiraWorklog :=
  match fuel with
  | O => mkRun acc n Fetching
  | S fuel' =>
      match execute n (mkVariables cloud_id_clean issue_key_clean
                                   (Some page_size) after)
                    experimental_apis with
      | inl e => mkRun acc (S n) (Failed e)
      | inr r =>
          match data r with
          | JNull =>
              mkRun acc (S n)
                    (Failed (SerializationError "Missing GraphQL data in response"))
          | _ =>
              match parse_or_operation_error
                      (parse_issue_worklogs_page PAGEINFO_HAS_END_CURSOR
                                                 WORKLOGS_EDGE_HAS_CURSOR) r with
              | inl e => mkRun acc (S n) (Failed e)
              | inr conn =>
                  match drain (fun e => map_worklog issue_key_clean (node e))
                              (edges conn) acc with
                  | (acc', Some e) => mkRun acc' (S n) (Failed e)
                  | (acc', None) =>
                      match next_after_of conn with
                      | inl e => mkRun acc' (S n) (Failed e)
                      | inr None => mkRun acc' (S n) Done
                      | inr (Some next_after) =>
                          if decide (next_after ∈ seen_after) then
                            mkRun acc' (S n) (Failed cursor_repeated)
                          else
                            worklogs_loop fuel' (S n) (Some next_after)
                                          ({[next_after]} ∪ seen_after) acc'
                      end
                  end
              end
          end
      end
  end.
End Run.

(** [iter_issue_worklogs_via_graphql(client, cloud_id=, issue_key=,
    page_size=, experimental_apis=)], drained. *)
Definition iter_issue_worklogs_via_graphql (fuel : nat) (cloud_id issue_key : string)
           (page_size : Z) (experimental_apis : option (list string))
  : run JiraWorklog :=
  let cloud_id_clean := PyStr.strip cloud_id in
  if negb (PyStr.truthy cloud_id_clean) then
    mkRun [] 0 (Failed (ValueError "cloud_id is required"))
  else
    let issue_key_clean := PyStr.strip issue_key in
    if negb (PyStr.truthy issue_key_clean) then
      mkRun [] 0 (Failed (ValueError "issue_key is required"))
    else if (page_size <=? 0)%Z then
      mkRun [] 0 (Failed (ValueError "page_size must be > 0"))
    else
      worklogs_loop cloud_id_clean issue_key_clean page_size
                    (match experimental_apis with
                     | Some (x :: l) => Some (x :: l)
                     | _ => None
                     end)
                    fuel 0 None ∅ [].
End Client.

End WorklogPaging.

(** ** Issue models, as rendered by [tools/generate_jira_issue_models.py] *)

Module IssuesApi.
Import Expect.

Record ApiUser := mkApiUser { api_account_id : string; api_name : string }.
Record JiraIssueType := mkJiraIssueType { type_name : string }.
Record JiraStatus := mkJiraStatus { status_name : string }.
Record JiraProject := mkJiraProject { project_key : string; project_cloud_id : string }.
Record JiraProjectField := mkJiraProjectField { project : JiraProject }.
Record JiraDateTimePickerField := mkDateTimeField { date_time : option string }.
Record JiraSingleSelectUserPickerField := mkUserPickerField { user : option ApiUser }.

Record JiraIssueNode := mkJiraIssueNode {
  key : string;
  issue_type : JiraIssueType;
  status_field : JiraStatus;
  project_field : JiraProjectField;
  created_field : JiraDateTimePickerField;
  updated_field : JiraDateTimePickerField;
  resolution_date_field : option JiraDateTimePickerField;
  assignee_field : option JiraSingleSelectUserPickerField;
  reporter : option ApiUser
}.

Definition ApiUser_from_dict (obj : json) (path : string) : result ApiUser :=
  raw ← _expect_dict obj path;
  account_id ← _expect_str (dict_get raw "accountId") (path +:+ ".accountId");
  name ← _expect_str (dict_get raw "name") (path +:+ ".name");
  mret (mkApiUser account_id name).

Definition JiraIssueType_from_dict (obj : json) (path : string) : result JiraIssueType :=
  raw ← _expect_dict obj path;
  name ← _expect_str (dict_get raw "name") (path +:+ ".name");
  mret (mkJiraIssueType name).

Definition JiraStatus_from_dict (obj : json) (path : string) : result JiraStatus :=
  raw ← _expect_dict obj path;
  name ← _expect_str (dict_get raw "name") (path +:+ ".name");
  mret (mkJiraStatus name).

Definition JiraProject_from_dict (obj : json) (path : string) : result JiraProject :=
  raw ← _expect_dict obj path;
  key ← _expect_str (dict_get raw "key") (path +:+ ".key");
  cloud_id ← _expect_str (dict_get raw "cloudId") (path +:+ ".cloudId");
  mret (mkJiraProject key cloud_id).

Definition JiraProjectField_from_dict (obj : json) (path : string)
  : result JiraProjectField :=
  raw ← _expect_dict obj path;
  project ← JiraProject_from_dict (dict_get raw "project") (path +:+ ".project");
  mret (mkJiraProjectField project).

Definition JiraDateTimePickerField_from_dict (obj : json) (path : string)
  : result JiraDateTimePickerField :=
  raw ← _expect_dict obj path;
  date_time ← _expect_optional_str (dict_get raw "dateTime") (path +:+ ".dateTime");
  mret (mkDateTimeField date_time).

Definition JiraSingleSelectUserPickerField_from_dict (obj : json) (path : string)
  : result JiraSingleSelectUserPickerField :=
  raw ← _expect_dict obj path;
  user ← optional ApiUser_from_dict (dict_get raw "user") (path +:+ ".user");
  mret (mkUserPickerField user).

Definition JiraIssueNode_from_dict (obj : json) (path : string) : result JiraIssueNode :=
  raw ← _expect_dict obj path;
  key ← _expect_str (dict_get raw "key") (path +:+ ".key");
  issue_type ← JiraIssueType_from_dict (dict_get raw "issueType") (path +:+ ".issueType");
  status ← JiraStatus_from_dict (dict_get raw "status") (path +:+ ".status");
  project_field ← JiraProjectField_from_dict (dict_get raw "projectField")
                                             (path +:+ ".projectField");
  created_field ← JiraDateTimePickerField_from_dict (dict_get raw "createdField")
                                                    (path +:+ ".createdField");
  updated_field ← JiraDateTimePickerField_from_dict (dict_get raw "updatedField")
                                                    (path +:+ ".updatedField");
  resolution ← optional JiraDateTimePickerField_from_dict
                        (dict_get raw "resolutionDateField")
                        (path +:+ ".resolutionDateField");
  assignee ← optional JiraSingleSelectUserPickerField_from_dict
                      (dict_get raw "assigneeField") (path +:+ ".assigneeField");
  reporter ← optional ApiUser_from_dict (dict_get raw "reporter") (path +:+ ".reporter");
  mret (mkJiraIssueNode key issue_type status project_field created_field
                        updated_field resolution assignee reporter).

Definition parse_jira_issue_by_key (data : json) : result JiraIssueNode :=
  root ← _expect_dict data "data";
  match dict_get root "issueByKey" with
  | JNull => inl (SerializationError "Missing data.issueByKey")
  | issue => JiraIssueNode_from_dict issue "data.issueByKey"
  end.

End IssuesApi.

(** ** The single-issue accessor
       ([atlassian/graph/api/jira_issues.py],
        [atlassian/graph/mappers/jira_issues.py]) *)

Module IssueApi.
Import IssuesApi.

Definition _require_non_empty (value : option string) (path : string) : result string :=
  match value with
  | Some s =>
      if PyStr.truthy (PyStr.strip s) then inr (PyStr.strip s)
      else inl (ValueError (path +:+ " is required"))
  | None => inl (ValueError (path +:+ " is required"))
  end.

Definition _map_user (user : option ApiUser) (path : string) : result (option JiraUser) :=
  match user with
  | None => inr None
  | Some u =>
      account_id ← _require_non_empty (Some (api_account_id u)) (path +:+ ".accountId");
      display_name ← _require_non_empty (Some (api_name u)) (path +:+ ".name");
      mret (Some (mkJiraUser account_id display_name None))
  end.

(** [map_issue(cloud_id=..., issue=...)] *)
Definition map_issue (cloud_id : string) (issue : JiraIssueNode) : result JiraIssue :=
  let cloud_id_clean := PyStr.strip cloud_id in
  if negb (PyStr.truthy cloud_id_clean) then inl (ValueError "cloud_id is required")
  else
    issue_key ← _require_non_empty (Some (key issue)) "issue.key";
    issue_type ← _require_non_empty (Some (type_name (issue_type issue)))
                                    "issue.issueType.name";
    status ← _require_non_empty (Some (status_name (status_field issue)))
                                "issue.status.name";
    let project := project (project_field issue) in
    project_key ← _require_non_empty (Some (project_key project))
                                     "issue.projectField.project.key";
    project_cloud_id ← _require_non_empty (Some (project_cloud_id project))
                                          "issue.projectField.project.cloudId";
    if negb (String.eqb project_cloud_id cloud_id_clean) then
      inl (ValueError "issue.projectField.project.cloudId does not match cloud_id")
    else
      created_at ← _require_non_empty (date_time (created_field issue))
                                      "issue.createdField.dateTime";
      updated_at ← _require_non_empty (date_time (updated_field issue))
                                      "issue.updatedField.dateTime";
      let resolved_at :=
        match resolution_date_field issue with
        | Some f => if PyStr.otruthy (date_time f)
                    then PyStr.strip <$> date_time f else None
        | None => None
        end in
      let assignee_user :=
        match assignee_field issue with Some f => user f | None => None end in
      assignee ← _map_user assignee_user "issue.assigneeField.user";
      reporter ← _map_user (reporter issue) "issue.reporter";
      mret (mkJiraIssue project_cloud_id issue_key project_key issue_type status
                        created_at updated_at resolved_at assignee reporter
                        [] [] None []).

Section Client.
(** [client.execute(query, variables=, operation_name=, experimental_apis=)]
    for the issue-by-key query. *)
Variable execute : Variables -> option (list string) -> result GraphQLResult.

(** [get_issue_by_key(client, cloud_id, issue_key, experimental_apis=)] *)
Definition get_issue_by_key (cloud_id issue_key : string)
           (experimental_apis : option (list string)) : result JiraIssue :=
  let cloud_id_clean := PyStr.strip cloud_id in
  if negb (PyStr.truthy cloud_id_clean) then inl (ValueError "cloud_id is required")
  else
    let key_clean := PyStr.strip issue_key in
    if negb (PyStr.truthy key_clean) then inl (ValueError "issue_key is required")
    else
      r ← execute (mkVariables cloud_id_clean key_clean None None)
                  (match experimental_apis with
                   | Some (x :: l) => Some (x :: l)
                   | _ => None
                   end);
      match data r with
      | JNull => inl (SerializationError "Missing GraphQL data in response")
      | _ =>
          issue ← parse_or_operation_error parse_jira_issue_by_key r;
          map_issue cloud_id_clean issue
      end.
End Client.


End IssueApi.

(** ** Parsing of [Retry-After] ([atlassian_graphql/retry.py]) *)

Module Retry.
Local Open Scope Z_scope.

(** A [datetime.datetime]: the civil fields, and [tzinfo] as the offset
    from UTC in seconds ([None] for a naive value). *)
Record datetime := mkDatetime {
  year : Z; month : Z; day : Z;
  hour : Z; minute : Z; second : Z; microsecond : Z;
  tzinfo : option Z
}.

Definition is_leap (y : Z) : bool :=
  ((y mod 4 =? 0) && negb (y mod 100 =? 0)) || (y mod 400 =? 0).

Definition days_in_month (y m : Z) : Z :=
  if m =? 2 then (if is_leap y then 29 else 28)
  else if (m =? 4) || (m =? 6) || (m =? 9) || (m =? 11) then 30
  else 31.

(** The checks of the [datetime] constructor. *)
Definition valid_datetime (d : datetime) : bool :=
  (1 <=? year d) && (year d <=? 9999) &&
  (1 <=? month d) && (month d <=? 12) &&
  (1 <=? day d) && (day d <=? days_in_month (year d) (month d)) &&
  (0 <=? hour d) && (hour d <=? 23) &&
  (0 <=? minute d) && (minute d <=? 59) &&
  (0 <=? second d) && (second d <=? 59) &&
  (0 <=? microsecond d) && (microsecond d <=? 999999) &&
  match tzinfo d with
  | Some off => (-86400 <? off) && (off <? 86400)
  | None => true
  end.

(** Days between 1970-01-01 and the civil date, proleptic Gregorian. *)
Definition days_from_civil (y m d : Z) : Z :=
  let y' := if m <=? 2 then y - 1 else y in
  let era := y' / 400 in
  let yoe := y' - era * 400 in
  let mp := (m + 9) mod 12 in
  let doy := (153 * mp + 2) / 5 + d - 1 in
  let doe := yoe * 365 + yoe / 4 - yoe / 100 + doy in
  era * 146097 + doe - 719468.

(** Microseconds between the epoch and a civil UTC time. *)
Definition utc_micros (y m d hh mm ss us : Z) : Z :=
  (((days_from_civil y m d * 24 + hh) * 60 + mm) * 60 + ss) * 1000000 + us.

(** [parsed.astimezone(timezone.utc)] on an aware value.  The UTC
    [datetime] that results is represented by its instant, in
    microseconds since the epoch; a result outside the years 1..9999
    raises [OverflowError]. *)
Definition astimezone_utc (d : datetime) : option Z :=
  match tzinfo d with
  | None => None
  | Some off =>
      let t := utc_micros (year d) (month d) (day d) (hour d) (minute d) (second d)
                          (microsecond d) - off * 1000000 in
      if (utc_micros 1 1 1 0 0 0 0 <=? t) && (t <=? utc_micros 9999 12 31 23 59 59 999999)
      then Some t else None
  end.

(** [if parsed.tzinfo is None: parsed = parsed.replace(tzinfo=timezone.utc)] *)
Definition assume_utc (d : datetime) : datetime :=
  match tzinfo d with
  | None => mkDatetime (year d) (month d) (day d) (hour d) (minute d) (second d)
                       (microsecond d) (Some 0)
  | Some _ => d
  end.

(** [cleaned]: a final [Z] is replaced by [+00:00]. *)
Definition cleaned (candidate : string) : string :=
  if PyStr.ends_with_Z candidate then PyStr.drop_last candidate +:+ "+00:00"
  else candidate.

(** What both [try] blocks do with a parsed value. *)
Definition to_utc (parsed : datetime) : option Z :=
  astimezone_utc (assume_utc parsed).

Section Parsers.
(** The two parsers of the Python standard library; [None] stands for
    any exception. *)
Variable fromisoformat : string -> option datetime.
Variable parsedate_to_datetime : string -> option datetime.

(** [parse_retry_after(header_value)] *)
Definition parse_retry_after (header_value : option string) : result (Z * string) :=
  match header_value with
  | None => inl (ValueError "Retry-After header is missing")
  | Some h =>
      let candidate := PyStr.strip h in
      if negb (PyStr.truthy candidate) then
        inl (ValueError "Retry-After header is empty")
      else
        match fromisoformat (cleaned candidate) ≫= to_utc with
        | Some t => inr (t, "rfc3339")
        | None =>
            match parsedate_to_datetime candidate ≫= to_utc with
            | Some t => inr (t, "http-date")
            | None =>
                inl (ValueError ("Unable to parse Retry-After header: " +:+ candidate))
            end
        end
  end.
End Parsers.

(** *** The standard-library parsers on the two documented forms

    [datetime.fromisoformat] and [email.utils.parsedate_to_datetime]
    belong to the Python standard library, not to this repository.  The
    two definitions below are partial models of them: they agree with
    the library on the strings of the forms they name and answer [None]
    on every other string, also on those that the library parses.  They
    serve to evaluate [parse_retry_after] on the headers of the
    specification; the general statements quantify over the parsers. *)

Definition digit (c : ascii) : option Z :=
  let n := nat_of_ascii c in
  if ((48 <=? n)%nat && (n <=? 57)%nat) then Some (Z.of_nat n - 48) else None.

Fixpoint number (cs : list ascii) (acc : Z) : option Z :=
  match cs with
  | [] => Some acc
  | c :: rest => d ← digit c; number rest (10 * acc + d)
  end.

(** A field of exactly [n] decimal digits. *)
Definition fixed (n : nat) (cs : list ascii) : option (Z * list ascii) :=
  if (length (take n cs) =? n)%nat then
    v ← number (take n cs) 0; Some (v, drop n cs)
  else None.

Definition expect_char (c : ascii) (cs : list ascii) : option (list ascii) :=
  match cs with
  | x :: rest => if Ascii.eqb x c then Some rest else None
  | [] => None
  end.

Definition checked (d : datetime) : option datetime :=
  if valid_datetime d then Some d else None.

(** The UTC offset [+HH:MM] or [-HH:MM] that ends an ISO string. *)
Definition iso_offset (cs : list ascii) : option (option Z) :=
  match cs with
  | [] => Some None
  | sign :: rest =>
      sgn ← (if Ascii.eqb sign "+" then Some 1
             else if Ascii.eqb sign "-" then Some (-1) else None);
      '(hh, r1) ← fixed 2 rest;
      r2 ← expect_char ":" r1;
      '(mm, r3) ← fixed 2 r2;
      match r3 with
      | [] => Some (Some (sgn * (hh * 3600 + mm * 60)))
      | _ => None
      end
  end.

(** [datetime.fromisoformat] on [YYYY-MM-DD] and
    [YYYY-MM-DD*HH:MM:SS[.ffffff][+HH:MM]]; every other string is
    rejected. *)
Definition py_fromisoformat (s : string) : option datetime :=
  let cs := String.list_ascii_of_string s in
  '(y, c1) ← fixed 4 cs;
  c2 ← expect_char "-" c1;
  '(m, c3) ← fixed 2 c2;
  c4 ← expect_char "-" c3;
  '(d, c5) ← fixed 2 c4;
  match c5 with
  | [] => checked (mkDatetime y m d 0 0 0 0 None)
  | _sep :: c6 =>
      '(hh, c7) ← fixed 2 c6;
      c8 ← expect_char ":" c7;
      '(mm, c9) ← fixed 2 c8;
      c10 ← expect_char ":" c9;
      '(ss, c11) ← fixed 2 c10;
      '(us, c12) ← match c11 with
                    | dot :: frac =>
                        if Ascii.eqb dot "." then fixed 6 frac else Some (0, c11)
                    | [] => Some (0, c11)
                    end;
      off ← iso_offset c12;
      checked (mkDatetime y m d hh mm ss us off)
  end.

Definition month_of_name (name : string) : option Z :=
  let n := PyStr.lower name in
  if String.eqb n "jan" then Some 1 else if String.eqb n "feb" then Some 2
  else if String.eqb n "mar" then Some 3 else if String.eqb n "apr" then Some 4
  else if String.eqb n "may" then Some 5 else if String.eqb n "jun" then Some 6
  else if String.eqb n "jul" then Some 7 else if String.eqb n "aug" then Some 8
  else if String.eqb n "sep" then Some 9 else if String.eqb n "oct" then Some 10
  else if String.eqb n "nov" then Some 11 else if String.eqb n "dec" then Some 12
  else None.

(** Splitting on runs of spaces. *)
Fixpoint words (cs : list ascii) (cur : list ascii) : list (list ascii) :=
  match cs with
  | [] => match cur with [] => [] | _ => [reverse cur] end
  | c :: rest =>
      if Ascii.eqb c " " then
        match cur with
        | [] => words rest []
        | _ => reverse cur :: words rest []
        end
      else words rest (c :: cur)
  end.

Definition ends_with_comma (w : list ascii) : bool :=
  match reverse w with
  | c :: _ => Ascii.eqb c ","
  | [] => false
  end.

(** The zone of an HTTP-date: [GMT], [UT], [UTC] or a numeric offset;
    [-0000] yields a naive value. *)
Definition http_zone (w : list ascii) : option (option Z) :=
  let z := String.string_of_list_ascii w in
  if String.eqb z "GMT" || String.eqb z "UT" || String.eqb z "UTC" then Some (Some 0)
  else
    match w with
    | sign :: digits =>
        sgn ← (if Ascii.eqb sign "+" then Some 1
               else if Ascii.eqb sign "-" then Some (-1) else None);
        '(hh, r1) ← fixed 2 digits;
        '(mm, r2) ← fixed 2 r1;
        match r2 with
        | [] => if (sgn =? -1) && (hh =? 0) && (mm =? 0) then Some None
                else Some (Some (sgn * (hh * 3600 + mm * 60)))
        | _ => None
        end
    | [] => None
    end.

(** [email.utils.parsedate_to_datetime] on the form
    [[Day,] DD Mon YYYY HH:MM:SS zone]; the name of the day is skipped
    without being checked against the date. *)
Definition py_parsedate_to_datetime (s : string) : option datetime :=
  let ws := words (String.list_ascii_of_string s) [] in
  let ws := match ws with
            | w :: rest => if ends_with_comma w then rest else ws
            | [] => ws
            end in
  match ws with
  | [dd; mon; yyyy; time; zone] =>
      d ← (if (1 <=? length dd)%nat && (length dd <=? 2)%nat
           then number dd 0 else None);
      m ← month_of_name (String.string_of_list_ascii mon);
      '(y, r) ← fixed 4 yyyy;
      _ ← (match r with [] => Some tt | _ => None end);
      '(hh, t1) ← fixed 2 time;
      t2 ← expect_char ":" t1;
      '(mm, t3) ← fixed 2 t2;
      t4 ← expect_char ":" t3;
      '(ss, t5) ← fixed 2 t4;
      _ ← (match t5 with [] => Some tt | _ => None end);
      off ← http_zone zone;
      checked (mkDatetime y m d hh mm ss 0 off)
  | _ => None
  end.

End Retry.

(** ** Credentials from the environment
       ([_auth_from_env], [_env_experimental_apis] and [fetch_issue_by_key] of
        [atlassian/graph/api/jira_issues.py]; [jira_worklogs.py] and
        [jira_sprints.py] carry the same [_auth_from_env]) *)

Module EnvAuth.

(** The authentication providers, as the values their constructors are
    given. *)
Inductive AuthProvider : Type :=
| OAuthRefreshTokenAuth (client_id client_secret refresh_token : string)
| OAuthBearerAuth (token : string)
| BasicApiTokenAuth (email api_token : string)
| CookieAuth (cookies : gmap string json).

Definition is_str (v : json) : bool :=
  match v with JStr _ => true | _ => false end.

(** [raw.split(",")] *)
Fixpoint split_comma (s : string) (cur : string) : list string :=
  match s with
  | EmptyString => [String.rev cur]
  | String c rest =>
      if Ascii.eqb c "," then String.rev cur :: split_comma rest EmptyString
      else split_comma rest (String c cur)
  end.

Definition access_token_is_client_secret : error :=
  ValueError
    ("ATLASSIAN_OAUTH_ACCESS_TOKEN appears to be set to ATLASSIAN_CLIENT_SECRET; "
     +:+ "set an OAuth access token (not the client secret).").

Definition missing_configuration : error :=
  ValueError
    ("Missing ATLASSIAN_GQL_BASE_URL and/or credentials. "
     +:+ "Set ATLASSIAN_OAUTH_ACCESS_TOKEN, or ATLASSIAN_OAUTH_REFRESH_TOKEN + "
     +:+ "(ATLASSIAN_CLIENT_ID + ATLASSIAN_CLIENT_SECRET), or "
     +:+ "(ATLASSIAN_EMAIL + ATLASSIAN_API_TOKEN), or ATLASSIAN_COOKIES_JSON.").

Section Environment.
(** The process environment: [os.getenv(name)] is [env !! name]. *)
Variable env : gmap string string.

(** [json.loads]; [None] stands for [json.JSONDecodeError]. *)
Variable json_loads : string -> option json.

(** [_env_experimental_apis()] *)
Definition _env_experimental_apis : list string :=
  let raw := default "" (env !! "ATLASSIAN_GQL_EXPERIMENTAL_APIS") in
  omap (fun part => if PyStr.truthy (PyStr.strip part)
                    then Some (PyStr.strip part) else None)
       (split_comma raw EmptyString).

(** [_auth_from_env()] *)
Definition _auth_from_env : result (option AuthProvider) :=
  let token := env !! "ATLASSIAN_OAUTH_ACCESS_TOKEN" in
  let refresh_token := env !! "ATLASSIAN_OAUTH_REFRESH_TOKEN" in
  let client_id := env !! "ATLASSIAN_CLIENT_ID" in
  let client_secret := env !! "ATLASSIAN_CLIENT_SECRET" in
  let email := env !! "ATLASSIAN_EMAIL" in
  let api_token := env !! "ATLASSIAN_API_TOKEN" in
  let cookies_json := env !! "ATLASSIAN_COOKIES_JSON" in
  if PyStr.otruthy refresh_token && PyStr.otruthy client_id
     && PyStr.otruthy client_secret then
    inr (Some (OAuthRefreshTokenAuth (default "" client_id)
                                     (default "" client_secret)
                                     (default "" refresh_token)))
  else if PyStr.otruthy token then
    if PyStr.otruthy client_secret
       && String.eqb (PyStr.strip (default "" token))
                     (PyStr.strip (default "" client_secret)) then
      inl access_token_is_client_secret
    else inr (Some (OAuthBearerAuth (default "" token)))
  else if PyStr.otruthy email && PyStr.otruthy api_token then
    inr (Some (BasicApiTokenAuth (default "" email) (default "" api_token)))
  else if PyStr.otruthy cookies_json then
    match json_loads (default "" cookies_json) with
    | None => inr None
    | Some (JDict cookies) =>
        if map_fold (fun _ v ok => ok && is_str v) true cookies then
          inr (Some (CookieAuth cookies))
        else inr None
    | Some _ => inr None
    end
  else inr None.

(** The [execute] method of a [GraphQLClient] built for a base URL and
    an authentication provider. *)
Variable client : string -> AuthProvider -> Variables -> option (list string)
                  -> result GraphQLResult.

(** [fetch_issue_by_key(cloud_id, issue_key)] *)
Definition fetch_issue_by_key (cloud_id issue_key : string) : result JiraIssue :=
  let base_url := env !! "ATLASSIAN_GQL_BASE_URL" in
  auth ← _auth_from_env;
  let base_url :=
    if negb (PyStr.otruthy base_url)
       && (PyStr.otruthy (env !! "ATLASSIAN_OAUTH_ACCESS_TOKEN")
           || PyStr.otruthy (env !! "ATLASSIAN_OAUTH_REFRESH_TOKEN"))
    then Some "https://api.atlassian.com" else base_url in
  match auth with
  | Some a =>
      if negb (PyStr.otruthy base_url) then inl missing_configuration
      else
        let experimental_apis := _env_experimental_apis in
        IssueApi.get_issue_by_key (client (default "" base_url) a)
                                  cloud_id issue_key
                                  (match experimental_apis with
                                   | [] => None
                                   | l => Some l
                                   end)
  | None => inl missing_configuration
  end.
End Environment.

End EnvAuth.

(** ** Vocabulary of the statements

    Predicates used to state the properties below; none of them is part of
    the program. *)

Module Vocabulary.


(** [m] raises nothing but exceptions in [P]. *)
Definition raises_only (P : error -> Prop) {A} (m : result A) : Prop :=
  forall e, m = inl e -> P e.


(** A serialization error of a type check. *)
Definition is_expected (e : error) : Prop :=
  exists what, e = SerializationError ("Expected " +:+ what).

Definition is_value_error (e : error) : Prop := exists msg, e = ValueError msg.

(** An error that names the offending path: the message of a type check
    on [path] or on something below it. *)
Definition names_path (path : string) (e : error) : Prop :=
  exists kind suffix,
    e = SerializationError ("Expected " +:+ kind +:+ " at " +:+ path +:+ suffix).

Section Rest.
Variable get_json : nat -> string -> list (string * json) -> result json.

(** Request number [n], for the sprints of a board from [start_at] on,
    is answered with a payload that parses to [page] and whose sprints
    map to [items]. *)
Definition serves_sprints (board_path : string) (state_clean : option string)
           (page_size : Z) (n : nat) (start_at : Z)
           (page : AgileApi.Page AgileApi.Sprint) (items : list JiraSprint) : Prop :=
  exists payload,
    get_json n board_path (RestPaging.sprint_params state_clean page_size start_at)
    = inr payload /\
    AgileApi.SprintPage_from_dict payload "data" = inr page /\
    mapM RestPaging.map_sprint (AgileApi.values page) = inr items.
End Rest.

Section GraphQL.
Variable PAGEINFO_HAS_END_CURSOR : bool.
Variable WORKLOGS_EDGE_HAS_CURSOR : bool.
Variable execute : nat -> Variables -> option (list string) -> result GraphQLResult.

(** Request number [n], made with the cursor [after], is answered with
    a response that parses to [conn] and whose nodes map to [items]. *)
Definition answers_page (cloud_id issue_key : string) (page_size : Z)
           (apis : option (list string)) (n : nat) (after : option string)
           (conn : WorklogsApi.JiraWorklogConnection) (items : list JiraWorklog)
  : Prop :=
  exists r,
    execute n (mkVariables cloud_id issue_key (Some page_size) after) apis = inr r /\
    data r <> JNull /\
    parse_or_operation_error
      (WorklogsApi.parse_issue_worklogs_page PAGEINFO_HAS_END_CURSOR
                                             WORKLOGS_EDGE_HAS_CURSOR) r
    = inr conn /\
    mapM (fun e => WorklogPaging.map_worklog issue_key (WorklogsApi.node e))
         (WorklogsApi.edges conn) = inr items.

(** Every cursor the server hands out for a next page lies in [C]. *)
Definition cursors_within (issue_key : string) (C : gset string) : Prop :=
  forall n vars apis r conn c,
    execute n vars apis = inr r ->
    parse_or_operation_error
      (WorklogsApi.parse_issue_worklogs_page PAGEINFO_HAS_END_CURSOR
                                             WORKLOGS_EDGE_HAS_CURSOR) r
    = inr conn ->
    WorklogPaging.next_after_of PAGEINFO_HAS_END_CURSOR WORKLOGS_EDGE_HAS_CURSOR
                                issue_key conn = inr (Some c) ->
    c ∈ C.

(** Whatever request number [n] asks for, an answer that parses hands
    out [c] as the cursor of the next page. *)
Definition returns_cursor (issue_key : string) (n : nat) (c : string) : Prop :=
  forall vars apis r conn,
    execute n vars apis = inr r ->
    parse_or_operation_error
      (WorklogsApi.parse_issue_worklogs_page PAGEINFO_HAS_END_CURSOR
                                             WORKLOGS_EDGE_HAS_CURSOR) r
    = inr conn ->
    WorklogPaging.next_after_of PAGEINFO_HAS_END_CURSOR WORKLOGS_EDGE_HAS_CURSOR
                                issue_key conn = inr (Some c).
End GraphQL.

End Vocabulary.

(** ** Concrete inputs used by the examples below *)

Module Samples.

(** An environment with an access token equal to the client secret and
    no refresh-token credentials. *)
Definition env_token_is_secret : gmap string string :=
  list_to_map [("ATLASSIAN_OAUTH_ACCESS_TOKEN", "s3cr3t");
               ("ATLASSIAN_CLIENT_SECRET", "s3cr3t");
               ("ATLASSIAN_GQL_BASE_URL", "https://api.atlassian.com")].

(** The same, with the refresh-token credentials configured as well. *)
Definition env_token_is_secret_with_refresh : gmap string string :=
  list_to_map [("ATLASSIAN_OAUTH_ACCESS_TOKEN", "s3cr3t");
               ("ATLASSIAN_CLIENT_SECRET", "s3cr3t");
               ("ATLASSIAN_OAUTH_REFRESH_TOKEN", "r3fr3sh");
               ("ATLASSIAN_CLIENT_ID", "app-1")].

Definition no_json (_ : string) : option json := None.

Definition obj (fields : list (string * json)) : json := JDict (list_to_map fields).






(** A sprints page without a [values] field. *)
Definition fields_without_values : gmap string json :=
  list_to_map [("startAt", JInt 0); ("maxResults", JInt 50); ("isLast", JBool false)].

Definition page_without_values : json := JDict fields_without_values.

(** A sprints page whose [values] is present, empty, and declared not to
    be the last. *)
Definition empty_page_not_last_payload : json :=
  obj [("startAt", JInt 0); ("maxResults", JInt 50); ("isLast", JBool false);
       ("values", JList [])].

(** A page whose second element is not an object. *)
Definition page_with_bad_element : json :=
  obj [("isLast", JBool true);
       ("values", JList [obj [("id", JInt 1); ("name", JStr "S1"); ("state", JStr "active")];
                         JStr "oops"])].

(** A client that answers every request with the same payload. *)
Definition always (payload : json) (_ : nat) (_ : string) (_ : list (string * json))
  : result json := inr payload.


(** A page whose [isLast] is a string. *)
Definition page_with_bad_flag : json :=
  obj [("startAt", JInt 0); ("isLast", JStr "no"); ("values", JList [])].


(** *** Three pages of 50, 50 and 7 sprints *)

Definition sprint_json (i : nat) : json :=
  obj [("id", JInt (Z.of_nat i)); ("name", JStr ("Sprint " +:+ pretty i));
       ("state", JStr "active")].

Definition sprint_page (first count : nat) (last : bool) : json :=
  obj [("startAt", JInt (Z.of_nat first)); ("maxResults", JInt 50);
       ("isLast", JBool last); ("values", JList (sprint_json <$> seq first count))].

Definition requested_start (params : list (string * json)) : Z :=
  match params with
  | (_, JInt z) :: _ => z
  | _ => (-1)%Z
  end.

Definition three_sprint_pages (_ : nat) (_ : string) (params : list (string * json))
  : result json :=
  let z := requested_start params in
  if (z =? 0)%Z then inr (sprint_page 0 50 false)
  else if (z =? 50)%Z then inr (sprint_page 50 50 false)
  else if (z =? 100)%Z then inr (sprint_page 100 7 true)
  else inl (TransportError 404 "no such page").

Definition parsed_sprint (i : nat) : AgileApi.Sprint :=
  AgileApi.mkSprint (Some (Z.of_nat i)) (Some ("Sprint " +:+ pretty i)) (Some "active")
                    None None None None None.

Definition parsed_sprint_page (first count : nat) (last : bool)
  : AgileApi.Page AgileApi.Sprint :=
  AgileApi.mkPage (Some (Z.of_nat first)) (Some 50%Z) (Some last)
                  (parsed_sprint <$> seq first count).

Definition sprint_item (i : nat) : JiraSprint :=
  mkJiraSprint (pretty (Z.of_nat i)) ("Sprint " +:+ pretty i) "active" None None None.

(** *** Three pages of 50, 50 and 7 worklogs, and a server that repeats
        its cursor *)

Definition worklog_json (i : nat) : json :=
  obj [("cursor", JStr ("e" +:+ pretty i));
       ("node",
        obj [("worklogId", JStr ("w" +:+ pretty i));
             ("author", obj [("accountId", JStr "u1"); ("name", JStr "User One")]);
             ("timeSpent", obj [("timeInSeconds", JInt 60)]);
             ("created", JStr "2021-01-01T00:00:00Z");
             ("updated", JStr "2021-01-01T01:00:00Z");
             ("startDate", JStr "2021-01-01T00:00:00Z")])].

Definition worklogs_response (first count : nat) (has_next : bool) (end_cursor : json)
  : GraphQLResult :=
  mkGraphQLResult
    (obj [("issue",
           obj [("worklogs",
                 obj [("pageInfo", obj [("hasNextPage", JBool has_next);
                                        ("endCursor", end_cursor)]);
                      ("edges", JList (worklog_json <$> seq first count))])])])
    None JNull.

Definition three_worklog_pages (_ : nat) (vars : Variables) (_ : option (list string))
  : result GraphQLResult :=
  match var_after vars with
  | None => inr (worklogs_response 0 50 true (JStr "c1"))
  | Some c =>
      if String.eqb c "c1" then inr (worklogs_response 50 50 true (JStr "c2"))
      else if String.eqb c "c2" then inr (worklogs_response 100 7 false JNull)
      else inl (TransportError 404 "no such page")
  end.

Definition repeating_cursor (_ : nat) (_ : Variables) (_ : option (list string))
  : result GraphQLResult :=
  inr (worklogs_response 0 1 true (JStr "c1")).

Definition parsed_edge (i : nat) : WorklogsApi.JiraWorklogEdge :=
  WorklogsApi.mkJiraWorklogEdge
    (Some ("e" +:+ pretty i))
    (WorklogsApi.mkJiraWorklogNode
       ("w" +:+ pretty i) (Some (WorklogsApi.mkApiUser "u1" "User One"))
       (WorklogsApi.mkJiraEstimate (Some 60%Z))
       "2021-01-01T00:00:00Z" (Some "2021-01-01T01:00:00Z")
       (Some "2021-01-01T00:00:00Z")).

Definition parsed_connection (first count : nat) (has_next : bool)
           (end_cursor : option string) : WorklogsApi.JiraWorklogConnection :=
  WorklogsApi.mkJiraWorklogConnection
    (WorklogsApi.mkPageInfo has_next end_cursor) (parsed_edge <$> seq first count).

Definition worklog_item (i : nat) : JiraWorklog :=
  mkJiraWorklog "A-1" ("w" +:+ pretty i) "2021-01-01T00:00:00Z" 60
                "2021-01-01T00:00:00Z" "2021-01-01T01:00:00Z"
                (Some (mkJiraUser "u1" "User One" None)).

End Samples.

(** ** The shape of a stripped string

    Vocabulary for the statements about [strip] and the mappers. *)

Module StrShape.
Import PyStr.

(** Not beginning with a white-space character. *)
Definition starts_clean (s : string) : Prop :=
  front_space is_space is_space2 is_space3 s = false.

(** Not ending with a white-space character. *)
Definition ends_clean (s : string) : Prop :=
  front_space is_space is_space2_back is_space3_back (String.rev s) = false.

(** Made of white-space characters only. *)
Fixpoint all_space (s : string) : bool :=
  match s with
  | EmptyString => true
  | String c1 r1 =>
      if is_space c1 then all_space r1
      else
        match r1 with
        | EmptyString => false
        | String c2 r2 =>
            if is_space2 c1 c2 then all_space r2
            else
              match r2 with
              | EmptyString => false
              | String c3 r3 => is_space3 c1 c2 c3 && all_space r3
              end
        end
  end.

(** A character of one byte that is not white space: it is no part of
    a white-space character, whatever stands around it. *)
Definition plain (c : ascii) : Prop :=
  (nat_of_ascii c < 128)%nat /\ is_space c = false.

(** Neither empty nor padded with white space. *)
Definition trimmed (s : string) : Prop :=
  s <> EmptyString /\ starts_clean s /\ ends_clean s.

Definition otrimmed (o : option string) : Prop :=
  match o with Some s => trimmed s | None => True end.

(** A user of the canonical model, when there is one, has an id and a
    name that are neither empty nor padded, and no e-mail address. *)
Definition user_trimmed (u : option JiraUser) : Prop :=
  match u with
  | Some u => trimmed (account_id u) /\ trimmed (display_name u) /\ email u = None
  | None => True
  end.

End StrShape.

(** ** The shape of a sprint and of a board object

    Vocabulary for the statements about [Sprint.from_dict] and
    [Board.from_dict], in the manner of [PageShape]. *)

Module ItemShape.
Import PageShape.

Definition mistyped_str (v : json) : bool :=
  match v with JNull | JStr _ => false | _ => true end.

Definition opt_str (v : json) : option string :=
  match v with JStr s => Some s | _ => None end.

Definition int_field (raw : gmap string json) (path key : string) : list error :=
  complaint (mistyped_int (dict_get raw key)) "integer" (path +:+ "." +:+ key).

Definition str_field (raw : gmap string json) (path key : string) : list error :=
  complaint (mistyped_str (dict_get raw key)) "string" (path +:+ "." +:+ key).

(** The complaints about the fields of a sprint, in reading order. *)
Definition sprint_field_complaints (raw : gmap string json) (path : string)
  : list error :=
  int_field raw path "id" ++ str_field raw path "name" ++ str_field raw path "state"
  ++ str_field raw path "startDate" ++ str_field raw path "endDate"
  ++ str_field raw path "completeDate" ++ int_field raw path "originBoardId"
  ++ str_field raw path "goal".

(** The complaints about the fields of a board, in reading order. *)
Definition board_field_complaints (raw : gmap string json) (path : string)
  : list error :=
  int_field raw path "id" ++ str_field raw path "name" ++ str_field raw path "type".

(** What a sprint object without complaints denotes. *)
Definition sprint_of (raw : gmap string json) : AgileApi.Sprint :=
  AgileApi.mkSprint (opt_int (dict_get raw "id")) (opt_str (dict_get raw "name"))
                    (opt_str (dict_get raw "state")) (opt_str (dict_get raw "startDate"))
                    (opt_str (dict_get raw "endDate"))
                    (opt_str (dict_get raw "completeDate"))
                    (opt_int (dict_get raw "originBoardId"))
                    (opt_str (dict_get raw "goal")).

Definition board_of (raw : gmap string json) : AgileApi.Board :=
  AgileApi.mkBoard (opt_int (dict_get raw "id")) (opt_str (dict_get raw "name"))
                   (opt_str (dict_get raw "type")).

(** The state filter of a sprints request is refused. *)
Definition bad_state (state : option string) : Prop :=
  exists s, state = Some s /\
            PyStr.lower (PyStr.strip s) ∉ ["future"; "active"; "closed"].

End ItemShape.

(** ** Offset-based pagination with a total
       ([atlassian/rest/api/jira_versions.py],
        [atlassian/rest/mappers/jira_versions.py]) *)

Module RestVersions.

Record JiraVersion := mkJiraVersion {
  jv_id : string;
  jv_name : string;
  jv_project_key : string;
  jv_released : bool;
  jv_release_date : option string
}.

(** [api.Version] and [api.PageBeanVersion] belong to
    [atlassian/rest/gen/jira_api.py], which is not among the sources:
    the records have the fields that the mapper and the iterator read,
    and the parser of a page is a parameter of the iterator. *)
Record Version := mkVersion {
  version_id : option string;
  version_name : option string;
  released : option bool;
  release_date : option string
}.

Record PageBeanVersion := mkPageBeanVersion {
  values : list Version;
  is_last : option bool;
  total : option Z
}.

(** [value or ""] *)
Definition or_empty (o : option string) : string :=
  match o with
  | Some s => s
  | None => EmptyString
  end.

(** [map_rest_version(project_key, version)] *)
Definition map_rest_version (project_key : string) (version : Version)
  : result JiraVersion :=
  inr {| jv_id := or_empty (version_id version);
         jv_name := or_empty (version_name version);
         jv_project_key := project_key;
         jv_released := default false (released version);
         jv_release_date := release_date version |}.

Section Client.
Variable get_json : nat -> string -> list (string * json) -> result json.
Variable PageBeanVersion_from_dict : json -> string -> result PageBeanVersion.

Section Loop.
Variable project_clean : string.
Variable page_size : Z.

(** The [while True] loop of [iter_versions_via_rest]. *)
Fixpoint versions_loop (fuel : nat) (n : nat) (start_at : Z) (seen_start_at : gset Z)
         (acc : list JiraVersion) : run JiraVersion :=
  match fuel with
  | O => mkRun acc n Fetching
  | S fuel' =>
      if decide (start_at ∈ seen_start_at) then
        mkRun acc n (Failed RestPaging.repeated_start_at)
      else
        let seen' := {[start_at]} ∪ seen_start_at in
        match get_json n ("/rest/api/3/project/" +:+ project_clean +:+ "/version")
                       [("startAt", JInt start_at); ("maxResults", JInt page_size)]
        with
        | inl e => mkRun acc (S n) (Failed e)
        | inr payload =>
            match PageBeanVersion_from_dict payload "data" with
            | inl e => mkRun acc (S n) (Failed e)
            | inr page =>
                let vals := values page in
                match drain (map_rest_version project_clean) vals acc with
                | (acc', Some e) => mkRun acc' (S n) (Failed e)
                | (acc', None) =>
                    let has_is_last := bool_decide (is_Some (is_last page)) in
                    if has_is_last && default false (is_last page) then
                      mkRun acc' (S n) Done
                    else
                      let has_total :=
                        match total page with
                        | Some t => (0 <=? t)%Z
                        | None => false
                        end in
                      if (if has_total
                          then (default 0%Z (total page)
                                <=? start_at + Z.of_nat (length vals))%Z
                          else (Z.of_nat (length vals) <? page_size)%Z)
                      then mkRun acc' (S n) Done
                      else if (length vals =? 0)%nat then
                        if has_is_last && negb (default false (is_last page)) then
                          mkRun acc' (S n) (Failed RestPaging.empty_page_not_last)
                        else mkRun acc' (S n) Done
                      else
                        versions_loop fuel' (S n)
                                      (start_at + Z.of_nat (length vals))%Z seen' acc'
                end
            end
        end
  end.
End Loop.

(** [iter_versions_via_rest(client, project_key_or_id, page_size)],
    drained. *)
Definition iter_versions_via_rest (fuel : nat) (project_key_or_id : string)
           (page_size : Z) : run JiraVersion :=
  let project_clean := PyStr.strip project_key_or_id in
  if negb (PyStr.truthy project_clean) then
    mkRun [] 0 (Failed (ValueError "project_key_or_id is required"))
  else if (page_size <=? 0)%Z then
    mkRun [] 0 (Failed (ValueError "page_size must be > 0"))
  else versions_loop project_clean page_size fuel 0 0%Z ∅ [].
End Client.

End RestVersions.

(** ** More concrete inputs *)

Module MoreSamples.

(** A parser of version pages that answers with a given page. *)
Definition fixed_page (page : RestVersions.PageBeanVersion)
           (_ : json) (_ : string) : result RestVersions.PageBeanVersion :=
  inr page.

(** U+00A0 NO-BREAK SPACE, U+2003 EM SPACE and U+212A KELVIN SIGN. *)
Definition nbsp : string := String (ascii_of_nat 194) (String (ascii_of_nat 160) "").
Definition em_space : string :=
  String (ascii_of_nat 226) (String (ascii_of_nat 128) (String (ascii_of_nat 131) "")).
Definition kelvin_sign : string :=
  String (ascii_of_nat 226) (String (ascii_of_nat 132) (String (ascii_of_nat 170) "")).

(** A server that answers every request for sprints with the same page
    of one sprint, not declared the last. *)
Definition endless_sprints : nat -> string -> list (string * json) -> result json :=
  Samples.always (Samples.sprint_page 0 1 false).

(** An empty page of versions that is declared not to be the last and
    announces three versions in total. *)
Definition empty_page_of_three : RestVersions.PageBeanVersion :=
  RestVersions.mkPageBeanVersion [] (Some false) (Some 3%Z).

End MoreSamples.

(** ** Log sanitising ([atlassian_graphql/logging.py]) *)

Module Logging.

Definition sensitive : list string := ["authorization"; "cookie"].

Definition redacted : string := "<redacted>".

(** [sanitize_headers(headers)]: the loop over [headers.items()] that
    fills [sanitized]. *)
Definition sanitize_headers (headers : gmap string string) : gmap string string :=
  map_fold (fun key value (sanitized : gmap string string) =>
              if bool_decide (PyStr.lower key ∈ sensitive)
              then <[key := redacted]> sanitized
              else <[key := value]> sanitized)
           ∅ headers.

(** The header name is one that [sanitize_headers] hides. *)
Definition hidden (key : string) : bool :=
  bool_decide (PyStr.lower key ∈ sensitive).

(** The header name is in the ASCII range, where [PyStr.lower] is
    [str.lower]. *)
Fixpoint ascii_only (key : string) : bool :=
  match key with
  | EmptyString => true
  | String c rest => (nat_of_ascii c <? 128)%nat && ascii_only rest
  end.

(** What [sanitize_headers] shows of the value of a header. *)
Definition shown (key value : string) : string :=
  if hidden key then redacted else value.

Definition sample_headers : gmap string string :=
  <["Authorization" := "Bearer abc"]>
    (<["COOKIE" := "sid=1"]> (<["Accept" := "application/json"]> ∅)).

End Logging.

(** ** The entries of a GraphQL [errors] array ([atlassian_graphql/models.py]) *)

Module ErrorItems.

(** [GraphQLErrorItem] with all its fields. *)
Record Item := mkItem {
  item_message : string;
  item_path : json;
  item_extensions : json;
  item_locations : json
}.

(** The [for err in raw_errors] loop of [parse_error_items]. *)
Fixpoint items_loop (raw_errors : list json) (items : list Item) : list Item :=
  match raw_errors with
  | [] => items
  | err :: rest =>
      match err with
      | JDict d =>
          match dict_get d "message" with
          | JStr message =>
              items_loop rest
                         (items ++ [mkItem message (dict_get d "path")
                                           (dict_get d "extensions")
                                           (dict_get d "locations")])%list
          | _ => items_loop rest items
          end
      | _ => items_loop rest items
      end
  end.

(** [parse_error_items(raw_errors)] *)
Definition parse_error_items (raw_errors : json) : option (list Item) :=
  match raw_errors with
  | JNull => None
  | JList l => Some (items_loop l [])
  | _ => None
  end.

(** The message of a well-formed entry: an object whose [message] is a
    string. *)
Definition message_of (err : json) : option string :=
  match err with
  | JDict d => match d !! "message" with Some (JStr m) => Some m | _ => None end
  | _ => None
  end.

Definition is_list (v : json) : bool :=
  match v with JList _ => true | _ => false end.

End ErrorItems.

Module ThrottleFacts.
Import Throttle.
Local Open Scope Q_scope.

Lemma Qle_bool_false (x y : Q) : Qle_bool x y = false -> y < x.
Proof.
  intros H. apply Qnot_le_lt. intros Hle.
  apply Qle_bool_iff in Hle. congruence.
Qed.

Lemma Qlt_bool_true (x y : Q) : Qlt_bool x y = true -> x < y.
Proof.
  unfold Qlt_bool. intros H. apply Qle_bool_false.
  now destruct (Qle_bool y x).
Qed.

Lemma Qlt_bool_false (x y : Q) : Qlt_bool x y = false -> y <= x.
Proof.
  unfold Qlt_bool. intros H. apply Qle_bool_iff.
  now destruct (Qle_bool y x).
Qed.

Lemma py_min_le_l (a b : Q) : py_min a b <= a.
Proof.
  unfold py_min. destruct (Qle_bool a b) eqn:E.
  - lra.
  - apply Qle_bool_false in E. lra.
Qed.

Lemma py_min_le_r (a b : Q) : py_min a b <= b.
Proof.
  unfold py_min. destruct (Qle_bool a b) eqn:E.
  - now apply Qle_bool_iff.
  - lra.
Qed.

Lemma py_min_glb (a b c : Q) : c <= a -> c <= b -> c <= py_min a b.
Proof. unfold py_min. now destruct (Qle_bool a b). Qed.

Lemma py_min_pos (a b : Q) : 0 < a -> 0 < b -> 0 < py_min a b.
Proof. unfold py_min. now destruct (Qle_bool a b). Qed.

(** *** Microseconds *)

Lemma inject_Z_lt_succ (a b : Z) : inject_Z a < inject_Z b + 1 -> (a <= b)%Z.
Proof.
  intros H. destruct (Z_le_gt_dec a b) as [Hle|Hgt]; [exact Hle|].
  assert (Hb : (b + 1 <= a)%Z) by lia.
  rewrite Zle_Qle, inject_Z_plus in Hb. change (inject_Z 1) with 1 in Hb. lra.
Qed.

Lemma inject_Z_pos (a : Z) : 0 < inject_Z a <-> (0 < a)%Z.
Proof. change 0 with (inject_Z 0). now rewrite <- Zlt_Qlt. Qed.

Lemma inject_Z_nonpos (a : Z) : inject_Z a <= 0 <-> (a <= 0)%Z.
Proof. change 0 with (inject_Z 0). now rewrite <- Zle_Qle. Qed.

(** The rounded value is within half a unit of the value. *)
Lemma round_near (q : Q) :
  inject_Z (round_half_even q) - (1 # 2) <= q /\
  q <= inject_Z (round_half_even q) + (1 # 2).
Proof.
  unfold round_half_even.
  pose proof (Qfloor_le (q + (1 # 2))) as Hlo.
  pose proof (Qlt_floor (q + (1 # 2))) as Hhi.
  rewrite inject_Z_plus in Hhi. change (inject_Z 1) with 1 in Hhi.
  set (u := Qfloor (q + (1 # 2))) in *.
  destruct (Qeq_bool (q + (1 # 2)) (inject_Z u)) eqn:E; cbn [andb].
  - apply Qeq_bool_iff in E.
    destruct (Z.odd u).
    + assert (Hu : inject_Z (u - 1) == inject_Z u - 1).
      { unfold Z.sub. rewrite inject_Z_plus. reflexivity. }
      rewrite Hu. split; lra.
    + split; lra.
  - split; lra.
Qed.

Lemma round_exact (q : Q) (k : Z) : q == inject_Z k -> round_half_even q = k.
Proof.
  intros H. destruct (round_near q) as [Hlo Hhi].
  apply Z.le_antisymm; apply inject_Z_lt_succ; lra.
Qed.

Lemma round_le (q : Q) (k : Z) : q <= inject_Z k -> (round_half_even q <= k)%Z.
Proof.
  intros H. destruct (round_near q) as [Hlo _]. apply inject_Z_lt_succ. lra.
Qed.

Lemma round_ge (q : Q) (k : Z) : inject_Z k <= q -> (k <= round_half_even q)%Z.
Proof.
  intros H. destruct (round_near q) as [_ Hhi]. apply inject_Z_lt_succ. lra.
Qed.

Lemma round_zero (q : Q) : 0 <= q -> q < 1 # 2 -> round_half_even q = 0%Z.
Proof.
  intros H0 H1. destruct (round_near q) as [Hlo Hhi].
  apply Z.le_antisymm.
  - apply inject_Z_lt_succ. change (inject_Z 0) with 0. lra.
  - apply inject_Z_lt_succ. change (inject_Z 0) with 0. lra.
Qed.

Lemma seconds_micros (a b : datetime) :
  seconds_between a b * 1000000 == inject_Z (a - b).
Proof. unfold seconds_between. field. Qed.

Lemma seconds_pos (a b : datetime) : 0 < seconds_between a b <-> (b < a)%Z.
Proof.
  unfold seconds_between.
  assert (H : 0 < inject_Z (a - b) <-> (b < a)%Z)
    by (rewrite inject_Z_pos; lia).
  rewrite <- H. split; intros H'; lra.
Qed.

Lemma seconds_nonpos (a b : datetime) : seconds_between a b <= 0 <-> (a <= b)%Z.
Proof.
  unfold seconds_between.
  assert (H : inject_Z (a - b) <= 0 <-> (a <= b)%Z)
    by (rewrite inject_Z_nonpos; lia).
  rewrite <- H. split; intros H'; lra.
Qed.

Lemma seconds_self (a : datetime) : seconds_between a a == 0.
Proof. unfold seconds_between. rewrite Z.sub_diag. reflexivity. Qed.

(** Sleeping what is left until the deadline, or less, does not pass
    the deadline. *)
Lemma sleep_within (d : Q) (t deadline : datetime) :
  0 < d -> d <= seconds_between deadline t ->
  (t <= fake_sleeper d t <= deadline)%Z.
Proof.
  intros Hd Hle. unfold fake_sleeper.
  pose proof (seconds_micros deadline t) as Hs.
  assert (H0 : (0 <= round_half_even (d * 1000000))%Z)
    by (apply round_ge; change (inject_Z 0) with 0; lra).
  assert (H1 : (round_half_even (d * 1000000) <= deadline - t)%Z)
    by (apply round_le; lra).
  lia.
Qed.

(** *** The refill *)

Lemma refill_well_formed (b : TokenBucket) (t : datetime) :
  well_formed b -> well_formed (_refill_locked b t).
Proof.
  intros (Hr & H0 & Hc). unfold _refill_locked.
  destruct (Qlt_bool 0 (seconds_between t (_last_refill b))) eqn:E;
    [|now repeat split].
  apply Qlt_bool_true in E.
  repeat split; simpl; auto.
  - apply py_min_glb; [lra | nra].
  - apply py_min_le_l.
Qed.

Lemma refill_params (b : TokenBucket) (t : datetime) :
  capacity (_refill_locked b t) = capacity b /\
  refill_rate_per_sec (_refill_locked b t) = refill_rate_per_sec b.
Proof. unfold _refill_locked. now destruct (Qlt_bool _ _). Qed.

Lemma refill_again (b : TokenBucket) (t : datetime) :
  _refill_locked (_refill_locked b t) t = _refill_locked b t.
Proof.
  unfold _refill_locked at 2 3.
  destruct (Qlt_bool 0 (seconds_between t (_last_refill b))) eqn:E.
  - unfold _refill_locked. cbn [_last_refill].
    destruct (Qlt_bool 0 (seconds_between t t)) eqn:E'; [|reflexivity].
    apply Qlt_bool_true in E'. rewrite seconds_self in E'. lra.
  - unfold _refill_locked. now rewrite E.
Qed.

Lemma refill_last_refill_eq (b : TokenBucket) (t : datetime) :
  (_last_refill b <= t)%Z -> _last_refill (_refill_locked b t) = t.
Proof.
  intros H. unfold _refill_locked.
  destruct (Qlt_bool 0 (seconds_between t (_last_refill b))) eqn:E; simpl;
    [reflexivity|].
  apply Qlt_bool_false in E. apply (proj1 (seconds_nonpos _ _)) in E. lia.
Qed.

Lemma refill_tokens_upper (b : TokenBucket) (t : datetime) :
  0 <= seconds_between t (_last_refill b) ->
  _tokens (_refill_locked b t)
  <= _tokens b + seconds_between t (_last_refill b) * refill_rate_per_sec b.
Proof.
  intros H0. unfold _refill_locked.
  destruct (Qlt_bool 0 (seconds_between t (_last_refill b))) eqn:E; simpl.
  - apply py_min_le_r.
  - apply Qlt_bool_false in E.
    assert (Hz : seconds_between t (_last_refill b) == 0) by lra.
    rewrite Hz. lra.
Qed.

Lemma refill_full (b : TokenBucket) (t : datetime) :
  0 < refill_rate_per_sec b -> _tokens b == capacity b ->
  _tokens (_refill_locked b t) == capacity b.
Proof.
  intros Hr Hfull. unfold _refill_locked.
  destruct (Qlt_bool 0 (seconds_between t (_last_refill b))) eqn:E; simpl;
    [|exact Hfull].
  apply Qlt_bool_true in E.
  unfold py_min.
  destruct (Qle_bool _ _) eqn:E2; [reflexivity|].
  apply Qle_bool_false in E2. nra.
Qed.

Lemma div_pos (a r : Q) : 0 < r -> 0 < a -> 0 < a / r.
Proof. intros Hr Ha. apply Qlt_shift_div_l; [exact Hr | lra]. Qed.

Section AnyClock.
Context {W : Type}.
Variable now : W -> datetime * W.
Variable sleeper : Q -> W -> W.

Lemma init_well_formed (cap rate : Q) (w w' : W) (b : TokenBucket) :
  init now cap rate w = (inr b, w') ->
  well_formed b /\ capacity b = cap /\ refill_rate_per_sec b = rate /\
  0 < cap /\ 0 < rate.
Proof.
  unfold init.
  destruct (Qle_bool cap 0) eqn:Ec; [discriminate|].
  destruct (Qle_bool rate 0) eqn:Er; [discriminate|].
  destruct (now w) as [t w1]. intros [= <- <-].
  apply Qle_bool_false in Ec, Er.
  unfold well_formed, bucket_inv; simpl. repeat split; lra.
Qed.

Lemma consume_loop_well_formed (fuel : nat) :
  forall cost mw deadline waited b w,
    0 <= cost -> well_formed b ->
    well_formed (snd (fst (consume_loop now sleeper fuel cost mw deadline waited b w))).
Proof.
  induction fuel as [|fuel IH]; intros cost mw deadline waited b w Hcost Hb; simpl.
  - exact Hb.
  - destruct (now w) as [t w1].
    pose proof (refill_well_formed b t Hb) as Hb1.
    destruct (Qle_bool cost (_tokens (_refill_locked b t))) eqn:Ec.
    + apply Qle_bool_iff in Ec. simpl.
      destruct Hb1 as (Hr & H0 & Hc).
      repeat split; simpl; auto; lra.
    + destruct (now w1) as [t2 w2].
      destruct (Qle_bool (seconds_between deadline t2) 0 || _)%bool; simpl; auto.
Qed.

Lemma consume_loop_params (fuel : nat) :
  forall cost mw deadline waited b w,
    capacity (snd (fst (consume_loop now sleeper fuel cost mw deadline waited b w)))
      = capacity b.
Proof.
  induction fuel as [|fuel IH]; intros cost mw deadline waited b w; simpl.
  - reflexivity.
  - destruct (now w) as [t w1].
    destruct (refill_params b t) as [Hc _].
    destruct (Qle_bool cost _); simpl; auto.
    destruct (now w1) as [t2 w2].
    destruct (_ || _)%bool; simpl; auto.
    rewrite IH. auto.
Qed.

Lemma consume_well_formed fuel cost mw b w :
  well_formed b -> well_formed (snd (fst (consume now sleeper fuel cost mw b w))).
Proof.
  intros Hb. unfold consume. destruct (Qle_bool cost 0) eqn:Ec; simpl; auto.
  apply Qle_bool_false in Ec.
  destruct (now w) as [t0 w0].
  destruct (deadline_of t0 mw); [|exact Hb].
  apply consume_loop_well_formed; [lra | exact Hb].
Qed.

Lemma consume_capacity fuel cost mw b w :
  capacity (snd (fst (consume now sleeper fuel cost mw b w))) = capacity b.
Proof.
  unfold consume. destruct (Qle_bool cost 0); simpl; auto.
  destruct (now w) as [t0 w0].
  destruct (deadline_of t0 mw); [|reflexivity]. apply consume_loop_params.
Qed.

Lemma consume_all_well_formed (calls : list (Q * Q * nat)) :
  forall b w, well_formed b ->
    well_formed (fst (consume_all now sleeper calls b w)) /\
    capacity (fst (consume_all now sleeper calls b w)) = capacity b.
Proof.
  induction calls as [|[[cost mw] fuel] rest IH]; intros b w Hb; simpl.
  - auto.
  - pose proof (consume_well_formed fuel cost mw b w Hb) as H1.
    pose proof (consume_capacity fuel cost mw b w) as H2.
    destruct (consume now sleeper fuel cost mw b w) as [[o b'] w']; simpl in *.
    destruct (IH b' w' H1) as [H3 H4]. split; congruence.
Qed.

(** A request above the capacity can never be granted, whatever the
    clock. *)
Lemma over_capacity_never_returned (fuel : nat) :
  forall cost mw deadline waited b w,
    well_formed b -> capacity b < cost ->
    forall x, fst (fst (consume_loop now sleeper fuel cost mw deadline waited b w))
              <> Returned x.
Proof.
  induction fuel as [|fuel IH]; intros cost mw deadline waited b w Hb Hc x; simpl.
  - discriminate.
  - destruct (now w) as [t w1].
    pose proof (refill_well_formed b t Hb) as Hb1.
    destruct (refill_params b t) as [Hcap _].
    destruct (Qle_bool cost _) eqn:E.
    + apply Qle_bool_iff in E. destruct Hb1 as (_ & _ & Hle).
      rewrite Hcap in Hle. lra.
    + destruct (now w1) as [t2 w2].
      destruct (_ || _)%bool; simpl; [discriminate|].
      apply IH; [exact Hb1 | now rewrite Hcap].
Qed.

Lemma consume_never_returned fuel cost mw b w :
  well_formed b -> capacity b < cost ->
  forall x, fst (fst (consume now sleeper fuel cost mw b w)) <> Returned x.
Proof.
  intros Hb Hc x. unfold consume.
  destruct (Qle_bool cost 0) eqn:E.
  - apply Qle_bool_iff in E. destruct Hb as (_ & H0 & H1). lra.
  - destruct (now w) as [t0 w0].
    destruct (deadline_of t0 mw); [|discriminate].
    now apply over_capacity_never_returned.
Qed.

Lemma consume_loop_raised (fuel : nat) :
  forall cost mw deadline waited b w e b' w',
    consume_loop now sleeper fuel cost mw deadline waited b w = (Raised e, b', w') ->
    e = LocalRateLimitError cost ((cost - _tokens b') / refill_rate_per_sec b') mw.
Proof.
  induction fuel as [|fuel IH]; intros cost mw deadline waited b w e b' w'; simpl.
  - discriminate.
  - destruct (now w) as [t w1].
    destruct (Qle_bool cost _); [discriminate|].
    destruct (now w1) as [t2 w2].
    destruct (_ || _)%bool.
    + intros [= <- <- <-]. reflexivity.
    + apply IH.
Qed.
End AnyClock.

(** *** Facts that hold under the deterministic clock *)

Lemma consume_loop_fake_S fuel cost mw deadline waited b t :
  consume_loop fake_now fake_sleeper (S fuel) cost mw deadline waited b t =
  let b1 := _refill_locked b t in
  if Qle_bool cost (_tokens b1) then
    (Returned waited,
     {| capacity := capacity b1; refill_rate_per_sec := refill_rate_per_sec b1;
        _tokens := _tokens b1 - cost; _last_refill := _last_refill b1 |}, t)
  else
    let w := (cost - _tokens b1) / refill_rate_per_sec b1 in
    if Qle_bool (seconds_between deadline t) 0 || Qle_bool w 0 then
      (Raised (LocalRateLimitError cost w mw), b1, t)
    else
      consume_loop fake_now fake_sleeper fuel cost mw deadline
                   (waited + py_min w (seconds_between deadline t)) b1
                   (fake_sleeper (py_min w (seconds_between deadline t)) t).
Proof. reflexivity. Qed.

Lemma consume_fake fuel cost mw b t :
  consume fake_now fake_sleeper fuel cost mw b t =
  if Qle_bool cost 0 then (Returned 0, b, t)
  else match deadline_of t mw with
       | None => (Raised OverflowError, b, t)
       | Some deadline =>
           consume_loop fake_now fake_sleeper fuel cost mw deadline 0 b t
       end.
Proof. reflexivity. Qed.

(** On a full bucket, a request above the capacity that needs at least a
    microsecond of refill is refused once the deadline is reached: every
    sleep advances the clock by at least a microsecond and never beyond
    the deadline. *)
Lemma over_capacity_raises (n : nat) :
  forall cost mw deadline waited b t,
    0 < refill_rate_per_sec b -> _tokens b == capacity b ->
    capacity b < cost ->
    1 # 1000000 <= (cost - capacity b) / refill_rate_per_sec b ->
    (deadline - t <= Z.of_nat n)%Z ->
    exists wait b' t',
      consume_loop fake_now fake_sleeper (S n) cost mw deadline waited b t
      = (Raised (LocalRateLimitError cost wait mw), b', t') /\
      wait == (cost - capacity b) / refill_rate_per_sec b.
Proof.
  induction n as [|n IH]; intros cost mw deadline waited b t Hr Hfull Hc Hus Hd;
    rewrite consume_loop_fake_S; cbv zeta;
    pose proof (refill_full b t Hr Hfull) as Hfull1;
    destruct (refill_params b t) as [Hcap Hrate];
    (destruct (Qle_bool cost (_tokens (_refill_locked b t))) eqn:E;
     [apply Qle_bool_iff in E; lra|]);
    rewrite Hrate;
    assert (Hw : (cost - _tokens (_refill_locked b t)) / refill_rate_per_sec b
                 == (cost - capacity b) / refill_rate_per_sec b)
      by (now rewrite Hfull1).
  - assert (Hrem : Qle_bool (seconds_between deadline t) 0 = true).
    { apply Qle_bool_iff. apply (proj2 (seconds_nonpos _ _)). lia. }
    rewrite Hrem. simpl. eauto.
  - destruct (Qle_bool (seconds_between deadline t) 0) eqn:Erem; simpl; [eauto|].
    apply Qle_bool_false in Erem.
    destruct (Qle_bool _ 0) eqn:Ew; [apply Qle_bool_iff in Ew; lra|].
    set (w := (cost - _tokens (_refill_locked b t)) / refill_rate_per_sec b) in *.
    set (d := py_min w (seconds_between deadline t)).
    assert (Hd1 : 1 # 1000000 <= d).
    { unfold d. apply py_min_glb; [lra|].
      apply (proj1 (seconds_pos _ _)) in Erem.
      assert (H1 : (1 <= deadline - t)%Z) by lia.
      rewrite Zle_Qle in H1. change (inject_Z 1) with 1 in H1.
      pose proof (seconds_micros deadline t). lra. }
    assert (Hstep : (t + 1 <= fake_sleeper d t)%Z).
    { unfold fake_sleeper.
      assert ((1 <= round_half_even (d * 1000000))%Z)
        by (apply round_ge; change (inject_Z 1) with 1; lra).
      lia. }
    destruct (IH cost mw deadline (waited + d) (_refill_locked b t) (fake_sleeper d t))
      as (wait & b' & t' & Heq & Hwait).
    + now rewrite Hrate.
    + now rewrite Hcap.
    + now rewrite Hcap.
    + now rewrite Hcap, Hrate.
    + lia.
    + exists wait, b', t'. split; [exact Heq|].
      now rewrite Hwait, Hcap, Hrate.
Qed.

(** When the deficit cannot be refilled before the deadline, two
    iterations are enough to reach the refusal. *)
Lemma deficit_raises (fuel : nat) :
  forall cost mw b t deadline,
    well_formed b -> (_last_refill b <= t)%Z ->
    deadline_of t mw = Some deadline ->
    _tokens (_refill_locked b t) < cost ->
    seconds_between deadline t
    < (cost - _tokens (_refill_locked b t)) / refill_rate_per_sec b ->
    exists wait b' t',
      consume fake_now fake_sleeper (S (S fuel)) cost mw b t
      = (Raised (LocalRateLimitError cost wait mw), b', t') /\
      wait = (cost - _tokens b') / refill_rate_per_sec b' /\ 0 < wait.
Proof.
  intros cost mw b t deadline Hb Hl Hdl Htok Hmw.
  pose proof (refill_well_formed b t Hb) as Hb1.
  destruct (refill_params b t) as [Hcap Hrate].
  pose proof (refill_last_refill_eq b t Hl) as Hl1.
  destruct Hb as (Hr & Hb0 & Hbc).
  assert (Hcost : 0 < cost) by (destruct Hb1 as (_ & H0 & _); lra).
  rewrite consume_fake, Hdl.
  destruct (Qle_bool cost 0) eqn:Ec; [apply Qle_bool_iff in Ec; lra|].
  rewrite consume_loop_fake_S. cbv zeta.
  destruct (Qle_bool cost (_tokens (_refill_locked b t))) eqn:E1;
    [apply Qle_bool_iff in E1; lra|].
  set (b1 := _refill_locked b t) in *.
  assert (Hr1 : 0 < refill_rate_per_sec b1) by (now rewrite Hrate).
  rewrite <- Hrate in Hmw.
  set (w := (cost - _tokens b1) / refill_rate_per_sec b1) in *.
  assert (Hw : 0 < w) by (apply div_pos; lra).
  assert (Hwr : w * refill_rate_per_sec b1 == cost - _tokens b1).
  { unfold w. field. lra. }
  set (rem := seconds_between deadline t) in *.
  destruct (Qle_bool rem 0) eqn:Erem; cbn [orb].
  { exists w, b1, t. repeat split; auto. }
  apply Qle_bool_false in Erem.
  destruct (Qle_bool w 0) eqn:Ew; [apply Qle_bool_iff in Ew; lra|].
  assert (Hmin : py_min w rem = rem).
  { unfold py_min. destruct (Qle_bool w rem) eqn:Em; [|reflexivity].
    apply Qle_bool_iff in Em. lra. }
  rewrite Hmin.
  assert (Ht1 : fake_sleeper rem t = deadline).
  { unfold fake_sleeper. rewrite (round_exact _ (deadline - t)); [lia|].
    apply seconds_micros. }
  rewrite Ht1, consume_loop_fake_S. cbv zeta.
  assert (Hb2 : well_formed (_refill_locked b1 deadline))
    by (now apply refill_well_formed).
  destruct (refill_params b1 deadline) as [Hcap2 Hrate2].
  assert (Hup : _tokens (_refill_locked b1 deadline) < cost).
  { assert (Hu : _tokens (_refill_locked b1 deadline)
                 <= _tokens b1 + seconds_between deadline (_last_refill b1)
                                 * refill_rate_per_sec b1).
    { apply refill_tokens_upper. rewrite Hl1. fold rem. lra. }
    rewrite Hl1 in Hu. fold rem in Hu.
    assert (rem * refill_rate_per_sec b1 < w * refill_rate_per_sec b1) by nra.
    lra. }
  destruct (Qle_bool cost (_tokens (_refill_locked b1 deadline))) eqn:E2;
    [apply Qle_bool_iff in E2; lra|].
  assert (Hrem2 : Qle_bool (seconds_between deadline deadline) 0 = true)
    by (apply Qle_bool_iff; rewrite seconds_self; lra).
  rewrite Hrem2. cbn [orb].
  eexists _, _, _. split; [reflexivity|]. split; [reflexivity|].
  apply div_pos; [now rewrite Hrate2|lra].
Qed.

(** [C1] For every bucket built by the constructor (which demands a
    positive capacity and refill rate) and every sequence of [consume]
    calls, each observed after any number of loop iterations and under
    any clock and sleeper, the token count stays within
    [0 <= tokens <= capacity].  The bound [cost <= capacity] of the
    calls is not needed. *)
Theorem C1_tokens_within_capacity :
  forall (W : Type) (now : W -> datetime * W) (sleeper : Q -> W -> W)
         (cap rate : Q) (w0 w1 : W) (b : TokenBucket),
    init now cap rate w0 = (inr b, w1) ->
    forall calls : list (Q * Q * nat),
      0 <= _tokens (fst (consume_all now sleeper calls b w1)) /\
      _tokens (fst (consume_all now sleeper calls b w1)) <= cap.
Proof.
  intros W now sleeper cap rate w0 w1 b Hinit calls.
  destruct (init_well_formed now cap rate w0 w1 b Hinit)
    as (Hwf & Hcap & _).
  destruct (consume_all_well_formed now sleeper calls b w1 Hwf)
    as [(_ & H0 & Hc) Hsame].
  split; [exact H0|]. rewrite <- Hcap, <- Hsame. exact Hc.
Qed.

Lemma C1_witness :
  0 <= _tokens (fst (consume_all fake_now fake_sleeper
                       [(4, 1, 5%nat); (8, 1, 5%nat); (10, 3, 5%nat)]
                       (mkTokenBucket 10 5 10 0%Z) 0%Z)) /\
  _tokens (fst (consume_all fake_now fake_sleeper
                  [(4, 1, 5%nat); (8, 1, 5%nat); (10, 3, 5%nat)]
                  (mkTokenBucket 10 5 10 0%Z) 0%Z)) <= 10.
Proof.
  apply (C1_tokens_within_capacity datetime fake_now fake_sleeper 10 5 0%Z 0%Z).
  reflexivity.
Defined.

(** [C4], as amended.  With capacity 10 and refill rate 5/s, a
    [consume(12, max_wait)] issued on the full bucket under the
    deterministic clock computes a wait of 0.4 s, but it is never
    granted, since the refill clamps the tokens to the capacity: for
    every [max_wait] whose deadline is a [datetime], the call ends with
    the local rate-limit error carrying the cost 12, the wait 0.4 and
    [max_wait]; for every other [max_wait], computing the deadline
    raises [OverflowError]. *)
Theorem C4_request_above_capacity_refused :
  forall (t0 : datetime) (mw : Q),
    exists b : TokenBucket,
      init fake_now 10 5 t0 = (inr b, t0) /\
      (forall fuel waited,
          fst (fst (consume fake_now fake_sleeper fuel 12 mw b t0))
          <> Returned waited) /\
      match deadline_of t0 mw with
      | Some _ =>
          exists fuel wait b' t',
          consume fake_now fake_sleeper fuel 12 mw b t0
          = (Raised (LocalRateLimitError 12 wait mw), b', t') /\
          wait == 4 # 10
      | None =>
          forall fuel,
            consume fake_now fake_sleeper fuel 12 mw b t0
            = (Raised OverflowError, b, t0)
      end.
Proof.
  intros t0 mw. eexists. split; [reflexivity|].
  set (b := mkTokenBucket 10 5 10 t0).
  assert (Hwf : well_formed b) by (unfold well_formed, bucket_inv; simpl; lra).
  split.
  - intros fuel waited.
    apply consume_never_returned; [exact Hwf | simpl; lra].
  - destruct (deadline_of t0 mw) as [deadline|] eqn:Hdl.
    + destruct (over_capacity_raises (Z.to_nat (deadline - t0)) 12 mw deadline 0 b t0)
        as (wait & b' & t' & Heq & Hwait).
      * simpl; lra.
      * reflexivity.
      * simpl; lra.
      * simpl capacity. simpl refill_rate_per_sec.
        assert ((12 - 10) / 5 == 4 # 10) as -> by reflexivity. lra.
      * lia.
      * exists (S (Z.to_nat (deadline - t0))), wait, b', t'.
        rewrite consume_fake, Hdl. change (Qle_bool 12 0) with false. cbv iota.
        split; [exact Heq|]. rewrite Hwait. reflexivity.
    + intros fuel. rewrite consume_fake, Hdl. reflexivity.
Qed.

(** [C4], as stated, fails: with [max_wait = 1 >= 0.4] the call is not
    granted after 0.4 s; it is refused when the deadline is reached. *)
Lemma C4_counterexample :
  4 # 10 <= 1 /\
  (forall fuel waited,
      fst (fst (consume fake_now fake_sleeper fuel 12 1
                        (mkTokenBucket 10 5 10 0%Z) 0%Z)) <> Returned waited) /\
  fst (fst (consume fake_now fake_sleeper 4 12 1 (mkTokenBucket 10 5 10 0%Z) 0%Z))
  = Raised (LocalRateLimitError 12 (2 # 5) 1).
Proof.
  split; [lra|]. split.
  - intros fuel waited.
    apply consume_never_returned;
      [unfold well_formed, bucket_inv; simpl; lra | simpl; lra].
  - vm_compute. reflexivity.
Qed.

(** [C5] A call with [cost == 0] returns 0 and leaves bucket and clock
    untouched.  A failure of [consume] is either the [OverflowError] of
    a deadline that is no [datetime], raised before the bucket is
    touched, or the local rate-limit error carrying the cost, the wait
    computed from the final token count, and the configured maximum
    wait.  Under the deterministic clock a call whose deficit cannot be
    refilled before its deadline reaches that refusal after at most two
    iterations of the loop. *)
Theorem C5_zero_cost_and_refusal :
  (forall (W : Type) (now : W -> datetime * W) (sleeper : Q -> W -> W)
          fuel cost mw b w,
      cost == 0 -> consume now sleeper fuel cost mw b w = (Returned 0, b, w)) /\
  (forall (W : Type) (now : W -> datetime * W) (sleeper : Q -> W -> W)
          fuel cost mw b w e b' w',
      consume now sleeper fuel cost mw b w = (Raised e, b', w') ->
      (e = OverflowError /\ b' = b /\ deadline_of (fst (now w)) mw = None) \/
      e = LocalRateLimitError cost
            ((cost - _tokens b') / refill_rate_per_sec b') mw) /\
  (forall fuel cost mw b t deadline,
      well_formed b -> (_last_refill b <= t)%Z ->
      deadline_of t mw = Some deadline ->
      _tokens (_refill_locked b t) < cost ->
      seconds_between deadline t
      < (cost - _tokens (_refill_locked b t)) / refill_rate_per_sec b ->
      exists wait b' t',
        consume fake_now fake_sleeper (S (S fuel)) cost mw b t
        = (Raised (LocalRateLimitError cost wait mw), b', t') /\
        wait = (cost - _tokens b') / refill_rate_per_sec b' /\ 0 < wait).
Proof.
  split; [|split].
  - intros W now sleeper fuel cost mw b w Hc. unfold consume.
    assert (Qle_bool cost 0 = true) as -> by (apply Qle_bool_iff; lra).
    reflexivity.
  - intros W now sleeper fuel cost mw b w e b' w'. unfold consume.
    destruct (Qle_bool cost 0); [discriminate|].
    destruct (now w) as [t0 w0]. cbn [fst].
    destruct (deadline_of t0 mw) eqn:Hdl.
    + intros H. right. now apply (consume_loop_raised now sleeper _ _ _ _ _ _ _ _ _ _ H).
    + intros [= <- <- <-]. now left.
  - intros fuel cost mw b t deadline. apply deficit_raises.
Qed.

Lemma C5_witness :
  consume fake_now fake_sleeper 7 0 3 (mkTokenBucket 10 5 4 0%Z) 1%Z
  = (Returned 0, mkTokenBucket 10 5 4 0%Z, 1%Z) /\
  exists wait b' t',
    consume fake_now fake_sleeper 2 8 (1 # 10) (mkTokenBucket 10 5 1 0%Z) 1%Z
    = (Raised (LocalRateLimitError 8 wait (1 # 10)), b', t') /\
    wait = (8 - _tokens b') / refill_rate_per_sec b' /\ 0 < wait.
Proof.
  destruct C5_zero_cost_and_refusal as (Hzero & _ & Hrefuse).
  split.
  - apply Hzero. reflexivity.
  - apply (Hrefuse 0%nat 8 (1 # 10) (mkTokenBucket 10 5 1 0%Z) 1%Z 100001%Z).
    + unfold well_formed, bucket_inv; simpl; lra.
    + simpl; lia.
    + vm_compute. reflexivity.
    + vm_compute. reflexivity.
    + vm_compute. reflexivity.
Defined.
End ThrottleFacts.

Module EnvAuthFacts.
Import EnvAuth.

Lemma truthy_nonempty (s : string) : s <> EmptyString -> PyStr.truthy s = true.
Proof. now destruct s. Qed.

(** [C9], as amended.  When a non-empty access token is provided that is
    byte-identical to the configured client secret, and the refresh-token
    credentials are not all configured, [_auth_from_env] raises the
    configuration error, and [fetch_issue_by_key] raises it whatever the
    client is, that is, without a request being made. *)
Theorem C9_token_equal_to_secret_rejected :
  forall (env : gmap string string) (json_loads : string -> option json)
         client (token secret cloud_id issue_key : string),
    env !! "ATLASSIAN_OAUTH_ACCESS_TOKEN" = Some token ->
    env !! "ATLASSIAN_CLIENT_SECRET" = Some secret ->
    token <> EmptyString ->
    token = secret ->
    PyStr.otruthy (env !! "ATLASSIAN_OAUTH_REFRESH_TOKEN")
      && PyStr.otruthy (env !! "ATLASSIAN_CLIENT_ID") = false ->
    _auth_from_env env json_loads = inl access_token_is_client_secret /\
    fetch_issue_by_key env json_loads client cloud_id issue_key
    = inl access_token_is_client_secret.
Proof.
  intros env json_loads client token secret cloud_id issue_key
         Htok Hsec Hne Heq Hrefresh.
  assert (Hauth : _auth_from_env env json_loads = inl access_token_is_client_secret).
  { unfold _auth_from_env. rewrite Hrefresh, Htok, Hsec. subst secret.
    cbn [andb PyStr.otruthy default].
    rewrite (truthy_nonempty token Hne). cbn [andb].
    now rewrite String.eqb_refl. }
  split; [exact Hauth|].
  unfold fetch_issue_by_key. now rewrite Hauth.
Qed.

Lemma C9_witness :
  _auth_from_env Samples.env_token_is_secret Samples.no_json
  = inl access_token_is_client_secret /\
  fetch_issue_by_key Samples.env_token_is_secret Samples.no_json
                     (fun _ _ _ _ => inl (TransportError 500 "")) "cloud-123" "A-1"
  = inl access_token_is_client_secret.
Proof.
  apply (C9_token_equal_to_secret_rejected
           Samples.env_token_is_secret Samples.no_json _ "s3cr3t" "s3cr3t").
  - reflexivity.
  - reflexivity.
  - discriminate.
  - reflexivity.
  - reflexivity.
Defined.

(** [C9], as stated, fails: with the refresh-token credentials configured,
    an access token equal to the client secret is accepted and the
    refresh-token provider is returned. *)
Lemma C9_counterexample :
  Samples.env_token_is_secret_with_refresh !! "ATLASSIAN_OAUTH_ACCESS_TOKEN"
  = Samples.env_token_is_secret_with_refresh !! "ATLASSIAN_CLIENT_SECRET" /\
  _auth_from_env Samples.env_token_is_secret_with_refresh Samples.no_json
  = inr (Some (OAuthRefreshTokenAuth "app-1" "s3cr3t" "r3fr3sh")).
Proof. split; vm_compute; reflexivity. Qed.
End EnvAuthFacts.

(** ** What the parsers can raise *)

Module ParserFacts.

Import Vocabulary.


Section Only.
Variable P : error -> Prop.

Lemma only_inr {A} (x : A) : raises_only P (inr x : result A).
Proof. intros e; discriminate. Qed.

Lemma only_inl {A} e : P e -> raises_only P (inl e : result A).
Proof. intros H e' [= <-]; exact H. Qed.

Lemma only_bind {A B} (m : result A) (f : A -> result B) :
  raises_only P m -> (forall x, raises_only P (f x)) -> raises_only P (m ≫= f).
Proof.
  intros Hm Hf e. destruct m as [e'|x]; simpl.
  - intros [= <-]. now apply Hm.
  - apply Hf.
Qed.

Lemma only_optional {A} (f : json -> string -> result A) v path :
  (forall v p, raises_only P (f v p)) -> raises_only P (optional f v path).
Proof.
  intros Hf. unfold optional.
  destruct v; try apply only_inr;
    (apply only_bind; [apply Hf | intros; apply only_inr]).
Qed.

Lemma only_items {A} (f : json -> string -> result A) prefix items :
  (forall v p, raises_only P (f v p)) ->
  forall idx, raises_only P (from_dict_items f prefix idx items).
Proof.
  intros Hf. induction items as [|x rest IH]; intros idx; simpl.
  - apply only_inr.
  - apply only_bind; [apply Hf|]. intros y.
    apply only_bind; [apply IH|]. intros ys. apply only_inr.
Qed.
End Only.


Import Expect.

Ltac expect_leaf :=
  intros v p; destruct v; simpl;
  first [ apply only_inr | apply only_inl; eexists; reflexivity ].

Lemma expected_dict : forall v p, raises_only is_expected (_expect_dict v p).
Proof. expect_leaf. Qed.
Lemma expected_list : forall v p, raises_only is_expected (_expect_list v p).
Proof. expect_leaf. Qed.
Lemma expected_str : forall v p, raises_only is_expected (_expect_str v p).
Proof. expect_leaf. Qed.
Lemma expected_bool : forall v p, raises_only is_expected (_expect_bool v p).
Proof. expect_leaf. Qed.
Lemma expected_int : forall v p, raises_only is_expected (_expect_int v p).
Proof. expect_leaf. Qed.
Lemma expected_optional_str :
  forall v p, raises_only is_expected (_expect_optional_str v p).
Proof.
  intros v p; destruct v; simpl;
    try first [ apply only_inr | apply only_inl; eexists; reflexivity ].
  destruct (PyStr.truthy s);
    first [ apply only_inr | apply only_inl; eexists; reflexivity ].
Qed.

Create HintDb parsers discriminated.
#[export] Hint Resolve expected_dict expected_list expected_str expected_bool
  expected_int expected_optional_str : parsers.

(** Walks through a chain of binds whose leaves are type checks. *)
Ltac expected_chain :=
  repeat first
    [ apply only_inr
    | apply only_bind; [ | intros ? ]
    | apply only_optional; intros ? ?
    | apply only_items; intros ? ?
    | solve [ eauto with parsers ] ].

End ParserFacts.

Module IssueFacts.
Import Expect IssuesApi IssueApi Vocabulary ParserFacts.






End IssueFacts.

Module RetryFacts.
Import Retry.

(** [C6] [parse_retry_after] tries the RFC 3339 form first, falls back to
    the HTTP-date form, and raises [ValueError] when neither parses; the
    headers [Wed, 21 Oct 2025 07:28:00 GMT] and [2025-10-21T07:28:00Z]
    both parse, the first as an HTTP date and the second as RFC 3339, to
    the same instant. *)
Theorem C6_retry_after_forms :
  (forall (fromisoformat parsedate_to_datetime : string -> option datetime)
          (h : string),
      PyStr.truthy (PyStr.strip h) = true ->
      (forall t, fromisoformat (cleaned (PyStr.strip h)) ≫= to_utc = Some t ->
                 parse_retry_after fromisoformat parsedate_to_datetime (Some h)
                 = inr (t, "rfc3339")) /\
      (forall t, fromisoformat (cleaned (PyStr.strip h)) ≫= to_utc = None ->
                 parsedate_to_datetime (PyStr.strip h) ≫= to_utc = Some t ->
                 parse_retry_after fromisoformat parsedate_to_datetime (Some h)
                 = inr (t, "http-date")) /\
      (fromisoformat (cleaned (PyStr.strip h)) ≫= to_utc = None ->
       parsedate_to_datetime (PyStr.strip h) ≫= to_utc = None ->
       parse_retry_after fromisoformat parsedate_to_datetime (Some h)
       = inl (ValueError ("Unable to parse Retry-After header: " +:+ PyStr.strip h))))
  /\
  (exists t : Z,
      parse_retry_after py_fromisoformat py_parsedate_to_datetime
                        (Some "Wed, 21 Oct 2025 07:28:00 GMT")
      = inr (t, "http-date") /\
      parse_retry_after py_fromisoformat py_parsedate_to_datetime
                        (Some "2025-10-21T07:28:00Z")
      = inr (t, "rfc3339") /\
      t = utc_micros 2025 10 21 7 28 0 0).
Proof.
  split.
  - intros iso http h Hne. unfold parse_retry_after. rewrite Hne. cbn [negb].
    split; [|split].
    + intros t ->. reflexivity.
    + intros t -> ->. reflexivity.
    + intros -> ->. reflexivity.
  - exists 1761031680000000%Z. repeat split; vm_compute; reflexivity.
Qed.

Lemma C6_witness :
  parse_retry_after py_fromisoformat py_parsedate_to_datetime
                    (Some " 2025-10-21T09:28:00+02:00 ")
  = inr (1761031680000000%Z, "rfc3339") /\
  parse_retry_after py_fromisoformat py_parsedate_to_datetime
                    (Some "Tue, 21 Oct 2025 07:28:00 +0000")
  = inr (1761031680000000%Z, "http-date") /\
  parse_retry_after py_fromisoformat py_parsedate_to_datetime (Some "soon")
  = inl (ValueError "Unable to parse Retry-After header: soon").
Proof.
  destruct C6_retry_after_forms as [Hforms _].
  split; [|split].
  - apply (Hforms py_fromisoformat py_parsedate_to_datetime
             " 2025-10-21T09:28:00+02:00 "); [reflexivity|].
    vm_compute. reflexivity.
  - apply (Hforms py_fromisoformat py_parsedate_to_datetime
             "Tue, 21 Oct 2025 07:28:00 +0000"); [reflexivity| |];
      vm_compute; reflexivity.
  - apply (Hforms py_fromisoformat py_parsedate_to_datetime "soon");
      [reflexivity| |]; vm_compute; reflexivity.
Defined.
End RetryFacts.

Module AgileFacts.
Import Expect AgileApi PageShape.

Lemma optional_int (v : json) (path : string) :
  optional _expect_int v path =
  if mistyped_int v then inl (SerializationError ("Expected integer at " +:+ path))
  else inr (opt_int v).
Proof. now destruct v. Qed.

Lemma optional_bool (v : json) (path : string) :
  optional _expect_bool v path =
  if mistyped_bool v then inl (SerializationError ("Expected boolean at " +:+ path))
  else inr (opt_bool v).
Proof. now destruct v. Qed.

Lemma optional_list (v : json) (path : string) :
  match v with JNull => inr [] | _ => _expect_list v path end =
  if mistyped_list v then inl (SerializationError ("Expected list at " +:+ path))
  else inr (items_of v).
Proof. now destruct v. Qed.

(** [Page_from_dict] as a decision table over the four fields. *)
Lemma page_from_dict_table {A} (f : json -> string -> result A)
      (raw : gmap string json) (path : string) :
  Page_from_dict f (JDict raw) path =
  match page_field_complaints raw path with
  | e :: _ => inl e
  | [] =>
      vs ← from_dict_items f (path +:+ ".values") 0 (items_of (dict_get raw "values"));
      mret (mkPage (opt_int (dict_get raw "startAt"))
                   (opt_int (dict_get raw "maxResults"))
                   (opt_bool (dict_get raw "isLast")) vs)
  end.
Proof.
  unfold Page_from_dict, page_field_complaints, complaint.
  cbn [_expect_dict mbind result_bind].
  rewrite !optional_int, optional_bool, optional_list.
  destruct (mistyped_int (dict_get raw "startAt")); [reflexivity|].
  destruct (mistyped_int (dict_get raw "maxResults")); [reflexivity|].
  destruct (mistyped_bool (dict_get raw "isLast")); [reflexivity|].
  destruct (mistyped_list (dict_get raw "values")); reflexivity.
Qed.

(** The comprehension over the elements reports the first element that
    fails, under the path of its position. *)
Lemma from_dict_items_first_error {A} (f : json -> string -> result A)
      (prefix : string) (items : list json) :
  forall (idx i : nat) (item : json) (e : error),
    items !! i = Some item ->
    f item (item_path prefix (idx + i)) = inl e ->
    (forall j x, (j < i)%nat -> items !! j = Some x ->
                 exists y, f x (item_path prefix (idx + j)) = inr y) ->
    from_dict_items f prefix idx items = inl e.
Proof.
  induction items as [|x rest IH]; intros idx i item e Hi He Hbefore.
  - discriminate.
  - destruct i as [|i]; simpl in *.
    + injection Hi as ->. rewrite Nat.add_0_r in He.
      unfold item_path in He. now rewrite He.
    + destruct (Hbefore 0%nat x ltac:(lia) eq_refl) as [y Hy].
      rewrite Nat.add_0_r in Hy. unfold item_path in Hy. rewrite Hy.
      cbn [mbind result_bind].
      rewrite (IH (S idx) i item e Hi).
      * reflexivity.
      * now replace (S idx + i)%nat with (idx + S i)%nat by lia.
      * intros j x' Hj Hx'.
        replace (S idx + j)%nat with (idx + S j)%nat by lia.
        apply (Hbefore (S j) x'); [lia | exact Hx'].
Qed.
End AgileFacts.

Module RestFacts.
Import Expect AgileApi PageShape RestPaging Vocabulary AgileFacts ParserFacts.

Lemma drain_mapM {A B} (f : A -> result B) (items : list A) :
  forall (ys acc : list B),
    mapM f items = inr ys -> drain f items acc = ((acc ++ ys)%list, None).
Proof.
  induction items as [|x rest IH]; intros ys acc; simpl.
  - intros [= <-]. now rewrite app_nil_r.
  - destruct (f x) as [e|y]; simpl; [discriminate|].
    destruct (mapM f rest) as [e|zs] eqn:Hrest; simpl; [discriminate|].
    intros [= <-]. rewrite (IH zs (acc ++ [y])%list eq_refl).
    now rewrite <- app_assoc.
Qed.


Lemma drain_error {A B} (f : A -> result B) (items : list A) :
  forall acc acc' e,
    drain f items acc = (acc', Some e) -> exists x, In x items /\ f x = inl e.
Proof.
  induction items as [|x rest IH]; intros acc acc' e; simpl.
  - discriminate.
  - destruct (f x) as [e'|y] eqn:Hx.
    + intros [= <- <-]. eauto.
    + intros H. destruct (IH _ _ _ H) as (x' & Hin & Hx'). eauto.
Qed.

Lemma map_sprint_error (sprint : Sprint) (e : error) :
  map_sprint sprint = inl e -> is_value_error e.
Proof.
  unfold map_sprint, is_value_error.
  destruct (sprint_id sprint); [|intros [= <-]; eauto].
  destruct (sprint_name sprint); [|intros [= <-]; eauto].
  destruct (negb _); [intros [= <-]; eauto|].
  destruct (sprint_state sprint); [|intros [= <-]; eauto].
  destruct (negb _); [intros [= <-]; eauto|]. discriminate.
Qed.

Lemma expected_sprint :
  forall v p, raises_only is_expected (Sprint_from_dict v p).
Proof. intros v p. unfold Sprint_from_dict. ParserFacts.expected_chain. Qed.

Lemma expected_board :
  forall v p, raises_only is_expected (Board_from_dict v p).
Proof. intros v p. unfold Board_from_dict. ParserFacts.expected_chain. Qed.

Lemma expected_page {A} (f : json -> string -> result A) :
  (forall v p, raises_only is_expected (f v p)) ->
  forall v p, raises_only is_expected (Page_from_dict f v p).
Proof.
  intros Hf v p. unfold Page_from_dict.
  apply ParserFacts.only_bind; [apply ParserFacts.expected_dict|]. intros raw.
  apply ParserFacts.only_bind;
    [apply ParserFacts.only_optional, ParserFacts.expected_int|]. intros s.
  apply ParserFacts.only_bind;
    [apply ParserFacts.only_optional, ParserFacts.expected_int|]. intros m.
  apply ParserFacts.only_bind;
    [apply ParserFacts.only_optional, ParserFacts.expected_bool|]. intros l.
  apply ParserFacts.only_bind.
  { destruct (dict_get raw "values"); try apply ParserFacts.expected_list.
    apply ParserFacts.only_inr. }
  intros vl. apply ParserFacts.only_bind; [now apply ParserFacts.only_items|].
  intros vs. apply ParserFacts.only_inr.
Qed.

Lemma expected_sprint_page :
  forall v p, raises_only is_expected (SprintPage_from_dict v p).
Proof. apply expected_page, expected_sprint. Qed.

Section Sprints.
Variable get_json : nat -> string -> list (string * json) -> result json.
Variable board_path : string.
Variable state_clean : option string.
Variable page_size : Z.

Abbreviation loop := (sprints_loop get_json board_path state_clean page_size).

(** One iteration of the loop on a page that parsed and drained. *)
Lemma sprints_loop_step fuel n start_at seen acc payload page acc' :
  start_at ∉ seen ->
  get_json n board_path (sprint_params state_clean page_size start_at) = inr payload ->
  SprintPage_from_dict payload "data" = inr page ->
  drain map_sprint (values page) acc = (acc', None) ->
  loop (S fuel) n start_at seen acc =
  if bool_decide (is_Some (is_last page)) && default false (is_last page) then
    mkRun acc' (S n) Done
  else if (Z.of_nat (length (values page)) <? page_size)%Z then
    mkRun acc' (S n) Done
  else if (length (values page) =? 0)%nat then
    if bool_decide (is_Some (is_last page)) && negb (default false (is_last page))
    then mkRun acc' (S n) (Failed empty_page_not_last)
    else mkRun acc' (S n) Done
  else loop fuel (S n) (start_at + Z.of_nat (length (values page)))%Z
            ({[start_at]} ∪ seen) acc'.
Proof.
  intros Hseen Hget Hpage Hdrain. cbn [sprints_loop].
  rewrite decide_False by exact Hseen.
  rewrite Hget, Hpage, Hdrain. reflexivity.
Qed.

Lemma sprints_loop_repeated fuel n start_at seen acc :
  start_at ∈ seen ->
  loop (S fuel) n start_at seen acc = mkRun acc n (Failed repeated_start_at).
Proof. intros H. cbn [sprints_loop]. now rewrite decide_True. Qed.

(** An empty page ends the run normally, whatever it says about being
    the last: the size test comes before the test for an empty page. *)
Lemma sprints_loop_empty_page fuel n start_at seen acc payload page :
  (0 < page_size)%Z ->
  start_at ∉ seen ->
  get_json n board_path (sprint_params state_clean page_size start_at) = inr payload ->
  SprintPage_from_dict payload "data" = inr page ->
  values page = [] ->
  loop (S fuel) n start_at seen acc = mkRun acc (S n) Done.
Proof.
  intros Hsize Hseen Hget Hpage Hvals.
  rewrite (sprints_loop_step fuel n start_at seen acc payload page acc
             Hseen Hget Hpage) by (now rewrite Hvals).
  rewrite Hvals. cbn [length]. change (Z.of_nat 0) with 0%Z.
  destruct (_ && _); [reflexivity|].
  now rewrite (proj2 (Z.ltb_lt 0 page_size) Hsize).
Qed.


(** The refusal of an empty page is dead code: no run ends with it,
    unless the client itself raises that very exception. *)
Lemma sprints_loop_never_refuses_empty_page fuel :
  (0 < page_size)%Z ->
  (forall n path params, get_json n path params <> inl empty_page_not_last) ->
  forall n start_at seen acc,
    final (loop fuel n start_at seen acc) <> Failed empty_page_not_last.
Proof.
  intros Hsize Hclient.
  induction fuel as [|fuel IH]; intros n start_at seen acc; cbn [sprints_loop].
  - discriminate.
  - destruct (decide (start_at ∈ seen)); [discriminate|].
    destruct (get_json n board_path _) as [e|payload] eqn:Hget.
    { cbn [final]. intros [= ->]. now apply (Hclient _ _ _ Hget). }
    destruct (SprintPage_from_dict payload "data") as [e|page] eqn:Hpage.
    { cbn [final]. intros [= ->].
      destruct (expected_sprint_page _ _ _ Hpage) as [what Hwhat].
      discriminate Hwhat. }
    destruct (drain map_sprint (values page) acc) as [acc' [e|]] eqn:Hdrain.
    { cbn [final]. intros [= ->].
      destruct (drain_error _ _ _ _ _ Hdrain) as (x & _ & Hx).
      destruct (map_sprint_error _ _ Hx) as [msg Hmsg]. discriminate Hmsg. }
    destruct (_ && _); [discriminate|].
    destruct (Z.of_nat (length (values page)) <? page_size)%Z eqn:Hlt;
      [discriminate|].
    destruct (length (values page)) eqn:Hlen.
    + apply Z.ltb_ge in Hlt. simpl in Hlt. lia.
    + cbn [Nat.eqb]. apply IH.
Qed.
End Sprints.

Section Boards.
Variable get_json : nat -> string -> list (string * json) -> result json.
Variable page_size : Z.

Abbreviation bloop := (boards_loop get_json page_size).

Lemma boards_loop_step fuel n start_at seen acc payload page acc' :
  start_at ∉ seen ->
  get_json n "/rest/agile/1.0/board"
           [("startAt", JInt start_at); ("maxResults", JInt page_size)] = inr payload ->
  BoardPage_from_dict payload "data" = inr page ->
  drain map_rest_board (values page) acc = (acc', None) ->
  bloop (S fuel) n start_at seen acc =
  if bool_decide (is_Some (is_last page)) && default false (is_last page) then
    mkRun acc' (S n) Done
  else if (Z.of_nat (length (values page)) <? page_size)%Z then
    mkRun acc' (S n) Done
  else if (length (values page) =? 0)%nat then mkRun acc' (S n) Done
  else bloop fuel (S n) (start_at + Z.of_nat (length (values page)))%Z
             ({[start_at]} ∪ seen) acc'.
Proof.
  intros Hseen Hget Hpage Hdrain. cbn [boards_loop].
  rewrite decide_False by exact Hseen.
  rewrite Hget, Hpage, Hdrain. reflexivity.
Qed.

Lemma boards_loop_repeated fuel n start_at seen acc :
  start_at ∈ seen ->
  bloop (S fuel) n start_at seen acc = mkRun acc n (Failed repeated_start_at).
Proof. intros H. cbn [boards_loop]. now rewrite decide_True. Qed.

Lemma boards_loop_empty_page fuel n start_at seen acc payload page :
  start_at ∉ seen ->
  get_json n "/rest/agile/1.0/board"
           [("startAt", JInt start_at); ("maxResults", JInt page_size)] = inr payload ->
  BoardPage_from_dict payload "data" = inr page ->
  values page = [] ->
  bloop (S fuel) n start_at seen acc = mkRun acc (S n) Done.
Proof.
  intros Hseen Hget Hpage Hvals.
  rewrite (boards_loop_step fuel n start_at seen acc payload page acc
             Hseen Hget Hpage) by (now rewrite Hvals).
  rewrite Hvals. cbn [length Nat.eqb].
  destruct (_ && _); [reflexivity|]. now destruct (_ <? _)%Z.
Qed.
End Boards.

Lemma append_empty_r (s : string) : s +:+ "" = s.
Proof.
  induction s as [|c s IH]; [reflexivity|].
  change (String c (s +:+ "") = String c s). now rewrite IH.
Qed.

Lemma names_path_sprint (v : json) (p : string) :
  raises_only (names_path p) (Sprint_from_dict v p).
Proof.
  unfold Sprint_from_dict.
  apply only_bind.
  { destruct v; simpl; try apply only_inr; apply only_inl;
      exists "object", ""; now rewrite append_empty_r. }
  intros raw.
  repeat (apply only_bind;
          [ match goal with
            | |- raises_only _ (optional _ ?v _) =>
                destruct v; simpl; try apply only_inr; apply only_inl;
                first [ exists "integer"; eexists; reflexivity
                      | exists "string"; eexists; reflexivity ]
            end
          | intros ? ]).
  apply only_inr.
Qed.

Lemma names_path_board (v : json) (p : string) :
  raises_only (names_path p) (Board_from_dict v p).
Proof.
  unfold Board_from_dict.
  apply only_bind.
  { destruct v; simpl; try apply only_inr; apply only_inl;
      exists "object", ""; now rewrite append_empty_r. }
  intros raw.
  repeat (apply only_bind;
          [ match goal with
            | |- raises_only _ (optional _ ?v _) =>
                destruct v; simpl; try apply only_inr; apply only_inl;
                first [ exists "integer"; eexists; reflexivity
                      | exists "string"; eexists; reflexivity ]
            end
          | intros ? ]).
  apply only_inr.
Qed.

Section PageLemmas.
Context {A : Type}.
Variable item_from_dict : json -> string -> result A.

Lemma page_missing_values (raw : gmap string json) (path : string) :
  dict_get raw "values" = JNull ->
  page_field_complaints raw path = [] ->
  Page_from_dict item_from_dict (JDict raw) path
  = inr (mkPage (opt_int (dict_get raw "startAt"))
                (opt_int (dict_get raw "maxResults"))
                (opt_bool (dict_get raw "isLast")) []).
Proof.
  intros Hvals Hok. rewrite page_from_dict_table, Hok, Hvals. reflexivity.
Qed.

Lemma page_mistyped_field (raw : gmap string json) (path : string) e rest :
  page_field_complaints raw path = e :: rest ->
  Page_from_dict item_from_dict (JDict raw) path = inl e.
Proof. intros H. now rewrite page_from_dict_table, H. Qed.

Lemma page_malformed_element (raw : gmap string json) (path : string)
      (items : list json) (i : nat) (item : json) (e : error) :
  page_field_complaints raw path = [] ->
  dict_get raw "values" = JList items ->
  items !! i = Some item ->
  item_from_dict item (item_path (path +:+ ".values") i) = inl e ->
  (forall j x, (j < i)%nat -> items !! j = Some x ->
               exists y, item_from_dict x (item_path (path +:+ ".values") j) = inr y) ->
  Page_from_dict item_from_dict (JDict raw) path = inl e.
Proof.
  intros Hok Hvals Hi He Hbefore.
  rewrite page_from_dict_table, Hok, Hvals. cbn [items_of].
  now rewrite (from_dict_items_first_error item_from_dict _ items 0 i item e
                 Hi He Hbefore).
Qed.
End PageLemmas.

(** [C2] What the code does where the specification asks for a failure.
    In [iter_board_sprints_via_rest]
    and in [iter_boards_via_rest], a page that is empty while [isLast] is
    [false] ends the run normally, in the [Done] state, after that one
    request; the refusal that [iter_board_sprints_via_rest] contains for
    this case comes after the test [len(values) < page_size] and is never
    reached. *)
Theorem C2_empty_page_not_last_ends_silently :
  (forall get_json board_path state_clean page_size fuel n start_at seen acc
          payload page,
      (0 < page_size)%Z -> start_at ∉ seen ->
      get_json n board_path (sprint_params state_clean page_size start_at)
      = inr payload ->
      SprintPage_from_dict payload "data" = inr page ->
      values page = [] -> is_last page = Some false ->
      sprints_loop get_json board_path state_clean page_size
                   (S fuel) n start_at seen acc
      = mkRun acc (S n) Done) /\
  (forall get_json page_size fuel n start_at seen acc payload page,
      start_at ∉ seen ->
      get_json n "/rest/agile/1.0/board"
               [("startAt", JInt start_at); ("maxResults", JInt page_size)]
      = inr payload ->
      BoardPage_from_dict payload "data" = inr page ->
      values page = [] -> is_last page = Some false ->
      boards_loop get_json page_size (S fuel) n start_at seen acc
      = mkRun acc (S n) Done) /\
  (forall get_json board_path state_clean page_size fuel n start_at seen acc,
      (0 < page_size)%Z ->
      (forall k path params, get_json k path params <> inl empty_page_not_last) ->
      final (sprints_loop get_json board_path state_clean page_size
                          fuel n start_at seen acc)
      <> Failed empty_page_not_last).
Proof.
  split; [|split].
  - intros. eapply sprints_loop_empty_page; eassumption.
  - intros. eapply boards_loop_empty_page; eassumption.
  - intros. now apply sprints_loop_never_refuses_empty_page.
Qed.

Lemma C2_witness :
  iter_board_sprints_via_rest (Samples.always Samples.empty_page_not_last_payload)
                              5 10 None 50
  = mkRun [] 1 Done /\
  iter_boards_via_rest (Samples.always Samples.empty_page_not_last_payload) 5 50
  = mkRun [] 1 Done.
Proof.
  destruct C2_empty_page_not_last_ends_silently as (Hsprints & Hboards & _).
  split.
  - apply (Hsprints (Samples.always Samples.empty_page_not_last_payload)
             _ None 50%Z 4%nat 0%nat 0%Z ∅ []
             Samples.empty_page_not_last_payload
             (mkPage (Some 0%Z) (Some 50%Z) (Some false) []));
      [lia | apply not_elem_of_empty | reflexivity | vm_compute; reflexivity
      | reflexivity | reflexivity].
  - apply (Hboards (Samples.always Samples.empty_page_not_last_payload)
             50%Z 4%nat 0%nat 0%Z ∅ []
             Samples.empty_page_not_last_payload
             (mkPage (Some 0%Z) (Some 50%Z) (Some false) []));
      [apply not_elem_of_empty | reflexivity | vm_compute; reflexivity
      | reflexivity | reflexivity].
Defined.

(** [C10] A page object whose [values] is absent or null, and whose other
    fields are absent, null or of their type, parses to a page with no
    values, and both iterators end the run on it without error.  A field
    that is present (not null) with the wrong type makes [from_dict]
    raise the serialization error that names it, the first such field in
    the order [startAt], [maxResults], [isLast], [values]; a malformed
    element raises the error of its own parser, which names the path of
    the element. *)
Theorem C10_page_from_dict_missing_and_mistyped :
  (forall raw path,
      dict_get raw "values" = JNull -> page_field_complaints raw path = [] ->
      (exists page, SprintPage_from_dict (JDict raw) path = inr page /\
                    values page = []) /\
      (exists page, BoardPage_from_dict (JDict raw) path = inr page /\
                    values page = [])) /\
  (forall get_json board_path state_clean page_size fuel n start_at seen acc raw,
      (0 < page_size)%Z -> start_at ∉ seen ->
      get_json n board_path (sprint_params state_clean page_size start_at)
      = inr (JDict raw) ->
      dict_get raw "values" = JNull -> page_field_complaints raw "data" = [] ->
      sprints_loop get_json board_path state_clean page_size
                   (S fuel) n start_at seen acc
      = mkRun acc (S n) Done) /\
  (forall get_json page_size fuel n start_at seen acc raw,
      start_at ∉ seen ->
      get_json n "/rest/agile/1.0/board"
               [("startAt", JInt start_at); ("maxResults", JInt page_size)]
      = inr (JDict raw) ->
      dict_get raw "values" = JNull -> page_field_complaints raw "data" = [] ->
      boards_loop get_json page_size (S fuel) n start_at seen acc
      = mkRun acc (S n) Done) /\
  (forall raw path e rest,
      page_field_complaints raw path = e :: rest ->
      SprintPage_from_dict (JDict raw) path = inl e /\
      BoardPage_from_dict (JDict raw) path = inl e) /\
  (forall raw path items i item e,
      page_field_complaints raw path = [] ->
      dict_get raw "values" = JList items ->
      items !! i = Some item ->
      Sprint_from_dict item (item_path (path +:+ ".values") i) = inl e ->
      (forall j x, (j < i)%nat -> items !! j = Some x ->
                   exists y, Sprint_from_dict x (item_path (path +:+ ".values") j)
                             = inr y) ->
      SprintPage_from_dict (JDict raw) path = inl e /\
      names_path (item_path (path +:+ ".values") i) e) /\
  (forall raw path items i item e,
      page_field_complaints raw path = [] ->
      dict_get raw "values" = JList items ->
      items !! i = Some item ->
      Board_from_dict item (item_path (path +:+ ".values") i) = inl e ->
      (forall j x, (j < i)%nat -> items !! j = Some x ->
                   exists y, Board_from_dict x (item_path (path +:+ ".values") j)
                             = inr y) ->
      BoardPage_from_dict (JDict raw) path = inl e /\
      names_path (item_path (path +:+ ".values") i) e).
Proof.
  split; [|split; [|split; [|split; [|split]]]].
  - intros raw path Hvals Hok. split; eexists; split;
      try (apply page_missing_values; eassumption); reflexivity.
  - intros get_json board_path state_clean page_size fuel n start_at seen acc raw
           Hsize Hseen Hget Hvals Hok.
    eapply sprints_loop_empty_page; try eassumption.
    + apply page_missing_values; eassumption.
    + reflexivity.
  - intros get_json page_size fuel n start_at seen acc raw Hseen Hget Hvals Hok.
    eapply boards_loop_empty_page; try eassumption.
    + apply page_missing_values; eassumption.
    + reflexivity.
  - intros raw path e rest H. split; now apply (page_mistyped_field _ raw path e rest).
  - intros raw path items i item e Hok Hvals Hi He Hbefore. split.
    + now apply (page_malformed_element _ raw path items i item e).
    + apply (names_path_sprint _ _ _ He).
  - intros raw path items i item e Hok Hvals Hi He Hbefore. split.
    + now apply (page_malformed_element _ raw path items i item e).
    + apply (names_path_board _ _ _ He).
Qed.

Lemma C10_witness :
  (exists page, SprintPage_from_dict Samples.page_without_values "data" = inr page /\
                values page = []) /\
  sprints_loop (Samples.always Samples.page_without_values)
               "/rest/agile/1.0/board/10/sprint" None 50 3 0 0%Z ∅ []
  = mkRun [] 1 Done /\
  SprintPage_from_dict Samples.page_with_bad_flag "data"
  = inl (SerializationError "Expected boolean at data.isLast") /\
  SprintPage_from_dict Samples.page_with_bad_element "data"
  = inl (SerializationError "Expected object at data.values[1]").
Proof.
  destruct C10_page_from_dict_missing_and_mistyped
    as (Hmissing & Hsprints & _ & Hfield & Helement & _).
  split; [|split; [|split]].
  - apply (Hmissing _ "data"); vm_compute; reflexivity.
  - apply (Hsprints (Samples.always Samples.page_without_values)
             _ _ _ _ _ _ _ _ Samples.fields_without_values);
      [lia | apply not_elem_of_empty | reflexivity
      | vm_compute; reflexivity | vm_compute; reflexivity].
  - apply (Hfield _ "data" _ []). vm_compute. reflexivity.
  - apply (Helement _ "data"
             [Samples.obj [("id", JInt 1); ("name", JStr "S1"); ("state", JStr "active")];
              JStr "oops"] 1%nat (JStr "oops")).
    + vm_compute. reflexivity.
    + vm_compute. reflexivity.
    + reflexivity.
    + vm_compute. reflexivity.
    + intros j x Hj Hx. destruct j as [|j]; [|lia].
      injection Hx as <-. eexists. vm_compute. reflexivity.
Defined.
Lemma sprints_loop_never_repeats get_json board_path state_clean page_size fuel :
  (0 < page_size)%Z ->
  (forall n path params, get_json n path params <> inl repeated_start_at) ->
  forall n start_at seen acc,
    (forall x, x ∈ seen -> (x < start_at)%Z) ->
    final (sprints_loop get_json board_path state_clean page_size
                        fuel n start_at seen acc)
    <> Failed repeated_start_at.
Proof.
  intros Hsize Hclient.
  induction fuel as [|fuel IH]; intros n start_at seen acc Hinv; cbn [sprints_loop].
  - discriminate.
  - destruct (decide (start_at ∈ seen)) as [Hin|_];
      [apply Hinv in Hin; lia|].
    destruct (get_json n board_path _) as [e|payload] eqn:Hget.
    { cbn [final]. intros [= ->]. now apply (Hclient _ _ _ Hget). }
    destruct (SprintPage_from_dict payload "data") as [e|page] eqn:Hpage.
    { cbn [final]. intros [= ->].
      destruct (expected_sprint_page _ _ _ Hpage) as [what Hwhat].
      discriminate Hwhat. }
    destruct (drain map_sprint (values page) acc) as [acc' [e|]] eqn:Hdrain.
    { cbn [final]. intros [= ->].
      destruct (drain_error _ _ _ _ _ Hdrain) as (x & _ & Hx).
      destruct (map_sprint_error _ _ Hx) as [msg Hmsg]. discriminate Hmsg. }
    destruct (_ && _); [discriminate|].
    destruct (Z.of_nat (length (values page)) <? page_size)%Z eqn:Hlt;
      [discriminate|].
    apply Z.ltb_ge in Hlt.
    destruct (length (values page) =? 0)%nat; [destruct (_ && _); discriminate|].
    apply IH. intros x Hx.
    apply elem_of_union in Hx as [Hx|Hx].
    + apply elem_of_singleton in Hx. lia.
    + apply Hinv in Hx. lia.
Qed.

Lemma expected_board_page :
  forall v p, raises_only is_expected (BoardPage_from_dict v p).
Proof. apply expected_page, expected_board. Qed.

Lemma boards_loop_never_repeats get_json page_size fuel :
  (forall n path params, get_json n path params <> inl repeated_start_at) ->
  forall n start_at seen acc,
    (forall x, x ∈ seen -> (x < start_at)%Z) ->
    final (boards_loop get_json page_size fuel n start_at seen acc)
    <> Failed repeated_start_at.
Proof.
  intros Hclient.
  induction fuel as [|fuel IH]; intros n start_at seen acc Hinv; cbn [boards_loop].
  - discriminate.
  - destruct (decide (start_at ∈ seen)) as [Hin|_];
      [apply Hinv in Hin; lia|].
    destruct (get_json n _ _) as [e|payload] eqn:Hget.
    { cbn [final]. intros [= ->]. now apply (Hclient _ _ _ Hget). }
    destruct (BoardPage_from_dict payload "data") as [e|page] eqn:Hpage.
    { cbn [final]. intros [= ->].
      destruct (expected_board_page _ _ _ Hpage) as [what Hwhat].
      discriminate Hwhat. }
    destruct (drain map_rest_board (values page) acc) as [acc' [e|]] eqn:Hdrain.
    { destruct (drain_error _ _ _ _ _ Hdrain) as (x & _ & Hx). discriminate Hx. }
    destruct (_ && _); [discriminate|].
    destruct (Z.of_nat (length (values page)) <? page_size)%Z; [discriminate|].
    destruct (length (values page)) eqn:Hlen; [discriminate|].
    cbn [Nat.eqb]. apply IH. intros x Hx.
    apply elem_of_union in Hx as [Hx|Hx].
    + apply elem_of_singleton in Hx. lia.
    + apply Hinv in Hx. lia.
Qed.
End RestFacts.

Module WorklogFacts.
Import WorklogsApi WorklogPaging Vocabulary RestFacts.

Section Client.
Variable PAGEINFO_HAS_END_CURSOR : bool.
Variable WORKLOGS_EDGE_HAS_CURSOR : bool.
Variable execute : nat -> Variables -> option (list string) -> result GraphQLResult.
Variable cloud_id issue_key : string.
Variable page_size : Z.
Variable apis : option (list string).

Abbreviation wloop :=
  (worklogs_loop PAGEINFO_HAS_END_CURSOR WORKLOGS_EDGE_HAS_CURSOR execute
                 cloud_id issue_key page_size apis).
Abbreviation next_of :=
  (next_after_of PAGEINFO_HAS_END_CURSOR WORKLOGS_EDGE_HAS_CURSOR issue_key).

(** One iteration of the loop on a page that parsed and drained. *)
Lemma worklogs_loop_step fuel n after seen acc conn items :
  answers_page PAGEINFO_HAS_END_CURSOR WORKLOGS_EDGE_HAS_CURSOR execute
               cloud_id issue_key page_size apis n after conn items ->
  wloop (S fuel) n after seen acc =
  match next_of conn with
  | inl e => mkRun (acc ++ items)%list (S n) (Failed e)
  | inr None => mkRun (acc ++ items)%list (S n) Done
  | inr (Some c) =>
      if decide (c ∈ seen) then mkRun (acc ++ items)%list (S n) (Failed cursor_repeated)
      else wloop fuel (S n) (Some c) ({[c]} ∪ seen) (acc ++ items)%list
  end.
Proof.
  intros (r & Hexec & Hdata & Hparse & Hmap). cbn [worklogs_loop].
  rewrite Hexec.
  destruct (data r) eqn:Hd; try congruence;
    rewrite Hparse, (drain_mapM _ _ _ acc Hmap); reflexivity.
Qed.

(** With the cursors of the server confined to a finite set [C], the
    loop stops before it has made more than [size C + 1] requests. *)
Lemma worklogs_loop_bounded (C : gset string) :
  cursors_within PAGEINFO_HAS_END_CURSOR WORKLOGS_EDGE_HAS_CURSOR execute issue_key C ->
  forall fuel n after seen acc,
    seen ⊆ C ->
    (size C - size seen < fuel)%nat ->
    final (wloop fuel n after seen acc) <> Fetching /\
    (fetches (wloop fuel n after seen acc) <= n + S (size C - size seen))%nat.
Proof.
  intros Hwithin.
  induction fuel as [|fuel IH]; intros n after seen acc Hsub Hfuel; [lia|].
  cbn [worklogs_loop].
  destruct (execute n _ apis) as [e|r] eqn:Hexec;
    [cbn; split; [discriminate|lia]|].
  assert (Hstop : forall (A : Type) (acc' : list A) s,
             s <> Fetching ->
             final (mkRun acc' (S n) s) <> Fetching /\
             (fetches (mkRun acc' (S n) s) <= n + S (size C - size seen))%nat)
    by (intros; cbn; split; [assumption|lia]).
  destruct (parse_or_operation_error _ r) as [e|conn] eqn:Hparse.
  { destruct (data r); apply Hstop; discriminate. }
  destruct (drain _ (edges conn) acc) as [acc' [e|]] eqn:Hdrain.
  { destruct (data r); apply Hstop; discriminate. }
  destruct (next_of conn) as [e|[c|]] eqn:Hnext.
  { destruct (data r); apply Hstop; discriminate. }
  2: { destruct (data r); apply Hstop; discriminate. }
  destruct (decide (c ∈ seen)) as [Hin|Hnotin].
  { destruct (data r); apply Hstop; discriminate. }
  assert (HcC : c ∈ C) by (eapply Hwithin; eassumption).
  assert (Hsub' : {[c]} ∪ seen ⊆ C).
  { apply union_subseteq. split; [now apply singleton_subseteq_l | exact Hsub]. }
  assert (Hsize : size ({[c]} ∪ seen) = S (size seen)).
  { rewrite size_union by (now apply disjoint_singleton_l).
    now rewrite size_singleton. }
  pose proof (subseteq_size _ _ Hsub') as Hle. rewrite Hsize in Hle.
  destruct (IH (S n) (Some c) ({[c]} ∪ seen) acc' Hsub' ltac:(lia)) as [Hf Hn].
  rewrite Hsize in Hn.
  destruct (data r); try (apply Hstop; discriminate); (split; [exact Hf|lia]).
Qed.

(** Once [c] has been used, the request that is answered with [c]
    again is the last. *)
Lemma worklogs_loop_stops_at_repeat (j : nat) (c : string) :
  returns_cursor PAGEINFO_HAS_END_CURSOR WORKLOGS_EDGE_HAS_CURSOR execute
                 issue_key j c ->
  forall fuel n after seen acc,
    c ∈ seen -> (n <= j)%nat ->
    (fetches (wloop fuel n after seen acc) <= S j)%nat /\
    ((j - n < fuel)%nat -> final (wloop fuel n after seen acc) <> Fetching).
Proof.
  intros Hj.
  induction fuel as [|fuel IH]; intros n after seen acc Hin Hle;
    [cbn; split; [lia|lia]|].
  cbn [worklogs_loop].
  assert (Hstop : forall (A : Type) (acc' : list A) s,
             s <> Fetching ->
             (fetches (mkRun acc' (S n) s) <= S j)%nat /\
             ((j - n < S fuel)%nat -> final (mkRun acc' (S n) s) <> Fetching))
    by (intros; cbn; split; [lia|auto]).
  destruct (execute n _ apis) as [e|r] eqn:Hexec; [apply Hstop; discriminate|].
  destruct (parse_or_operation_error _ r) as [e|conn] eqn:Hparse.
  { destruct (data r); apply Hstop; discriminate. }
  destruct (drain _ (edges conn) acc) as [acc' [e|]] eqn:Hdrain.
  { destruct (data r); apply Hstop; discriminate. }
  destruct (next_of conn) as [e|[c'|]] eqn:Hnext.
  { destruct (data r); apply Hstop; discriminate. }
  2: { destruct (data r); apply Hstop; discriminate. }
  destruct (decide (c' ∈ seen)) as [Hin'|Hnotin].
  { destruct (data r); apply Hstop; discriminate. }
  assert (Hlt : (n < j)%nat).
  { destruct (decide (n = j)) as [->|]; [|lia].
    rewrite (Hj _ _ _ _ Hexec Hparse) in Hnext.
    injection Hnext as <-. contradiction. }
  destruct (IH (S n) (Some c') ({[c']} ∪ seen) acc'
              ltac:(apply elem_of_union; now right) ltac:(lia)) as [Hf Hn].
  destruct (data r); try (apply Hstop; discriminate);
    (split; [exact Hf | intros; apply Hn; lia]).
Qed.

(** A server that hands out the same cursor at the requests [i < j] is
    asked at most [j + 1] times. *)
Lemma worklogs_loop_same_cursor_twice (i j : nat) (c : string) :
  (i < j)%nat ->
  returns_cursor PAGEINFO_HAS_END_CURSOR WORKLOGS_EDGE_HAS_CURSOR execute
                 issue_key i c ->
  returns_cursor PAGEINFO_HAS_END_CURSOR WORKLOGS_EDGE_HAS_CURSOR execute
                 issue_key j c ->
  forall fuel n after seen acc,
    (n <= i)%nat ->
    (fetches (wloop fuel n after seen acc) <= S j)%nat /\
    ((j - n < fuel)%nat -> final (wloop fuel n after seen acc) <> Fetching).
Proof.
  intros Hij Hi Hj.
  induction fuel as [|fuel IH]; intros n after seen acc Hle;
    [cbn; split; [lia|lia]|].
  cbn [worklogs_loop].
  assert (Hstop : forall (A : Type) (acc' : list A) s,
             s <> Fetching ->
             (fetches (mkRun acc' (S n) s) <= S j)%nat /\
             ((j - n < S fuel)%nat -> final (mkRun acc' (S n) s) <> Fetching))
    by (intros; cbn; split; [lia|auto]).
  destruct (execute n _ apis) as [e|r] eqn:Hexec; [apply Hstop; discriminate|].
  destruct (parse_or_operation_error _ r) as [e|conn] eqn:Hparse.
  { destruct (data r); apply Hstop; discriminate. }
  destruct (drain _ (edges conn) acc) as [acc' [e|]] eqn:Hdrain.
  { destruct (data r); apply Hstop; discriminate. }
  destruct (next_of conn) as [e|[c'|]] eqn:Hnext.
  { destruct (data r); apply Hstop; discriminate. }
  2: { destruct (data r); apply Hstop; discriminate. }
  destruct (decide (c' ∈ seen)) as [Hin'|Hnotin].
  { destruct (data r); apply Hstop; discriminate. }
  assert (Hrec : (fetches (wloop fuel (S n) (Some c') ({[c']} ∪ seen) acc') <= S j)%nat /\
                 ((j - S n < fuel)%nat ->
                  final (wloop fuel (S n) (Some c') ({[c']} ∪ seen) acc') <> Fetching)).
  { destruct (decide (n = i)) as [->|Hne].
    - rewrite (Hi _ _ _ _ Hexec Hparse) in Hnext. injection Hnext as <-.
      apply (worklogs_loop_stops_at_repeat j c Hj);
        [apply elem_of_union; left; now apply elem_of_singleton | lia].
    - apply IH. lia. }
  destruct Hrec as [Hf Hn].
  destruct (data r); try (apply Hstop; discriminate);
    (split; [exact Hf | intros; apply Hn; lia]).
Qed.
End Client.

End WorklogFacts.

(** ** Pagination properties, over both styles *)

Module PaginationFacts.
Import AgileApi RestPaging WorklogsApi WorklogPaging Vocabulary RestFacts WorklogFacts.

(** The sprints loop on a full page that is not declared the last. *)
Lemma sprints_loop_full_page get_json board_path state_clean page_size
      fuel n start_at seen acc page items :
  (0 < page_size)%Z ->
  start_at ∉ seen ->
  serves_sprints get_json board_path state_clean page_size n start_at page items ->
  Z.of_nat (length (values page)) = page_size ->
  is_last page = Some false ->
  sprints_loop get_json board_path state_clean page_size (S fuel) n start_at seen acc
  = sprints_loop get_json board_path state_clean page_size fuel (S n)
                 (start_at + page_size)%Z ({[start_at]} ∪ seen) (acc ++ items)%list.
Proof.
  intros Hsize Hseen (payload & Hget & Hpage & Hmap) Hlen Hlast.
  rewrite (sprints_loop_step get_json board_path state_clean page_size fuel n
             start_at seen acc payload page (acc ++ items)%list Hseen Hget Hpage
             (drain_mapM _ _ _ acc Hmap)).
  rewrite Hlast, Hlen, Z.ltb_irrefl. cbn [default andb bool_decide].
  destruct (bool_decide _); cbn [andb];
    (destruct (length (values page)) eqn:Hl; [simpl in Hlen; lia | reflexivity]).
Qed.


(** The sprints loop against a server that answers every request with the
    same full page, not declared the last. *)
Lemma sprints_loop_endless fuel :
  forall n start_at seen acc,
    (forall x, x ∈ seen -> (x < start_at)%Z) ->
    final (sprints_loop MoreSamples.endless_sprints "/rest/agile/1.0/board/10/sprint"
                        None 1 fuel n start_at seen acc) = Fetching /\
    fetches (sprints_loop MoreSamples.endless_sprints "/rest/agile/1.0/board/10/sprint"
                          None 1 fuel n start_at seen acc) = (n + fuel)%nat.
Proof.
  induction fuel as [|fuel IH]; intros n start_at seen acc Hseen.
  - cbn. split; [reflexivity|lia].
  - rewrite (sprints_loop_full_page MoreSamples.endless_sprints _ None 1%Z fuel n
               start_at seen acc (Samples.parsed_sprint_page 0 1 false)
               [Samples.sprint_item 0]);
      [| lia
       | intros Hin; apply Hseen in Hin; lia
       | eexists; split; [reflexivity|]; split; vm_compute; reflexivity
       | reflexivity | reflexivity].
    destruct (IH (S n) (start_at + 1)%Z ({[start_at]} ∪ seen)
                 (acc ++ [Samples.sprint_item 0])%list) as [Hf Hn].
    + intros x Hx. apply elem_of_union in Hx as [Hx|Hx].
      * apply elem_of_singleton in Hx. lia.
      * apply Hseen in Hx. lia.
    + split; [exact Hf|]. rewrite Hn. lia.
Qed.

(** [C3], as amended.  When the next cursor of a GraphQL run is one it
    has used before, the run fails with the serialization error for a
    repeated cursor; a run against a server whose cursors all lie in a
    finite set [C] ends after at most [size C + 1] requests, and a run
    against a server that hands out the same cursor at the requests
    [i < j] ends after at most [j + 1] requests, whatever else the
    server answers.  In an offset-based run the offsets are computed by
    the iterator and grow from page to page: from every state in which
    the offsets used so far are below the next one, as they are
    throughout a run, the loop never fails with the serialization error
    for a repeated offset, unless the client itself raises it. *)
Theorem C3_repeated_cursor_fails_and_run_is_bounded :
  (forall PI EH execute cloud_id issue_key page_size apis
          fuel n after seen acc conn items c,
      answers_page PI EH execute cloud_id issue_key page_size apis n after conn items ->
      next_after_of PI EH issue_key conn = inr (Some c) ->
      c ∈ seen ->
      worklogs_loop PI EH execute cloud_id issue_key page_size apis
                    (S fuel) n after seen acc
      = mkRun (acc ++ items)%list (S n) (Failed cursor_repeated)) /\
  (forall PI EH execute cloud_id issue_key page_size apis (C : gset string) fuel,
      cursors_within PI EH execute (PyStr.strip issue_key) C ->
      (size C < fuel)%nat ->
      final (iter_issue_worklogs_via_graphql PI EH execute fuel cloud_id issue_key
                                             page_size apis) <> Fetching /\
      (fetches (iter_issue_worklogs_via_graphql PI EH execute fuel cloud_id issue_key
                                                page_size apis) <= S (size C))%nat) /\
  (forall PI EH execute cloud_id issue_key page_size apis (i j : nat) (c : string) fuel,
      (i < j)%nat ->
      returns_cursor PI EH execute (PyStr.strip issue_key) i c ->
      returns_cursor PI EH execute (PyStr.strip issue_key) j c ->
      (fetches (iter_issue_worklogs_via_graphql PI EH execute fuel cloud_id issue_key
                                                page_size apis) <= S j)%nat /\
      ((j < fuel)%nat ->
       final (iter_issue_worklogs_via_graphql PI EH execute fuel cloud_id issue_key
                                              page_size apis) <> Fetching)) /\
  (forall get_json,
      (forall n path params, get_json n path params <> inl repeated_start_at) ->
      (forall board_path state_clean page_size fuel n start_at seen acc,
          (0 < page_size)%Z ->
          (forall x, x ∈ seen -> (x < start_at)%Z) ->
          final (sprints_loop get_json board_path state_clean page_size
                              fuel n start_at seen acc)
          <> Failed repeated_start_at) /\
      (forall page_size fuel n start_at seen acc,
          (forall x, x ∈ seen -> (x < start_at)%Z) ->
          final (boards_loop get_json page_size fuel n start_at seen acc)
          <> Failed repeated_start_at)).
Proof.
  split; [|split; [|split]].
  - intros PI EH execute cloud_id issue_key page_size apis
           fuel n after seen acc conn items c Hpage Hnext Hin.
    rewrite (worklogs_loop_step PI EH execute cloud_id issue_key page_size apis
               fuel n after seen acc conn items Hpage).
    rewrite Hnext. now rewrite decide_True.
  - intros PI EH execute cloud_id issue_key page_size apis C fuel Hwithin Hfuel.
    unfold iter_issue_worklogs_via_graphql.
    destruct (negb (PyStr.truthy (PyStr.strip cloud_id)));
      [cbn; split; [discriminate|lia]|].
    destruct (negb (PyStr.truthy (PyStr.strip issue_key)));
      [cbn; split; [discriminate|lia]|].
    destruct (page_size <=? 0)%Z; [cbn; split; [discriminate|lia]|].
    destruct (worklogs_loop_bounded PI EH execute (PyStr.strip cloud_id)
                (PyStr.strip issue_key) page_size
                (match apis with Some (x :: l) => Some (x :: l) | _ => None end)
                C Hwithin fuel 0%nat None ∅ [])
      as [Hf Hn].
    + apply empty_subseteq.
    + rewrite size_empty. lia.
    + rewrite size_empty in Hn. split; [exact Hf|lia].
  - intros PI EH execute cloud_id issue_key page_size apis i j c fuel Hij Hi Hj.
    unfold iter_issue_worklogs_via_graphql.
    destruct (negb (PyStr.truthy (PyStr.strip cloud_id)));
      [cbn; split; [lia|discriminate]|].
    destruct (negb (PyStr.truthy (PyStr.strip issue_key)));
      [cbn; split; [lia|discriminate]|].
    destruct (page_size <=? 0)%Z; [cbn; split; [lia|discriminate]|].
    destruct (worklogs_loop_same_cursor_twice PI EH execute (PyStr.strip cloud_id)
                (PyStr.strip issue_key) page_size
                (match apis with Some (x :: l) => Some (x :: l) | _ => None end)
                i j c Hij Hi Hj fuel 0%nat None ∅ [] ltac:(lia))
      as [Hf Hn].
    split; [exact Hf | intros; apply Hn; lia].
  - intros get_json Hclient. split.
    + intros board_path state_clean page_size fuel n start_at seen acc Hsize Hseen.
      now apply sprints_loop_never_repeats.
    + intros page_size fuel n start_at seen acc Hseen.
      now apply boards_loop_never_repeats.
Qed.

Lemma C3_witness :
  worklogs_loop true true Samples.repeating_cursor "cloud-123" "A-1" 50 None
                3 1 (Some "c1") {["c1"]} [Samples.worklog_item 0]
  = mkRun [Samples.worklog_item 0; Samples.worklog_item 0] 2 (Failed cursor_repeated) /\
  (final (iter_issue_worklogs_via_graphql true true Samples.repeating_cursor 5
                                          "cloud-123" "A-1" 50 None) <> Fetching /\
   (fetches (iter_issue_worklogs_via_graphql true true Samples.repeating_cursor 5
                                             "cloud-123" "A-1" 50 None) <= 2)%nat) /\
  ((fetches (iter_issue_worklogs_via_graphql true true Samples.repeating_cursor 9
                                             "cloud-123" "A-1" 50 None) <= 2)%nat /\
   ((1 < 9)%nat ->
    final (iter_issue_worklogs_via_graphql true true Samples.repeating_cursor 9
                                           "cloud-123" "A-1" 50 None) <> Fetching)) /\
  final (sprints_loop Samples.three_sprint_pages "/rest/agile/1.0/board/10/sprint"
                      None 50 9 0 0%Z ∅ [])
  <> Failed repeated_start_at.
Proof.
  destruct C3_repeated_cursor_fails_and_run_is_bounded
    as (Hrepeat & Hbounded & Htwice & Hoffset).
  assert (Hclient : forall n path params,
             Samples.three_sprint_pages n path params <> inl repeated_start_at).
  { intros n path params. unfold Samples.three_sprint_pages.
    repeat (destruct (_ =? _)%Z; [discriminate|]). discriminate. }
  assert (Hreturns : forall n, returns_cursor true true Samples.repeating_cursor
                                              "A-1" n "c1").
  { intros n vars apis r conn Hexec Hparse.
    injection Hexec as <-. vm_compute in Hparse. injection Hparse as <-.
    vm_compute. reflexivity. }
  split; [|split; [|split]].
  - apply (Hrepeat true true Samples.repeating_cursor "cloud-123" "A-1" 50%Z None
             2%nat 1%nat (Some "c1") {["c1"]} [Samples.worklog_item 0]
             (Samples.parsed_connection 0 1 true (Some "c1"))
             [Samples.worklog_item 0] "c1").
    + eexists. split; [reflexivity|]. split; [discriminate|].
      split; vm_compute; reflexivity.
    + vm_compute. reflexivity.
    + now apply elem_of_singleton.
  - rewrite <- (size_singleton (C:=gset string) "c1").
    apply (Hbounded true true Samples.repeating_cursor "cloud-123" "A-1" 50%Z None
             {["c1"]} 5%nat).
    + intros n vars apis r conn c Hexec Hparse Hnext.
      injection Hexec as <-.
      vm_compute in Hparse. injection Hparse as <-.
      vm_compute in Hnext. injection Hnext as <-.
      now apply elem_of_singleton.
    + rewrite size_singleton. lia.
  - apply (Htwice true true Samples.repeating_cursor "cloud-123" "A-1" 50%Z None
             0%nat 1%nat "c1" 9%nat); [lia | apply Hreturns | apply Hreturns].
  - apply (proj1 (Hoffset Samples.three_sprint_pages Hclient)); [lia|].
    intros x Hx. now apply not_elem_of_empty in Hx.
Defined.

(** [C3], as stated, fails for offset-based runs: against a server that
    answers every request with the same full page, not declared the
    last, the sprints iterator raises no error and never stops: after
    any number of iterations it has made as many requests and is about
    to make another. *)
Lemma C3_counterexample :
  fetches (iter_board_sprints_via_rest MoreSamples.endless_sprints 1000 10 None 1)
  = 1000%nat /\
  forall fuel,
    final (iter_board_sprints_via_rest MoreSamples.endless_sprints fuel 10 None 1)
    = Fetching /\
    fetches (iter_board_sprints_via_rest MoreSamples.endless_sprints fuel 10 None 1)
    = fuel.
Proof.
  assert (H : forall fuel,
             final (iter_board_sprints_via_rest MoreSamples.endless_sprints fuel 10 None 1)
             = Fetching /\
             fetches (iter_board_sprints_via_rest MoreSamples.endless_sprints fuel 10 None 1)
             = fuel).
  { intros fuel.
    change (iter_board_sprints_via_rest MoreSamples.endless_sprints fuel 10 None 1)
      with (sprints_loop MoreSamples.endless_sprints "/rest/agile/1.0/board/10/sprint"
                         None 1 fuel 0 0%Z ∅ []).
    apply (sprints_loop_endless fuel 0%nat 0%Z ∅ []).
    intros x Hx. now apply not_elem_of_empty in Hx. }
  split; [apply H | exact H].
Qed.


End PaginationFacts.

(** ** Facts about [strip] *)

Module StrFacts.
Import PyStr StrShape.

Lemma append_cons c (s t : string) : String c s +:+ t = String c (s +:+ t).
Proof. reflexivity. Qed.

Lemma append_nil_r (s : string) : s +:+ "" = s.
Proof.
  induction s as [|c s IH]; [reflexivity|]. now rewrite append_cons, IH.
Qed.

Lemma append_assoc (s t u : string) : (s +:+ t) +:+ u = s +:+ (t +:+ u).
Proof.
  induction s as [|c s IH]; [reflexivity|]. now rewrite !append_cons, IH.
Qed.

Lemma rev_app_spec (s t : string) : String.rev_app s t = String.rev s +:+ t.
Proof.
  unfold String.rev. revert t.
  induction s as [|c s IH]; intros t; [reflexivity|].
  cbn [String.rev_app]. rewrite (IH (String c t)), (IH (String c "")).
  now rewrite append_assoc.
Qed.

Lemma rev_cons c (s : string) : String.rev (String c s) = String.rev s +:+ String c "".
Proof. unfold String.rev at 1. cbn [String.rev_app]. apply rev_app_spec. Qed.

Lemma rev_append (s t : string) : String.rev (s +:+ t) = String.rev t +:+ String.rev s.
Proof.
  induction s as [|c s IH].
  - change ("" +:+ t) with t. now rewrite append_nil_r.
  - now rewrite append_cons, !rev_cons, IH, append_assoc.
Qed.

Lemma rev_involutive (s : string) : String.rev (String.rev s) = s.
Proof.
  induction s as [|c s IH]; [reflexivity|].
  now rewrite rev_cons, rev_append, IH.
Qed.

Lemma rev_nil_inv (s : string) : String.rev s = "" -> s = "".
Proof. intros H. now rewrite <- (rev_involutive s), H. Qed.

Section Front.
Variable sp1 : ascii -> bool.
Variable sp2 : ascii -> ascii -> bool.
Variable sp3 : ascii -> ascii -> ascii -> bool.

Local Abbreviation front := (front_space sp1 sp2 sp3).
Local Abbreviation stripped := (strip_front sp1 sp2 sp3).

(** Induction on a string along the steps of [strip_front]. *)
Lemma front_ind (P : string -> Prop) :
  P "" ->
  (forall c1 r1, sp1 c1 = true -> P r1 -> P (String c1 r1)) ->
  (forall c1 c2 r2, sp1 c1 = false -> sp2 c1 c2 = true -> P r2 ->
                    P (String c1 (String c2 r2))) ->
  (forall c1 c2 c3 r3, sp1 c1 = false -> sp2 c1 c2 = false ->
                       sp3 c1 c2 c3 = true -> P r3 ->
                       P (String c1 (String c2 (String c3 r3)))) ->
  (forall s, front s = false -> P s) ->
  forall s, P s.
Proof.
  intros H0 H1 H2 H3 Hc.
  assert (H : forall n s, (String.length s <= n)%nat -> P s).
  { induction n as [|n IH]; intros s Hn.
    - destruct s; [exact H0|cbn in Hn; lia].
    - destruct s as [|c1 r1]; [exact H0|]. cbn in Hn.
      destruct (sp1 c1) eqn:E1; [apply H1; [exact E1|apply IH; lia]|].
      destruct r1 as [|c2 r2];
        [apply Hc; cbn; now rewrite E1|]. cbn in Hn.
      destruct (sp2 c1 c2) eqn:E2; [apply H2; try assumption; apply IH; lia|].
      destruct r2 as [|c3 r3];
        [apply Hc; cbn; now rewrite E1, E2|]. cbn in Hn.
      destruct (sp3 c1 c2 c3) eqn:E3;
        [apply H3; try assumption; apply IH; lia|].
      apply Hc. cbn. now rewrite E1, E2, E3. }
  intros s. now apply (H (String.length s)).
Qed.

Lemma strip_front_id (s : string) : front s = false -> stripped s = s.
Proof.
  destruct s as [|c1 [|c2 [|c3 r3]]]; cbn; try reflexivity.
  - now intros ->%orb_false_iff%proj1.
  - intros [-> [-> _]%orb_false_iff]%orb_false_iff. reflexivity.
  - intros [-> [-> ->]%orb_false_iff]%orb_false_iff. reflexivity.
Qed.

Lemma strip_front_clean (s : string) : front (stripped s) = false.
Proof.
  induction s as [|c1 r1 E1 IH|c1 c2 r2 E1 E2 IH|c1 c2 c3 r3 E1 E2 E3 IH|s Hs]
    using front_ind.
  - reflexivity.
  - cbn [strip_front]. now rewrite E1.
  - cbn [strip_front]. now rewrite E1, E2.
  - cbn [strip_front]. now rewrite E1, E2, E3.
  - now rewrite (strip_front_id s Hs).
Qed.

(** What is stripped is taken from the front. *)
Lemma strip_front_suffix (s : string) : exists p, s = p +:+ stripped s.
Proof.
  induction s as [|c1 r1 E1 [p IH]|c1 c2 r2 E1 E2 [p IH]
                  |c1 c2 c3 r3 E1 E2 E3 [p IH]|s Hs] using front_ind.
  - now exists "".
  - exists (String c1 p). cbn [strip_front]. rewrite E1, append_cons.
    now rewrite <- IH.
  - exists (String c1 (String c2 p)). cbn [strip_front].
    rewrite E1, E2, !append_cons. now rewrite <- IH.
  - exists (String c1 (String c2 (String c3 p))). cbn [strip_front].
    rewrite E1, E2, E3, !append_cons. now rewrite <- IH.
  - exists "". now rewrite (strip_front_id s Hs).
Qed.

(** A string that begins with white space still does so when it is
    extended. *)
Lemma front_space_app (s t : string) : front s = true -> front (s +:+ t) = true.
Proof.
  destruct s as [|c1 [|c2 [|c3 r3]]]; rewrite ?append_cons;
    cbn [front_space]; try discriminate.
  - rewrite orb_false_r. now intros ->.
  - rewrite orb_false_r. intros [->| ->]%orb_true_iff; [reflexivity|].
    apply orb_true_r.
  - intros H. exact H.
Qed.
End Front.

Lemma lstrip_starts_clean (s : string) : starts_clean (lstrip s).
Proof. apply strip_front_clean. Qed.

Lemma lstrip_clean (s : string) : starts_clean s -> lstrip s = s.
Proof. apply strip_front_id. Qed.

Lemma rstrip_ends_clean (s : string) : ends_clean (rstrip s).
Proof.
  unfold ends_clean, rstrip. rewrite rev_involutive. apply strip_front_clean.
Qed.

Lemma rstrip_clean (s : string) : ends_clean s -> rstrip s = s.
Proof.
  unfold ends_clean, rstrip. intros H. rewrite (strip_front_id _ _ _ _ H).
  apply rev_involutive.
Qed.

(** What [rstrip] removes is taken from the end. *)
Lemma rstrip_prefix (s : string) : exists p, s = rstrip s +:+ p.
Proof.
  unfold rstrip.
  destruct (strip_front_suffix is_space is_space2_back is_space3_back (String.rev s))
    as [p Hp].
  exists (String.rev p).
  rewrite <- (rev_involutive s) at 1. rewrite Hp at 1. apply rev_append.
Qed.

Lemma rstrip_starts_clean (s : string) : starts_clean s -> starts_clean (rstrip s).
Proof.
  unfold starts_clean. intros Hs.
  destruct (front_space is_space is_space2 is_space3 (rstrip s)) eqn:E;
    [|reflexivity].
  destruct (rstrip_prefix s) as [p Hp].
  rewrite Hp in Hs. now rewrite (front_space_app _ _ _ _ p E) in Hs.
Qed.

Lemma strip_starts_clean (s : string) : starts_clean (strip s).
Proof. apply rstrip_starts_clean, lstrip_starts_clean. Qed.

Lemma strip_ends_clean (s : string) : ends_clean (strip s).
Proof. apply rstrip_ends_clean. Qed.

Lemma strip_clean (s : string) : starts_clean s -> ends_clean s -> strip s = s.
Proof. intros H1 H2. unfold strip. now rewrite (lstrip_clean _ H1), rstrip_clean. Qed.

Lemma strip_idempotent (s : string) : strip (strip s) = strip s.
Proof. apply strip_clean; [apply strip_starts_clean | apply strip_ends_clean]. Qed.

Lemma lstrip_all_space (s : string) : all_space s = true -> lstrip s = "".
Proof.
  unfold lstrip.
  induction s as [|c1 r1 E1 IH|c1 c2 r2 E1 E2 IH|c1 c2 c3 r3 E1 E2 E3 IH|s Hs]
    using (front_ind is_space is_space2 is_space3).
  - reflexivity.
  - cbn [all_space strip_front]. now rewrite E1.
  - cbn [all_space strip_front]. now rewrite E1, E2.
  - cbn [all_space strip_front]. rewrite E1, E2, E3. exact IH.
  - destruct s as [|c1 [|c2 [|c3 r3]]]; cbn in Hs |- *; try reflexivity.
    + rewrite orb_false_r in Hs. now rewrite Hs.
    + apply orb_false_iff in Hs as [-> Hs]. rewrite orb_false_r in Hs.
      now rewrite Hs.
    + apply orb_false_iff in Hs as [-> [-> ->]%orb_false_iff]. discriminate.
Qed.

Lemma strip_all_space (s : string) : all_space s = true -> strip s = "".
Proof. intros H. unfold strip. now rewrite (lstrip_all_space _ H). Qed.

Lemma plain_not_space2_l c x : plain c -> is_space2 c x = false.
Proof.
  intros [H _]. unfold is_space2.
  destruct (Nat.eqb_spec (nat_of_ascii c) 194); [lia|reflexivity].
Qed.

Lemma plain_not_space2_r c x : plain c -> is_space2 x c = false.
Proof.
  intros [H _]. unfold is_space2.
  destruct (Nat.eqb_spec (nat_of_ascii c) 133); [lia|].
  destruct (Nat.eqb_spec (nat_of_ascii c) 160); [lia|].
  apply andb_false_r.
Qed.

Lemma plain_not_space3_1 c x y : plain c -> is_space3 c x y = false.
Proof.
  intros [H _]. unfold is_space3.
  destruct (Nat.eqb_spec (nat_of_ascii c) 225); [lia|].
  destruct (Nat.eqb_spec (nat_of_ascii c) 226); [lia|].
  destruct (Nat.eqb_spec (nat_of_ascii c) 227); [lia|]. reflexivity.
Qed.

Lemma plain_not_space3_2 c x y : plain c -> is_space3 x c y = false.
Proof.
  intros [H _]. unfold is_space3.
  destruct (Nat.eqb_spec (nat_of_ascii c) 154); [lia|].
  destruct (Nat.eqb_spec (nat_of_ascii c) 128); [lia|].
  destruct (Nat.eqb_spec (nat_of_ascii c) 129); [lia|].
  now rewrite !andb_false_r.
Qed.

Lemma plain_not_space3_3 c x y : plain c -> is_space3 x y c = false.
Proof.
  intros [H _]. unfold is_space3.
  destruct (Nat.eqb_spec (nat_of_ascii c) 128); [lia|].
  destruct (Nat.eqb_spec (nat_of_ascii c) 159); [lia|].
  destruct (Nat.eqb_spec (nat_of_ascii c) 168); [lia|].
  destruct (Nat.eqb_spec (nat_of_ascii c) 169); [lia|].
  destruct (Nat.eqb_spec (nat_of_ascii c) 175); [lia|].
  destruct (Nat.leb_spec 128 (nat_of_ascii c)); [lia|].
  now rewrite !andb_false_r.
Qed.

(** A clean string stays clean in front when a string that begins with a
    plain character is appended. *)
Lemma starts_clean_app_plain (s : string) c (t : string) :
  starts_clean s -> plain c -> starts_clean (s +:+ String c t).
Proof.
  unfold starts_clean. intros Hs Hc.
  destruct s as [|c1 [|c2 [|c3 r3]]]; rewrite ?append_cons;
    try change ("" +:+ String c t) with (String c t);
    cbn [front_space] in Hs |- *.
  - rewrite (proj2 Hc).
    destruct t as [|x [|y t]]; cbn [orb];
      rewrite ?(plain_not_space2_l c _ Hc), ?(plain_not_space3_1 c _ _ Hc);
      reflexivity.
  - rewrite orb_false_r in Hs. rewrite Hs, (plain_not_space2_r c c1 Hc).
    destruct t as [|x t]; cbn [orb]; [reflexivity|].
    now rewrite (plain_not_space3_2 c c1 x Hc).
  - apply orb_false_iff in Hs as [-> Hs]. rewrite orb_false_r in Hs.
    rewrite Hs. cbn [orb]. apply (plain_not_space3_3 c c1 c2 Hc).
  - exact Hs.
Qed.

(** A string that ends with a plain character is clean at its end. *)
Lemma ends_clean_snoc_plain (s : string) c :
  plain c -> ends_clean (s +:+ String c "").
Proof.
  intros Hc. unfold ends_clean. rewrite rev_append.
  change (String.rev (String c "")) with (String c "").
  rewrite append_cons. change ("" +:+ String.rev s) with (String.rev s).
  cbn [front_space]. rewrite (proj2 Hc).
  destruct (String.rev s) as [|x [|y r]]; cbn [orb];
    unfold is_space2_back, is_space3_back;
    rewrite ?(plain_not_space2_r c _ Hc), ?(plain_not_space3_3 c _ _ Hc);
    reflexivity.
Qed.

(** White space beyond ASCII is stripped like a blank, and the Kelvin
    sign is lowered to [k]. *)
Example strip_beyond_ascii :
  strip (MoreSamples.nbsp +:+ " active" +:+ MoreSamples.em_space +:+ MoreSamples.nbsp)
  = "active" /\
  strip ("A-1" +:+ MoreSamples.nbsp) = "A-1" /\
  all_space (MoreSamples.nbsp +:+ MoreSamples.em_space) = true /\
  lower ("COO" +:+ MoreSamples.kelvin_sign +:+ "IE") = "cookie".
Proof. repeat split; vm_compute; reflexivity. Qed.
End StrFacts.

(** ** Further properties of the rate limiter *)

Module ThrottleMore.
Import Throttle ThrottleFacts.
Local Open Scope Q_scope.

(** [X1] A refill never takes tokens away and never moves the time of
    the last refill backwards, and a second refill at the same instant
    changes nothing. *)
Theorem X1_refill_monotone_and_idempotent :
  forall (b : TokenBucket) (t : datetime),
    well_formed b ->
    _tokens b <= _tokens (_refill_locked b t) /\
    (_last_refill b <= _last_refill (_refill_locked b t))%Z /\
    _refill_locked (_refill_locked b t) t = _refill_locked b t.
Proof.
  intros b t (Hr & H0 & Hc). split; [|split; [|apply refill_again]].
  - unfold _refill_locked.
    destruct (Qlt_bool 0 (seconds_between t (_last_refill b))) eqn:E; [|lra].
    apply Qlt_bool_true in E. cbn [_tokens].
    apply py_min_glb; [exact Hc | nra].
  - unfold _refill_locked.
    destruct (Qlt_bool 0 (seconds_between t (_last_refill b))) eqn:E; [|lia].
    apply Qlt_bool_true in E. apply (proj1 (seconds_pos _ _)) in E.
    cbn [_last_refill]. lia.
Qed.

Lemma X1_witness :
  _tokens (mkTokenBucket 10 5 4 0%Z)
  <= _tokens (_refill_locked (mkTokenBucket 10 5 4 0%Z) 1000000%Z) /\
  (_last_refill (mkTokenBucket 10 5 4 0%Z)
   <= _last_refill (_refill_locked (mkTokenBucket 10 5 4 0%Z) 1000000%Z))%Z /\
  _refill_locked (_refill_locked (mkTokenBucket 10 5 4 0%Z) 1000000%Z) 1000000%Z
  = _refill_locked (mkTokenBucket 10 5 4 0%Z) 1000000%Z.
Proof.
  apply X1_refill_monotone_and_idempotent.
  unfold well_formed, bucket_inv; simpl; lra.
Defined.

(** [X2] Whatever the clock and the sleeper, a call whose deadline is a
    [datetime] and whose cost is covered by the tokens present after the
    refill returns at once: it reports a wait of 0, takes exactly [cost]
    tokens, and does not sleep (the world has only seen the two readings
    of the clock). *)
Theorem X2_consume_grants_without_waiting :
  forall (W : Type) (now : W -> datetime * W) (sleeper : Q -> W -> W)
         fuel cost mw b w t0 w0 t w1 deadline,
    now w = (t0, w0) -> now w0 = (t, w1) ->
    deadline_of t0 mw = Some deadline ->
    0 < cost -> cost <= _tokens (_refill_locked b t) ->
    consume now sleeper (S fuel) cost mw b w
    = (Returned 0,
       mkTokenBucket (capacity b) (refill_rate_per_sec b)
                     (_tokens (_refill_locked b t) - cost)
                     (_last_refill (_refill_locked b t)),
       w1).
Proof.
  intros W now sleeper fuel cost mw b w t0 w0 t w1 deadline Hn0 Hn1 Hdl Hcost Hle.
  unfold consume.
  destruct (Qle_bool cost 0) eqn:Ec; [apply Qle_bool_iff in Ec; lra|].
  rewrite Hn0, Hdl. cbn [consume_loop]. rewrite Hn1.
  apply Qle_bool_iff in Hle. rewrite Hle.
  destruct (refill_params b t) as [-> ->]. reflexivity.
Qed.

Lemma X2_witness :
  consume fake_now fake_sleeper 1 4 1 (mkTokenBucket 10 5 10 0%Z) 2%Z
  = (Returned 0,
     mkTokenBucket 10 5 (_tokens (_refill_locked (mkTokenBucket 10 5 10 0%Z) 2%Z) - 4)
                   (_last_refill (_refill_locked (mkTokenBucket 10 5 10 0%Z) 2%Z)),
     2%Z).
Proof.
  apply (X2_consume_grants_without_waiting datetime fake_now fake_sleeper 0 4 1
           (mkTokenBucket 10 5 10 0%Z) 2%Z 2%Z 2%Z 2%Z 2%Z 1000002%Z);
    [reflexivity | reflexivity | vm_compute; reflexivity | lra
     | vm_compute; discriminate].
Defined.

(** The loop makes no progress when the sleep it asks for is shorter
    than half a microsecond. *)
Lemma consume_loop_stuck (fuel : nat) :
  forall cost mw deadline waited b t,
    0 < refill_rate_per_sec b ->
    _tokens (_refill_locked b t) < cost ->
    (cost - _tokens (_refill_locked b t)) / refill_rate_per_sec b < 1 # 2000000 ->
    (t < deadline)%Z ->
    fst (fst (consume_loop fake_now fake_sleeper fuel cost mw deadline waited b t))
    = Blocked.
Proof.
  induction fuel as [|fuel IH]; intros cost mw deadline waited b t Hr Htok Hw Hdl;
    [reflexivity|].
  rewrite consume_loop_fake_S. cbv zeta.
  destruct (refill_params b t) as [_ Hrate].
  destruct (Qle_bool cost (_tokens (_refill_locked b t))) eqn:E;
    [apply Qle_bool_iff in E; lra|].
  rewrite Hrate.
  set (w := (cost - _tokens (_refill_locked b t)) / refill_rate_per_sec b) in *.
  assert (Hpos : 0 < w) by (apply div_pos; lra).
  assert (Hrem : 0 < seconds_between deadline t)
    by (now apply (proj2 (seconds_pos _ _))).
  destruct (Qle_bool (seconds_between deadline t) 0) eqn:Erem;
    [apply Qle_bool_iff in Erem; lra|].
  destruct (Qle_bool w 0) eqn:Ew; [apply Qle_bool_iff in Ew; lra|].
  cbn [orb].
  set (d := py_min w (seconds_between deadline t)).
  assert (Hd0 : 0 < d) by (now apply py_min_pos).
  assert (Hd1 : d <= w) by apply py_min_le_l.
  assert (Hsame : fake_sleeper d t = t).
  { unfold fake_sleeper. rewrite round_zero; [lia|lra|].
    assert (d * 1000000 < (1 # 2000000) * 1000000) by lra.
    assert ((1 # 2000000) * 1000000 == 1 # 2) by reflexivity. lra. }
  rewrite Hsame.
  apply IH; [now rewrite Hrate|now rewrite refill_again| |exact Hdl].
  now rewrite refill_again, Hrate.
Qed.

(** [X3] Under the deterministic clock, [consume] can spin for ever: when
    the refill that is still missing takes less than half a microsecond
    and the deadline lies ahead, the sleep that is asked for is rounded
    to no time at all, the clock stands still, and the call neither
    returns nor raises, however many iterations it is given. *)
Theorem X3_sleep_below_half_a_microsecond_never_ends :
  forall cost mw b (t deadline : datetime),
    0 < refill_rate_per_sec b -> 0 < cost ->
    _tokens (_refill_locked b t) < cost ->
    (cost - _tokens (_refill_locked b t)) / refill_rate_per_sec b < 1 # 2000000 ->
    deadline_of t mw = Some deadline -> (t < deadline)%Z ->
    forall fuel, fst (fst (consume fake_now fake_sleeper fuel cost mw b t)) = Blocked.
Proof.
  intros cost mw b t deadline Hr Hcost Htok Hw Hdl Hlt fuel.
  rewrite consume_fake, Hdl.
  destruct (Qle_bool cost 0) eqn:Ec; [apply Qle_bool_iff in Ec; lra|].
  now apply consume_loop_stuck.
Qed.

Lemma X3_witness :
  fst (fst (consume fake_now fake_sleeper 1000 1 5
                    (mkTokenBucket 10 3 (999999 # 1000000) 333333%Z) 333333%Z))
  = Blocked.
Proof.
  apply (X3_sleep_below_half_a_microsecond_never_ends
           1 5 (mkTokenBucket 10 3 (999999 # 1000000) 333333%Z) 333333%Z 5333333%Z);
    [simpl; lra | lra | vm_compute; reflexivity | vm_compute; reflexivity
     | vm_compute; reflexivity | lia].
Defined.

Lemma consume_loop_within_deadline (fuel : nat) :
  forall cost mw deadline waited b t o b' t',
    consume_loop fake_now fake_sleeper fuel cost mw deadline waited b t = (o, b', t') ->
    0 <= waited ->
    (t <= t' <= Z.max t deadline)%Z /\
    forall x, o = Returned x -> 0 <= x.
Proof.
  induction fuel as [|fuel IH]; intros cost mw deadline waited b t o b' t'.
  - intros [= <- _ <-] Hw. split; [lia|discriminate].
  - rewrite consume_loop_fake_S. cbv zeta.
    destruct (Qle_bool cost _).
    { intros [= <- _ <-] Hw. split; [lia|]. now intros x [= <-]. }
    set (w := (cost - _tokens (_refill_locked b t))
              / refill_rate_per_sec (_refill_locked b t)) in *.
    destruct (Qle_bool (seconds_between deadline t) 0) eqn:Erem.
    { intros [= <- _ <-] Hw. split; [lia|discriminate]. }
    destruct (Qle_bool w 0) eqn:Ew.
    { intros [= <- _ <-] Hw. split; [lia|discriminate]. }
    cbn [orb]. apply Qle_bool_false in Erem, Ew.
    set (d := py_min w (seconds_between deadline t)).
    assert (Hd0 : 0 < d) by (now apply py_min_pos).
    assert (Hd1 : d <= seconds_between deadline t) by apply py_min_le_r.
    pose proof (sleep_within d t deadline Hd0 Hd1) as Hs.
    intros H Hw.
    destruct (IH _ _ _ _ _ _ _ _ _ H ltac:(lra)) as [Ht Hx].
    split; [lia|exact Hx].
Qed.

(** [X4] Under the deterministic clock, [consume] never sleeps past its
    deadline: whether it returns, raises or is still waiting, the clock
    has not gone back and reads at most the deadline (or the time of
    the call, when the deadline was not ahead); and a wait that it
    reports is not negative. *)
Theorem X4_never_sleeps_past_the_deadline :
  forall fuel cost mw b (t deadline : datetime) o b' t',
    deadline_of t mw = Some deadline ->
    consume fake_now fake_sleeper fuel cost mw b t = (o, b', t') ->
    (t <= t' <= Z.max t deadline)%Z /\
    forall x, o = Returned x -> 0 <= x.
Proof.
  intros fuel cost mw b t deadline o b' t' Hdl. rewrite consume_fake, Hdl.
  destruct (Qle_bool cost 0).
  - intros [= <- _ <-]. split; [lia|]. intros x [= <-]. lra.
  - intros H. apply (consume_loop_within_deadline _ _ _ _ _ _ _ _ _ _ H). lra.
Qed.

Lemma X4_witness :
  (0 <= 400000 <= Z.max 0 1000000)%Z /\
  forall x, Returned (2 # 5) = Returned x -> 0 <= x.
Proof.
  apply (X4_never_sleeps_past_the_deadline 2 4 1 (mkTokenBucket 10 5 2 0%Z) 0%Z
           1000000%Z (Returned (2 # 5)) (mkTokenBucket 10 5 (0 # 1000000) 400000%Z)
           400000%Z).
  - vm_compute. reflexivity.
  - vm_compute. reflexivity.
Defined.

(** [X5] The loop relies on the sleeper letting the clock advance: with a
    clock that always reads the same instant, a call that has to wait
    and whose deadline lies ahead never ends, whatever the sleeper
    does. *)
Theorem X5_frozen_clock_never_ends :
  forall (W : Type) (now : W -> datetime * W) (sleeper : Q -> W -> W)
         (T deadline : datetime),
    (forall w, fst (now w) = T) ->
    forall cost mw b,
      0 < refill_rate_per_sec b ->
      _tokens (_refill_locked b T) < cost -> 0 < cost ->
      deadline_of T mw = Some deadline -> (T < deadline)%Z ->
      forall fuel w, fst (fst (consume now sleeper fuel cost mw b w)) = Blocked.
Proof.
  intros W now sleeper T deadline Hclock cost mw b Hr Htok Hcost Hdl Hlt fuel w.
  unfold consume.
  destruct (Qle_bool cost 0) eqn:Ec; [apply Qle_bool_iff in Ec; lra|].
  pose proof (Hclock w) as H0. destruct (now w) as [t0 w0]. cbn in H0. subst t0.
  rewrite Hdl.
  assert (Hloop : forall fuel waited b w,
             0 < refill_rate_per_sec b -> _tokens (_refill_locked b T) < cost ->
             fst (fst (consume_loop now sleeper fuel cost mw deadline waited b w))
             = Blocked).
  { clear fuel w0 b Hr Htok w.
    induction fuel as [|fuel IH]; intros waited b w Hr Htok; [reflexivity|].
    cbn [consume_loop].
    pose proof (Hclock w) as H1. destruct (now w) as [t w1]. cbn in H1. subst t.
    destruct (Qle_bool cost (_tokens (_refill_locked b T))) eqn:E;
      [apply Qle_bool_iff in E; lra|].
    pose proof (Hclock w1) as H2. destruct (now w1) as [t2 w2]. cbn in H2. subst t2.
    destruct (refill_params b T) as [_ Hrate].
    destruct (Qle_bool (seconds_between deadline T) 0) eqn:Erem;
      [apply Qle_bool_iff in Erem; apply (proj1 (seconds_nonpos _ _)) in Erem; lia|].
    destruct (Qle_bool ((cost - _tokens (_refill_locked b T))
                        / refill_rate_per_sec (_refill_locked b T)) 0) eqn:Ew.
    { apply Qle_bool_iff in Ew.
      assert (0 < (cost - _tokens (_refill_locked b T))
                  / refill_rate_per_sec (_refill_locked b T))
        by (apply div_pos; [now rewrite Hrate | lra]).
      lra. }
    cbn [orb]. apply IH; [now rewrite Hrate | now rewrite refill_again]. }
  now apply Hloop.
Qed.

Lemma X5_witness :
  fst (fst (consume (fun w : unit => (0%Z, w)) (fun _ w => w) 50 4 1
                    (mkTokenBucket 10 5 2 0%Z) tt)) = Blocked.
Proof.
  apply (X5_frozen_clock_never_ends unit (fun w => (0%Z, w)) (fun _ w => w)
           0%Z 1000000%Z);
    [reflexivity | simpl; lra | vm_compute; reflexivity | lra
     | vm_compute; reflexivity | lia].
Defined.

(** The deadline is rounded to microseconds and has to be a [datetime]:
    with 6 tokens, a cost of 8 and 5 tokens per second, a [max_wait] of
    0.3999996 s gives a deadline 0.4 s ahead, and the call returns after
    a wait of 0.4 s; a [max_wait] of [10^12] s has no deadline. *)
Example deadline_in_microseconds :
  fst (fst (consume fake_now fake_sleeper 3 8 (3999996 # 10000000)
                    (mkTokenBucket 10 5 6 0%Z) 0%Z))
  = Returned (2 # 5) /\
  fst (fst (consume fake_now fake_sleeper 3 4 1000000000000
                    (mkTokenBucket 10 5 10 63000000000000000%Z) 63000000000000000%Z))
  = Raised OverflowError.
Proof. split; vm_compute; reflexivity. Qed.
End ThrottleMore.

(** ** Further properties of [parse_retry_after] *)

Module RetryMore.
Import Retry StrShape StrFacts Vocabulary.

(** [X6] A missing header and a header of white space only are refused
    with their own [ValueError], whatever the two parsers would do. *)
Theorem X6_missing_or_blank_header :
  forall (fromisoformat parsedate_to_datetime : string -> option datetime),
    parse_retry_after fromisoformat parsedate_to_datetime None
    = inl (ValueError "Retry-After header is missing") /\
    (forall h, all_space h = true ->
               parse_retry_after fromisoformat parsedate_to_datetime (Some h)
               = inl (ValueError "Retry-After header is empty")).
Proof.
  intros iso http. split; [reflexivity|].
  intros h Hh. unfold parse_retry_after. now rewrite (strip_all_space h Hh).
Qed.

Lemma X6_witness :
  parse_retry_after py_fromisoformat py_parsedate_to_datetime (Some "   ")
  = inl (ValueError "Retry-After header is empty").
Proof.
  apply (proj2 (X6_missing_or_blank_header py_fromisoformat py_parsedate_to_datetime)).
  reflexivity.
Defined.

(** [X7] Whatever the two parsers do, [parse_retry_after] raises nothing
    but [ValueError]; when it returns, the tag is [rfc3339] or
    [http-date] and the instant lies within the years 1 to 9999. *)
Theorem X7_only_value_errors_and_two_tags :
  forall (fromisoformat parsedate_to_datetime : string -> option datetime)
         (header_value : option string),
    match parse_retry_after fromisoformat parsedate_to_datetime header_value with
    | inl e => is_value_error e
    | inr (t, tag) =>
        (tag = "rfc3339" \/ tag = "http-date") /\
        (utc_micros 1 1 1 0 0 0 0 <= t <= utc_micros 9999 12 31 23 59 59 999999)%Z
    end.
Proof.
  intros iso http [h|]; [|now eexists]. unfold parse_retry_after.
  destruct (negb _); [now eexists|].
  assert (Hrange : forall d t, to_utc d = Some t ->
             (utc_micros 1 1 1 0 0 0 0 <= t <= utc_micros 9999 12 31 23 59 59 999999)%Z).
  { intros d t. unfold to_utc, astimezone_utc.
    destruct (tzinfo (assume_utc d)); [|discriminate].
    destruct (_ && _) eqn:E; [|discriminate].
    intros [= <-]. apply andb_true_iff in E as [E1 E2].
    apply Z.leb_le in E1, E2. lia. }
  destruct (iso _) as [d|]; cbn [mbind option_bind].
  - destruct (to_utc d) as [t|] eqn:Ht; [split; [now left | now apply (Hrange d)]|].
    destruct (http _) as [d'|]; cbn [mbind option_bind]; [|now eexists].
    destruct (to_utc d') as [t|] eqn:Ht'; [|now eexists].
    split; [now right | now apply (Hrange d')].
  - destruct (http _) as [d'|]; cbn [mbind option_bind]; [|now eexists].
    destruct (to_utc d') as [t|] eqn:Ht'; [|now eexists].
    split; [now right | now apply (Hrange d')].
Qed.

Lemma ends_with_Z_snoc (s : string) : PyStr.ends_with_Z (s +:+ "Z") = true.
Proof.
  induction s as [|c s IH]; [reflexivity|].
  rewrite append_cons. cbn [PyStr.ends_with_Z].
  destruct (s +:+ "Z") eqn:E; [|exact IH].
  destruct s; discriminate.
Qed.

Lemma drop_last_snoc (s : string) c : PyStr.drop_last (s +:+ String c "") = s.
Proof.
  induction s as [|a s IH]; [reflexivity|].
  rewrite append_cons. cbn [PyStr.drop_last].
  destruct (s +:+ String c "") eqn:E; [destruct s; discriminate|].
  now rewrite IH.
Qed.

Lemma ends_with_Z_offset (s : string) : PyStr.ends_with_Z (s +:+ "+00:00") = false.
Proof.
  induction s as [|c s IH]; [reflexivity|].
  rewrite append_cons. cbn [PyStr.ends_with_Z].
  destruct (s +:+ "+00:00") eqn:E; [destruct s; discriminate | exact IH].
Qed.

Lemma strip_with_suffix (s u : string) c t d t' :
  u = String c t -> u = t' +:+ String d "" -> plain c -> plain d ->
  starts_clean s -> PyStr.strip (s +:+ u) = s +:+ u.
Proof.
  intros Hfront Hback Hc Hd Hs. apply strip_clean.
  - rewrite Hfront. now apply starts_clean_app_plain.
  - rewrite Hback, <- append_assoc. now apply ends_clean_snoc_plain.
Qed.

Lemma plain_Z : plain "Z".
Proof. split; [vm_compute; lia | reflexivity]. Qed.

Lemma plain_plus : plain "+".
Proof. split; [vm_compute; lia | reflexivity]. Qed.

Lemma plain_zero : plain "0".
Proof. split; [vm_compute; lia | reflexivity]. Qed.

(** [X8] White space around the header value is ignored, and a final [Z]
    is read as the offset [+00:00]: the two spellings of one RFC 3339
    instant give the same result. *)
Theorem X8_padding_ignored_and_Z_is_utc :
  forall (fromisoformat parsedate_to_datetime : string -> option datetime),
    (forall h,
        parse_retry_after fromisoformat parsedate_to_datetime (Some h)
        = parse_retry_after fromisoformat parsedate_to_datetime
                            (Some (PyStr.strip h))) /\
    (forall s t,
        starts_clean s ->
        fromisoformat (s +:+ "+00:00") ≫= to_utc = Some t ->
        parse_retry_after fromisoformat parsedate_to_datetime (Some (s +:+ "Z"))
        = inr (t, "rfc3339") /\
        parse_retry_after fromisoformat parsedate_to_datetime (Some (s +:+ "+00:00"))
        = inr (t, "rfc3339")).
Proof.
  intros iso http. split.
  - intros h. unfold parse_retry_after. now rewrite strip_idempotent.
  - intros s t Hs Hiso. unfold parse_retry_after.
    rewrite (strip_with_suffix s "Z" "Z" "" "Z" "" eq_refl eq_refl plain_Z plain_Z Hs).
    rewrite (strip_with_suffix s "+00:00" "+" "00:00" "0" "+00:0" eq_refl eq_refl
                               plain_plus plain_zero Hs).
    assert (Hz : PyStr.truthy (s +:+ "Z") = true) by (now destruct s).
    assert (Ho : PyStr.truthy (s +:+ "+00:00") = true) by (now destruct s).
    rewrite Hz, Ho. cbn [negb]. unfold cleaned.
    rewrite ends_with_Z_snoc, drop_last_snoc, ends_with_Z_offset, Hiso.
    now split.
Qed.

Lemma X8_witness :
  parse_retry_after py_fromisoformat py_parsedate_to_datetime
                    (Some "2025-10-21T07:28:00Z")
  = inr (1761031680000000%Z, "rfc3339") /\
  parse_retry_after py_fromisoformat py_parsedate_to_datetime
                    (Some "2025-10-21T07:28:00+00:00")
  = inr (1761031680000000%Z, "rfc3339").
Proof.
  apply (proj2 (X8_padding_ignored_and_Z_is_utc py_fromisoformat
                  py_parsedate_to_datetime) "2025-10-21T07:28:00").
  - reflexivity.
  - vm_compute. reflexivity.
Defined.
End RetryMore.

(** ** Further properties of the Jira Agile models and iterators *)

Module AgileMore.
Import Expect AgileApi PageShape ItemShape RestPaging Vocabulary.
Import AgileFacts ParserFacts RestFacts.

Lemma optional_str (v : json) (path : string) :
  optional _expect_str v path =
  if mistyped_str v then inl (SerializationError ("Expected string at " +:+ path))
  else inr (opt_str v).
Proof. now destruct v. Qed.

Lemma sprint_from_dict_table (raw : gmap string json) (path : string) :
  Sprint_from_dict (JDict raw) path =
  match sprint_field_complaints raw path with
  | e :: _ => inl e
  | [] => inr (sprint_of raw)
  end.
Proof.
  unfold Sprint_from_dict, sprint_field_complaints, int_field, str_field, complaint,
    sprint_of.
  cbn [_expect_dict mbind result_bind].
  rewrite !optional_int, !optional_str.
  destruct (mistyped_int (dict_get raw "id")); [reflexivity|].
  destruct (mistyped_str (dict_get raw "name")); [reflexivity|].
  destruct (mistyped_str (dict_get raw "state")); [reflexivity|].
  destruct (mistyped_str (dict_get raw "startDate")); [reflexivity|].
  destruct (mistyped_str (dict_get raw "endDate")); [reflexivity|].
  destruct (mistyped_str (dict_get raw "completeDate")); [reflexivity|].
  destruct (mistyped_int (dict_get raw "originBoardId")); [reflexivity|].
  destruct (mistyped_str (dict_get raw "goal")); reflexivity.
Qed.

Lemma board_from_dict_table (raw : gmap string json) (path : string) :
  Board_from_dict (JDict raw) path =
  match board_field_complaints raw path with
  | e :: _ => inl e
  | [] => inr (board_of raw)
  end.
Proof.
  unfold Board_from_dict, board_field_complaints, int_field, str_field, complaint,
    board_of.
  cbn [_expect_dict mbind result_bind].
  rewrite !optional_int, !optional_str.
  destruct (mistyped_int (dict_get raw "id")); [reflexivity|].
  destruct (mistyped_str (dict_get raw "name")); [reflexivity|].
  destruct (mistyped_str (dict_get raw "type")); reflexivity.
Qed.

(** [X9] [Sprint.from_dict] and [Board.from_dict] succeed exactly on an
    object none of whose fields is present with the wrong type; an
    absent or null field becomes [None], and nothing else of the object
    is looked at.  Anything that is not an object is refused under the
    path itself. *)
Theorem X9_item_from_dict_succeeds_iff_well_typed :
  (forall raw path,
      (sprint_field_complaints raw path = [] <->
       exists s, Sprint_from_dict (JDict raw) path = inr s) /\
      (sprint_field_complaints raw path = [] ->
       Sprint_from_dict (JDict raw) path = inr (sprint_of raw)) /\
      (board_field_complaints raw path = [] <->
       exists b, Board_from_dict (JDict raw) path = inr b) /\
      (board_field_complaints raw path = [] ->
       Board_from_dict (JDict raw) path = inr (board_of raw))) /\
  (forall obj path,
      (forall raw, obj <> JDict raw) ->
      Sprint_from_dict obj path
      = inl (SerializationError ("Expected object at " +:+ path)) /\
      Board_from_dict obj path
      = inl (SerializationError ("Expected object at " +:+ path))).
Proof.
  split.
  - intros raw path.
    rewrite sprint_from_dict_table, board_from_dict_table.
    destruct (sprint_field_complaints raw path) as [|e l];
      destruct (board_field_complaints raw path) as [|e' l'];
      repeat split; try (intros; eauto; fail); try discriminate;
      try (intros [? ?]; discriminate).
  - intros obj path Hobj.
    destruct obj; try (split; reflexivity). now destruct (Hobj d).
Qed.

Lemma X9_witness :
  Sprint_from_dict (JDict ∅) "data" = inr (sprint_of ∅) /\
  Sprint_from_dict (JStr "oops") "data.values[1]"
  = inl (SerializationError "Expected object at data.values[1]").
Proof.
  destruct X9_item_from_dict_succeeds_iff_well_typed as [Hdict Hother].
  split.
  - apply (Hdict ∅ "data"). reflexivity.
  - apply (Hother (JStr "oops") "data.values[1]"). discriminate.
Defined.

Lemma from_dict_items_inr {A} (f : json -> string -> result A)
      (prefix : string) (items : list json) :
  forall idx vs,
    from_dict_items f prefix idx items = inr vs ->
    length vs = length items /\
    forall i item, items !! i = Some item ->
                   exists v, vs !! i = Some v /\
                             f item (item_path prefix (idx + i)) = inr v.
Proof.
  induction items as [|x rest IH]; intros idx vs; cbn [from_dict_items].
  - intros [= <-]. split; [reflexivity|]. intros i item Hi. discriminate.
  - destruct (f x _) as [e|v] eqn:Hx; cbn [mbind result_bind]; [discriminate|].
    destruct (from_dict_items f prefix (S idx) rest) as [e|vs'] eqn:Hrest;
      cbn [mbind result_bind mret result_ret]; [discriminate|].
    intros [= <-]. destruct (IH _ _ Hrest) as [Hlen Hall].
    split; [cbn; now rewrite Hlen|].
    intros [|i] item Hi.
    + injection Hi as <-. exists v. rewrite Nat.add_0_r. now split.
    + destruct (Hall i item Hi) as (v' & Hv' & Hf). exists v'.
      split; [exact Hv'|]. now replace (idx + S i)%nat with (S idx + i)%nat by lia.
Qed.

(** [X10] A page that parses keeps every element of [values], in the
    order of the payload: the page has as many values as the payload has
    elements, and the value at each position is what the element parser
    makes of the element at that position, under the path of that
    position. *)
Theorem X10_page_keeps_every_element_in_order :
  forall (A : Type) (item_from_dict : json -> string -> result A)
         (raw : gmap string json) (path : string) (page : Page A),
    Page_from_dict item_from_dict (JDict raw) path = inr page ->
    length (values page) = length (items_of (dict_get raw "values")) /\
    forall i item,
      items_of (dict_get raw "values") !! i = Some item ->
      exists v, values page !! i = Some v /\
                item_from_dict item (item_path (path +:+ ".values") i) = inr v.
Proof.
  intros A f raw path page. rewrite page_from_dict_table.
  destruct (page_field_complaints raw path); [|discriminate].
  destruct (from_dict_items f _ 0 _) as [e|vs] eqn:Hitems;
    cbn [mbind result_bind mret result_ret]; [discriminate|].
  intros [= <-]. cbn [values]. apply (from_dict_items_inr _ _ _ _ _ Hitems).
Qed.

Lemma X10_witness :
  length (values (Samples.parsed_sprint_page 0 50 false))
  = length (items_of (dict_get (list_to_map
               [("startAt", JInt 0); ("maxResults", JInt 50); ("isLast", JBool false);
                ("values", JList (Samples.sprint_json <$> seq 0 50))]) "values")).
Proof.
  apply (X10_page_keeps_every_element_in_order _ Sprint_from_dict _ "data").
  vm_compute. reflexivity.
Defined.
End AgileMore.

(** ** Further properties of the offset-based iterators *)

Module RestMore.
Import Expect AgileApi PageShape ItemShape RestPaging Vocabulary.
Import AgileFacts ParserFacts RestFacts.

(** [X11] Invalid arguments never reach the client: a board id that is
    not positive, a page size that is not positive, or a state filter
    other than [future], [active] or [closed] (in any letter case, with
    any padding) ends the sprints iterator with a [ValueError], nothing
    yielded and no request made; a page size that is not positive does
    the same to the boards iterator. *)
Theorem X11_invalid_arguments_make_no_request :
  (forall get_json fuel board_id state page_size,
      (board_id <= 0)%Z \/ (page_size <= 0)%Z \/ bad_state state ->
      exists msg,
        iter_board_sprints_via_rest get_json fuel board_id state page_size
        = mkRun [] 0 (Failed (ValueError msg))) /\
  (forall get_json fuel page_size,
      (page_size <= 0)%Z ->
      iter_boards_via_rest get_json fuel page_size
      = mkRun [] 0 (Failed (ValueError "page_size must be > 0"))).
Proof.
  split.
  - intros get_json fuel board_id state page_size H.
    unfold iter_board_sprints_via_rest.
    destruct (board_id <=? 0)%Z eqn:Eb; [eauto|].
    destruct (page_size <=? 0)%Z eqn:Ep; [eauto|].
    apply Z.leb_gt in Eb, Ep.
    destruct H as [H|[H|(s & -> & Hs)]]; [lia|lia|].
    cbn [fmap option_fmap option_map].
    rewrite bool_decide_eq_false_2 by exact Hs. cbn [negb]. eauto.
  - intros get_json fuel page_size H. unfold iter_boards_via_rest.
    now rewrite (proj2 (Z.leb_le page_size 0) H).
Qed.

Lemma X11_witness :
  (exists msg,
      iter_board_sprints_via_rest Samples.three_sprint_pages 5 10 (Some "done") 50
      = mkRun [] 0 (Failed (ValueError msg))) /\
  iter_boards_via_rest Samples.three_sprint_pages 5 0
  = mkRun [] 0 (Failed (ValueError "page_size must be > 0")).
Proof.
  destruct X11_invalid_arguments_make_no_request as [Hsprints Hboards].
  split.
  - apply Hsprints. right. right. exists "done". split; [reflexivity|].
    vm_compute. intros H.
    repeat (apply elem_of_cons in H as [H|H]; [discriminate|]).
    now apply elem_of_nil in H.
  - apply Hboards. lia.
Defined.

(** [X12] The offsets of a run grow strictly, so the test for a repeated
    [startAt] never fires: neither the sprints nor the boards iterator
    ends with that serialization error, unless the client itself raises
    it. *)
Theorem X12_offsets_never_repeat :
  forall get_json,
    (forall n path params, get_json n path params <> inl repeated_start_at) ->
    (forall fuel board_id state page_size,
        final (iter_board_sprints_via_rest get_json fuel board_id state page_size)
        <> Failed repeated_start_at) /\
    (forall fuel page_size,
        final (iter_boards_via_rest get_json fuel page_size)
        <> Failed repeated_start_at).
Proof.
  intros get_json Hclient. split.
  - intros fuel board_id state page_size. unfold iter_board_sprints_via_rest.
    destruct (board_id <=? 0)%Z; [discriminate|].
    destruct (page_size <=? 0)%Z eqn:Ep; [discriminate|].
    destruct (negb _); [discriminate|].
    apply sprints_loop_never_repeats;
      [now apply Z.leb_gt | exact Hclient |].
    intros x Hx. now apply not_elem_of_empty in Hx.
  - intros fuel page_size. unfold iter_boards_via_rest.
    destruct (page_size <=? 0)%Z; [discriminate|].
    apply boards_loop_never_repeats; [exact Hclient|].
    intros x Hx. now apply not_elem_of_empty in Hx.
Qed.

Lemma X12_witness :
  final (iter_board_sprints_via_rest Samples.three_sprint_pages 9 10 None 50)
  <> Failed repeated_start_at.
Proof.
  apply (X12_offsets_never_repeat Samples.three_sprint_pages).
  intros n path params. unfold Samples.three_sprint_pages.
  repeat (destruct (_ =? _)%Z; [discriminate|]). discriminate.
Defined.

Lemma drain_length {A B} (f : A -> result B) (items : list A) :
  forall acc acc' o,
    drain f items acc = (acc', o) ->
    (length acc <= length acc')%nat /\
    (o = None -> length acc' = (length acc + length items)%nat).
Proof.
  induction items as [|x rest IH]; intros acc acc' o; cbn [drain].
  - intros [= <- <-]. split; [lia|]. intros _. cbn. lia.
  - destruct (f x) as [e|y].
    + intros [= <- <-]. split; [lia|discriminate].
    + intros H. destruct (IH _ _ _ H) as [Hle Heq].
      rewrite length_app in Hle, Heq. cbn in Hle, Heq. split; [lia|].
      intros Ho. specialize (Heq Ho). cbn. lia.
Qed.

Lemma sprints_loop_yield_bound get_json board_path state_clean page_size fuel :
  forall n start_at seen acc,
    let r := sprints_loop get_json board_path state_clean page_size
                          fuel n start_at seen acc in
    (fetches r = n /\ yielded r = acc) \/
    ((S n <= fetches r)%nat /\
     (Z.of_nat (length acc) + page_size * Z.of_nat (fetches r - S n)
      <= Z.of_nat (length (yielded r)))%Z).
Proof.
  induction fuel as [|fuel IH]; intros n start_at seen acc; cbn [sprints_loop].
  - now left.
  - destruct (decide (start_at ∈ seen)); [now left|]. right.
    assert (Hstop : forall (acc' : list JiraSprint) s, (length acc <= length acc')%nat ->
               (S n <= fetches (mkRun acc' (S n) s))%nat /\
               (Z.of_nat (length acc)
                + page_size * Z.of_nat (fetches (mkRun acc' (S n) s) - S n)
                <= Z.of_nat (length (yielded (mkRun acc' (S n) s))))%Z).
    { intros acc' s Hle. cbn [fetches yielded]. split; [lia|].
      rewrite Nat.sub_diag. lia. }
    destruct (get_json n board_path _) as [e|payload]; [now apply Hstop|].
    destruct (SprintPage_from_dict payload "data") as [e|page]; [now apply Hstop|].
    destruct (drain map_sprint (values page) acc) as [acc' o] eqn:Hdrain.
    destruct (drain_length _ _ _ _ _ Hdrain) as [Hle Heq].
    destruct o as [e|]; [now apply Hstop|]. specialize (Heq eq_refl).
    destruct (_ && _); [now apply Hstop|].
    destruct (Z.of_nat (length (values page)) <? page_size)%Z eqn:Hlt;
      [now apply Hstop|].
    apply Z.ltb_ge in Hlt.
    destruct (length (values page) =? 0)%nat;
      [destruct (_ && _); now apply Hstop|].
    specialize (IH (S n) (start_at + Z.of_nat (length (values page)))%Z
                   ({[start_at]} ∪ seen) acc').
    cbv zeta in IH. destruct IH as [[Hf Hy]|[Hf Hy]].
    + rewrite Hf, Hy. split; [lia|]. rewrite Nat.sub_diag. lia.
    + split; [lia|].
      replace (fetches _ - S n)%nat with (S (fetches
        (sprints_loop get_json board_path state_clean page_size fuel
           (S n) (start_at + Z.of_nat (length (values page)))%Z
           ({[start_at]} ∪ seen) acc') - S (S n)))%nat by lia.
      rewrite Nat2Z.inj_succ. nia.
Qed.

(** [X13] Every page but the last of a sprints run is full: a run that
    made [k >= 1] requests has yielded at least [(k - 1) * page_size]
    sprints. *)
Theorem X13_all_pages_but_the_last_are_full :
  forall get_json fuel board_id state page_size,
    (1 <= fetches (iter_board_sprints_via_rest get_json fuel board_id state
                                                page_size))%nat ->
    (page_size
     * (Z.of_nat (fetches (iter_board_sprints_via_rest get_json fuel board_id state
                                                       page_size)) - 1)
     <= Z.of_nat (length (yielded (iter_board_sprints_via_rest get_json fuel board_id
                                                             state page_size))))%Z.
Proof.
  intros get_json fuel board_id state page_size.
  unfold iter_board_sprints_via_rest.
  destruct (board_id <=? 0)%Z; [cbn; lia|].
  destruct (page_size <=? 0)%Z; [cbn; lia|].
  destruct (negb _); [cbn; lia|].
  match goal with
  | |- context [sprints_loop ?g ?p ?s ?ps ?f 0%nat 0%Z ∅ []] =>
      pose proof (sprints_loop_yield_bound g p s ps f 0%nat 0%Z ∅ []) as H;
      cbv zeta in H;
      set (r := sprints_loop g p s ps f 0%nat 0%Z ∅ []) in *
  end.
  intros Hk. destruct H as [[Hf _]|[_ Hy]]; [lia|].
  cbn [length] in Hy.
  replace (Z.of_nat (fetches r) - 1)%Z with (Z.of_nat (fetches r - 1)) by lia.
  lia.
Qed.

Lemma X13_witness :
  (50 * (Z.of_nat (fetches (iter_board_sprints_via_rest Samples.three_sprint_pages
                                                        9 10 None 50)) - 1)
   <= Z.of_nat (length (yielded (iter_board_sprints_via_rest
                                   Samples.three_sprint_pages 9 10 None 50))))%Z.
Proof.
  apply X13_all_pages_but_the_last_are_full. vm_compute. lia.
Defined.
End RestMore.

(** ** The versions iterator *)

Module VersionsFacts.
Import RestVersions RestPaging.

(** [X14] In [iter_versions_via_rest], an empty page that is declared not
    to be the last is refused with the serialization error exactly when
    a total says that versions remain; without a total, or with a total
    that has been reached, the same page ends the run normally. *)
Theorem X14_versions_refuse_an_empty_page_only_below_the_total :
  forall get_json from_dict project_clean page_size fuel n start_at seen acc
         payload page,
    start_at ∉ seen ->
    get_json n ("/rest/api/3/project/" +:+ project_clean +:+ "/version")
             [("startAt", JInt start_at); ("maxResults", JInt page_size)]
    = inr payload ->
    from_dict payload "data" = inr page ->
    values page = [] -> is_last page = Some false ->
    (forall t, total page = Some t -> (0 <= t)%Z -> (start_at < t)%Z ->
               versions_loop get_json from_dict project_clean page_size
                             (S fuel) n start_at seen acc
               = mkRun acc (S n) (Failed empty_page_not_last)) /\
    (forall t, total page = Some t -> (0 <= t)%Z -> (t <= start_at)%Z ->
               versions_loop get_json from_dict project_clean page_size
                             (S fuel) n start_at seen acc
               = mkRun acc (S n) Done) /\
    (total page = None -> (0 < page_size)%Z ->
     versions_loop get_json from_dict project_clean page_size
                   (S fuel) n start_at seen acc
     = mkRun acc (S n) Done).
Proof.
  intros get_json from_dict project_clean page_size fuel n start_at seen acc
         payload page Hseen Hget Hpage Hvals Hlast.
  assert (Hstep : forall fuel,
             versions_loop get_json from_dict project_clean page_size
                           (S fuel) n start_at seen acc
             = if (if match total page with Some t => (0 <=? t)%Z | None => false end
                   then (default 0%Z (total page) <=? start_at + 0)%Z
                   else (0 <? page_size)%Z)
               then mkRun acc (S n) Done
               else mkRun acc (S n) (Failed empty_page_not_last)).
  { intros fuel'. cbn [versions_loop]. rewrite decide_False by exact Hseen.
    rewrite Hget, Hpage, Hvals, Hlast. reflexivity. }
  rewrite Hstep. split; [|split].
  - intros t Ht H0 Hlt. rewrite Ht. simpl.
    destruct (Z.leb_spec 0 t); [|lia].
    destruct (Z.leb_spec t (start_at + 0)); [lia|reflexivity].
  - intros t Ht H0 Hle. rewrite Ht. simpl.
    destruct (Z.leb_spec 0 t); [|lia].
    destruct (Z.leb_spec t (start_at + 0)); [reflexivity|lia].
  - intros Ht Hsize. rewrite Ht.
    destruct (Z.ltb_spec 0 page_size); [reflexivity|lia].
Qed.

Lemma X14_witness :
  versions_loop (Samples.always JNull) (MoreSamples.fixed_page MoreSamples.empty_page_of_three)
                "PRJ" 50 1 0 0%Z ∅ []
  = mkRun [] 1 (Failed empty_page_not_last).
Proof.
  apply (proj1 (X14_versions_refuse_an_empty_page_only_below_the_total
                  (Samples.always JNull)
                  (MoreSamples.fixed_page MoreSamples.empty_page_of_three)
                  "PRJ" 50%Z 0%nat 0%nat 0%Z ∅ [] JNull
                  MoreSamples.empty_page_of_three
                  ltac:(apply not_elem_of_empty) eq_refl eq_refl eq_refl eq_refl)
               3%Z); [reflexivity | lia | lia].
Defined.
End VersionsFacts.

(** ** Further properties of the GraphQL accessors and mappers *)

Module GraphqlMore.
Import WorklogsApi WorklogPaging StrShape StrFacts Vocabulary.

Lemma truthy_strip_trimmed (s : string) :
  PyStr.truthy (PyStr.strip s) = true -> trimmed (PyStr.strip s).
Proof.
  intros H. split; [|split].
  - intros E. now rewrite E in H.
  - apply strip_starts_clean.
  - apply strip_ends_clean.
Qed.

Lemma first_truthy_truthy (cursors : list (option string)) (c : string) :
  first_truthy cursors = Some c -> c <> "".
Proof.
  induction cursors as [|o rest IH]; [discriminate|]. cbn [first_truthy].
  destruct (PyStr.otruthy o) eqn:E; [|exact IH].
  intros ->. cbn in E. intros ->. discriminate.
Qed.

(** [X15] [_next_after_from_pageinfo] hands out no cursor exactly when
    the page announces no next page; a cursor it hands out is never the
    empty string; the end cursor of the page, when the schema has one
    and it is not empty, is preferred to the cursors of the edges; and
    the only failure is the serialization error for a missing cursor. *)
Theorem X15_next_cursor_is_never_empty :
  forall (PI : bool) (has_next : bool) (end_cursor : option string)
         (edge_has_cursor : bool) (cursors : list (option string)) (path : string),
    let r := _next_after_from_pageinfo PI has_next end_cursor
                                       edge_has_cursor cursors path in
    (r = inr None <-> has_next = false) /\
    (forall c, r = inr (Some c) -> c <> "") /\
    (has_next = true -> PI = true -> PyStr.otruthy end_cursor = true ->
     r = inr end_cursor) /\
    (forall e, r = inl e ->
               e = SerializationError ("Pagination cursor missing for " +:+ path)).
Proof.
  intros PI has_next end_cursor edge_has_cursor cursors path r.
  subst r. unfold _next_after_from_pageinfo.
  destruct has_next; cbn [negb].
  - destruct (PI && PyStr.otruthy end_cursor) eqn:E.
    + apply andb_true_iff in E as [-> E].
      destruct end_cursor as [c|]; [|discriminate].
      repeat split; try discriminate; try (intros; reflexivity).
      intros c' [= <-]. intros ->. discriminate.
    + destruct (if edge_has_cursor then _ else None) as [c|] eqn:Ec.
      * repeat split; try discriminate.
        -- intros c' [= <-]. destruct edge_has_cursor; [|discriminate].
           now apply (first_truthy_truthy _ _ Ec).
        -- intros _ -> Ht. rewrite Ht in E. discriminate.
      * repeat split; try discriminate.
        -- intros _ -> Ht. rewrite Ht in E. discriminate.
        -- now intros e [= <-].
  - repeat split; try discriminate; try reflexivity.
Qed.

Lemma X15_witness :
  _next_after_from_pageinfo true true (Some "c1") true [] "p"
  = inr (Some "c1").
Proof.
  apply (proj1 (proj2 (proj2 (X15_next_cursor_is_never_empty
                                true true (Some "c1") true [] "p"))));
    reflexivity.
Defined.

(** [X16] Arguments that are blank, or a page size that is not positive,
    never reach the client: [iter_issue_worklogs_via_graphql] ends with a
    [ValueError], nothing yielded and no request made, and
    [get_issue_by_key] raises its [ValueError] whatever the client would
    answer. *)
Theorem X16_blank_arguments_make_no_request :
  (forall PI EH execute fuel cloud_id issue_key page_size apis,
      PyStr.truthy (PyStr.strip cloud_id) = false \/
      PyStr.truthy (PyStr.strip issue_key) = false \/ (page_size <= 0)%Z ->
      exists msg,
        iter_issue_worklogs_via_graphql PI EH execute fuel cloud_id issue_key
                                        page_size apis
        = mkRun [] 0 (Failed (ValueError msg))) /\
  (forall execute cloud_id issue_key apis,
      (PyStr.truthy (PyStr.strip cloud_id) = false ->
       IssueApi.get_issue_by_key execute cloud_id issue_key apis
       = inl (ValueError "cloud_id is required")) /\
      (PyStr.truthy (PyStr.strip cloud_id) = true ->
       PyStr.truthy (PyStr.strip issue_key) = false ->
       IssueApi.get_issue_by_key execute cloud_id issue_key apis
       = inl (ValueError "issue_key is required"))).
Proof.
  split.
  - intros PI EH execute fuel cloud_id issue_key page_size apis H.
    unfold iter_issue_worklogs_via_graphql.
    destruct (PyStr.truthy (PyStr.strip cloud_id)); cbn [negb]; [|eauto].
    destruct (PyStr.truthy (PyStr.strip issue_key)); cbn [negb]; [|eauto].
    destruct (page_size <=? 0)%Z eqn:Ep; [eauto|].
    apply Z.leb_gt in Ep. destruct H as [H|[H|H]]; [discriminate|discriminate|lia].
  - intros execute cloud_id issue_key apis. unfold IssueApi.get_issue_by_key.
    split; [now intros ->|]. now intros -> ->.
Qed.

Lemma X16_witness :
  (exists msg,
      iter_issue_worklogs_via_graphql true true Samples.three_worklog_pages 5
                                      "cloud-123" "  " 50 None
      = mkRun [] 0 (Failed (ValueError msg))) /\
  IssueApi.get_issue_by_key (fun _ _ => inl (TransportError 500 "")) " " "A-1" None
  = inl (ValueError "cloud_id is required").
Proof.
  destruct X16_blank_arguments_make_no_request as [Hiter Hget].
  split.
  - apply Hiter. right. left. reflexivity.
  - apply Hget. reflexivity.
Defined.

(** [X17] Padding around the cloud id and the issue key does not matter:
    both accessors behave on the arguments as on the stripped
    arguments. *)
Theorem X17_padding_of_arguments_is_ignored :
  (forall PI EH execute fuel cloud_id issue_key page_size apis,
      iter_issue_worklogs_via_graphql PI EH execute fuel cloud_id issue_key
                                      page_size apis
      = iter_issue_worklogs_via_graphql PI EH execute fuel (PyStr.strip cloud_id)
                                        (PyStr.strip issue_key) page_size apis) /\
  (forall execute cloud_id issue_key apis,
      IssueApi.get_issue_by_key execute cloud_id issue_key apis
      = IssueApi.get_issue_by_key execute (PyStr.strip cloud_id)
                                  (PyStr.strip issue_key) apis).
Proof.
  split.
  - intros. unfold iter_issue_worklogs_via_graphql. now rewrite !strip_idempotent.
  - intros. unfold IssueApi.get_issue_by_key. now rewrite !strip_idempotent.
Qed.

Lemma require_worklog_field (value : option string) (path s : string) :
  _require_non_empty value path = inr s -> trimmed s.
Proof.
  unfold _require_non_empty. destruct value as [v|]; [|discriminate].
  destruct (PyStr.truthy (PyStr.strip v)) eqn:E; [|discriminate].
  intros [= <-]. now apply truthy_strip_trimmed.
Qed.

Lemma require_worklog_error (value : option string) (path : string) e :
  _require_non_empty value path = inl e -> is_value_error e.
Proof.
  unfold _require_non_empty. destruct value as [v|]; [|intros [= <-]; now eexists].
  destruct (PyStr.truthy (PyStr.strip v)); [discriminate|].
  intros [= <-]. now eexists.
Qed.

Lemma map_worklog_user (u : option ApiUser) (path : string) :
  match _map_user u path with
  | inr o => user_trimmed o
  | inl e => is_value_error e
  end.
Proof.
  unfold _map_user. destruct u as [u|]; [|exact I].
  destruct (_require_non_empty (Some (api_account_id u)) _) as [e|a] eqn:Ha;
    cbn [mbind result_bind]; [now apply (require_worklog_error _ _ _ Ha)|].
  destruct (_require_non_empty (Some (api_name u)) _) as [e|d] eqn:Hd;
    cbn [mbind result_bind]; [now apply (require_worklog_error _ _ _ Hd)|].
  cbn. repeat split;
    first [ apply (require_worklog_field _ _ _ Ha)
          | apply (require_worklog_field _ _ _ Hd) ].
Qed.

Lemma map_worklog_key_and_time (issue_key : string) (worklog : JiraWorklogNode)
      (w : JiraWorklog) :
  map_worklog issue_key worklog = inr w ->
  wl_issue_key w = PyStr.strip issue_key /\ trimmed (wl_worklog_id w) /\
  (0 <= wl_time_spent_seconds w)%Z.
Proof.
  unfold map_worklog.
  destruct (PyStr.truthy (PyStr.strip issue_key)); cbn [negb]; [|discriminate].
  destruct (_require_non_empty (Some (worklog_id worklog)) _) as [e|wid] eqn:H1;
    cbn [mbind result_bind]; [discriminate|].
  destruct (_require_non_empty (started worklog) _) as [e|st];
    cbn [mbind result_bind]; [discriminate|].
  destruct (_require_non_empty (Some (created worklog)) _) as [e|cr];
    cbn [mbind result_bind]; [discriminate|].
  destruct (_require_non_empty (updated worklog) _) as [e|up];
    cbn [mbind result_bind]; [discriminate|].
  destruct (time_in_seconds (time_spent worklog)) as [secs|]; [|discriminate].
  destruct (secs <? 0)%Z eqn:Es; [discriminate|]. apply Z.ltb_ge in Es.
  destruct (_map_user (author worklog) _) as [e|au]; cbn [mbind result_bind];
    [discriminate|].
  intros [= <-]. cbn.
  split; [reflexivity|]. split; [apply (require_worklog_field _ _ _ H1)|exact Es].
Qed.

(** [X18] A worklog that [map_worklog] returns has an issue key, an id and
    three timestamps that are neither empty nor padded, a time spent
    that is not negative, and an author whose id and name are neither
    empty nor padded; and [map_worklog] raises nothing but
    [ValueError]. *)
Theorem X18_mapped_worklog_is_trimmed :
  forall (issue_key : string) (worklog : JiraWorklogNode),
    match map_worklog issue_key worklog with
    | inr w =>
        wl_issue_key w = PyStr.strip issue_key /\
        trimmed (wl_issue_key w) /\ trimmed (wl_worklog_id w) /\
        trimmed (wl_started_at w) /\ trimmed (wl_created_at w) /\
        trimmed (wl_updated_at w) /\
        (0 <= wl_time_spent_seconds w)%Z /\
        time_in_seconds (time_spent worklog) = Some (wl_time_spent_seconds w) /\
        user_trimmed (wl_author w)
    | inl e => is_value_error e
    end.
Proof.
  intros issue_key worklog. unfold map_worklog.
  destruct (PyStr.truthy (PyStr.strip issue_key)) eqn:Ek; cbn [negb];
    [|now eexists].
  destruct (_require_non_empty (Some (worklog_id worklog)) _) as [e|wid] eqn:H1;
    cbn [mbind result_bind]; [now apply (require_worklog_error _ _ _ H1)|].
  destruct (_require_non_empty (started worklog) _) as [e|st] eqn:H2;
    cbn [mbind result_bind]; [now apply (require_worklog_error _ _ _ H2)|].
  destruct (_require_non_empty (Some (created worklog)) _) as [e|cr] eqn:H3;
    cbn [mbind result_bind]; [now apply (require_worklog_error _ _ _ H3)|].
  destruct (_require_non_empty (updated worklog) _) as [e|up] eqn:H4;
    cbn [mbind result_bind]; [now apply (require_worklog_error _ _ _ H4)|].
  destruct (time_in_seconds (time_spent worklog)) as [secs|]; [|now eexists].
  destruct (secs <? 0)%Z eqn:Es; [now eexists|]. apply Z.ltb_ge in Es.
  pose proof (map_worklog_user (author worklog) "worklog.author") as Hu.
  destruct (_map_user (author worklog) _) as [e|au]; cbn [mbind result_bind];
    [exact Hu|].
  cbn. repeat split;
    first [ now apply truthy_strip_trimmed
          | apply (require_worklog_field _ _ _ H1)
          | apply (require_worklog_field _ _ _ H2)
          | apply (require_worklog_field _ _ _ H3)
          | apply (require_worklog_field _ _ _ H4)
          | exact Es | exact Hu ].
Qed.
End GraphqlMore.

(** ** The issue mapper, the REST sprint mapper and the environment *)

Module MapperMore.
Import StrShape StrFacts Vocabulary GraphqlMore.

Lemma require_issue_field (value : option string) (path s : string) :
  IssueApi._require_non_empty value path = inr s ->
  trimmed s /\ exists raw, value = Some raw /\ s = PyStr.strip raw.
Proof.
  unfold IssueApi._require_non_empty. destruct value as [v|]; [|discriminate].
  destruct (PyStr.truthy (PyStr.strip v)) eqn:E; [|discriminate].
  intros [= <-]. split; [now apply truthy_strip_trimmed|now exists v].
Qed.

Lemma require_issue_error (value : option string) (path : string) e :
  IssueApi._require_non_empty value path = inl e -> is_value_error e.
Proof.
  unfold IssueApi._require_non_empty.
  destruct value as [v|]; [|intros [= <-]; now eexists].
  destruct (PyStr.truthy (PyStr.strip v)); [discriminate|].
  intros [= <-]. now eexists.
Qed.

Lemma map_issue_user (u : option IssuesApi.ApiUser) (path : string) :
  match IssueApi._map_user u path with
  | inr o => user_trimmed o
  | inl e => is_value_error e
  end.
Proof.
  unfold IssueApi._map_user. destruct u as [u|]; [|exact I].
  destruct (IssueApi._require_non_empty (Some (IssuesApi.api_account_id u)) _)
    as [e|a] eqn:Ha; cbn [mbind result_bind];
    [now apply (require_issue_error _ _ _ Ha)|].
  destruct (IssueApi._require_non_empty (Some (IssuesApi.api_name u)) _)
    as [e|d] eqn:Hd; cbn [mbind result_bind];
    [now apply (require_issue_error _ _ _ Hd)|].
  cbn. repeat split;
    first [ apply (require_issue_field _ _ _ Ha)
          | apply (require_issue_field _ _ _ Hd) ].
Qed.

(** [X19] An issue that [map_issue] returns carries the stripped cloud id
    it was asked for; its key, project key, type, status and its two
    required timestamps are neither empty nor padded; its users have
    ids and names that are neither empty nor padded; its resolution
    date, when there is one, is not padded (it can be empty); labels,
    components and sprint ids are empty and there are no story points.
    [map_issue] raises nothing but [ValueError]. *)
Theorem X19_mapped_issue_is_trimmed :
  forall (cloud_id : string) (issue : IssuesApi.JiraIssueNode),
    match IssueApi.map_issue cloud_id issue with
    | inr i =>
        ji_cloud_id i = PyStr.strip cloud_id /\
        trimmed (ji_cloud_id i) /\ trimmed (ji_key i) /\
        trimmed (ji_project_key i) /\ trimmed (ji_issue_type i) /\
        trimmed (ji_status i) /\ trimmed (ji_created_at i) /\
        trimmed (ji_updated_at i) /\
        match ji_resolved_at i with
        | Some s => starts_clean s /\ ends_clean s
        | None => True
        end /\
        user_trimmed (ji_assignee i) /\
        user_trimmed (ji_reporter i) /\
        ji_labels i = [] /\ ji_components i = [] /\ ji_sprint_ids i = [] /\
        ji_story_points i = None
    | inl e => is_value_error e
    end.
Proof.
  intros cloud_id issue. unfold IssueApi.map_issue.
  destruct (PyStr.truthy (PyStr.strip cloud_id)) eqn:Ec; cbn [negb];
    [|now eexists].
  destruct (IssueApi._require_non_empty (Some (IssuesApi.key issue)) _)
    as [e|k] eqn:H1; cbn [mbind result_bind];
    [now apply (require_issue_error _ _ _ H1)|].
  destruct (IssueApi._require_non_empty
              (Some (IssuesApi.type_name (IssuesApi.issue_type issue))) _)
    as [e|ty] eqn:H2; cbn [mbind result_bind];
    [now apply (require_issue_error _ _ _ H2)|].
  destruct (IssueApi._require_non_empty
              (Some (IssuesApi.status_name (IssuesApi.status_field issue))) _)
    as [e|st] eqn:H3; cbn [mbind result_bind];
    [now apply (require_issue_error _ _ _ H3)|].
  destruct (IssueApi._require_non_empty
              (Some (IssuesApi.project_key
                       (IssuesApi.project (IssuesApi.project_field issue)))) _)
    as [e|pk] eqn:H4; cbn [mbind result_bind];
    [now apply (require_issue_error _ _ _ H4)|].
  destruct (IssueApi._require_non_empty
              (Some (IssuesApi.project_cloud_id
                       (IssuesApi.project (IssuesApi.project_field issue)))) _)
    as [e|pc] eqn:H5; cbn [mbind result_bind];
    [now apply (require_issue_error _ _ _ H5)|].
  destruct (String.eqb pc (PyStr.strip cloud_id)) eqn:Eq; cbn [negb];
    [|now eexists].
  apply String.eqb_eq in Eq.
  destruct (IssueApi._require_non_empty
              (IssuesApi.date_time (IssuesApi.created_field issue)) _)
    as [e|cr] eqn:H6; cbn [mbind result_bind];
    [now apply (require_issue_error _ _ _ H6)|].
  destruct (IssueApi._require_non_empty
              (IssuesApi.date_time (IssuesApi.updated_field issue)) _)
    as [e|up] eqn:H7; cbn [mbind result_bind];
    [now apply (require_issue_error _ _ _ H7)|].
  match goal with
  | |- context [IssueApi._map_user ?u "issue.assigneeField.user"] =>
      pose proof (map_issue_user u "issue.assigneeField.user") as Ha;
      destruct (IssueApi._map_user u "issue.assigneeField.user") as [e|asg];
      cbn [mbind result_bind]; [exact Ha|]
  end.
  pose proof (map_issue_user (IssuesApi.reporter issue) "issue.reporter") as Hr.
  destruct (IssueApi._map_user (IssuesApi.reporter issue) "issue.reporter")
    as [e|rep]; cbn [mbind result_bind]; [exact Hr|].
  cbn [mret result_ret ji_cloud_id ji_key ji_project_key ji_issue_type ji_status
       ji_created_at ji_updated_at ji_resolved_at ji_assignee ji_reporter
       ji_labels ji_components ji_sprint_ids ji_story_points].
  split; [exact Eq|].
  split; [apply (require_issue_field _ _ _ H5)|].
  split; [apply (require_issue_field _ _ _ H1)|].
  split; [apply (require_issue_field _ _ _ H4)|].
  split; [apply (require_issue_field _ _ _ H2)|].
  split; [apply (require_issue_field _ _ _ H3)|].
  split; [apply (require_issue_field _ _ _ H6)|].
  split; [apply (require_issue_field _ _ _ H7)|].
  split.
  { destruct (IssuesApi.resolution_date_field issue) as [f|]; [|exact I].
    destruct (IssuesApi.date_time f) as [d|]; cbn; [|exact I].
    destruct (PyStr.truthy d); cbn; [|exact I].
    split; [apply strip_starts_clean|apply strip_ends_clean]. }
  repeat split; assumption.
Qed.

Lemma rest_sprint_shape (sprint : AgileApi.Sprint) (s : JiraSprint) :
  RestPaging.map_sprint sprint = inr s ->
  trimmed (js_name s) /\ trimmed (js_state s) /\
  otrimmed (js_start_at s) /\ otrimmed (js_end_at s) /\ otrimmed (js_complete_at s).
Proof.
  assert (Hopt : forall o, otrimmed (RestPaging.strip_opt o)).
  { intros [v|]; cbn; [|exact I].
    destruct (PyStr.truthy (PyStr.strip v)) eqn:E; cbn; [|exact I].
    now apply truthy_strip_trimmed. }
  unfold RestPaging.map_sprint.
  destruct (AgileApi.sprint_id sprint) as [sid|]; [|discriminate].
  destruct (AgileApi.sprint_name sprint) as [name|]; [|discriminate].
  destruct (PyStr.truthy (PyStr.strip name)) eqn:En; cbn [negb]; [|discriminate].
  destruct (AgileApi.sprint_state sprint) as [state|]; [|discriminate].
  destruct (PyStr.truthy (PyStr.strip state)) eqn:Es; cbn [negb]; [|discriminate].
  intros [= <-]. cbn [js_name js_state js_start_at js_end_at js_complete_at].
  split; [now apply truthy_strip_trimmed|].
  split; [now apply truthy_strip_trimmed|].
  repeat split; apply Hopt.
Qed.

(** [X20] The REST [map_sprint] succeeds exactly on a sprint that has an
    id, a name and a state, the latter two not blank.  The sprint it
    returns has the id in decimal, the stripped name and state, and
    dates that are either absent or neither empty nor padded: a blank
    date is dropped.  It raises nothing but [ValueError]. *)
Theorem X20_rest_sprint_is_mapped_iff_complete :
  forall sprint : AgileApi.Sprint,
    match RestPaging.map_sprint sprint with
    | inr s =>
        (exists sid name state,
            AgileApi.sprint_id sprint = Some sid /\ js_id s = pretty sid /\
            AgileApi.sprint_name sprint = Some name /\ js_name s = PyStr.strip name /\
            AgileApi.sprint_state sprint = Some state /\
            js_state s = PyStr.strip state) /\
        trimmed (js_name s) /\ trimmed (js_state s) /\
        otrimmed (js_start_at s) /\ otrimmed (js_end_at s) /\
        otrimmed (js_complete_at s) /\
        js_start_at s = RestPaging.strip_opt (AgileApi.start_date sprint)
    | inl e =>
        is_value_error e /\
        (AgileApi.sprint_id sprint = None \/
         RestPaging.strip_opt (AgileApi.sprint_name sprint) = None \/
         RestPaging.strip_opt (AgileApi.sprint_state sprint) = None)
    end.
Proof.
  assert (Hopt : forall o, otrimmed (RestPaging.strip_opt o)).
  { intros [v|]; cbn; [|exact I].
    destruct (PyStr.truthy (PyStr.strip v)) eqn:E; cbn; [|exact I].
    now apply truthy_strip_trimmed. }
  intros sprint. unfold RestPaging.map_sprint.
  destruct (AgileApi.sprint_id sprint) as [sid|];
    [|split; [now eexists|now left]].
  destruct (AgileApi.sprint_name sprint) as [name|];
    [|split; [now eexists|right; now left]].
  destruct (PyStr.truthy (PyStr.strip name)) eqn:En; cbn [negb];
    [|split; [now eexists|right; left; cbn; now rewrite En]].
  destruct (AgileApi.sprint_state sprint) as [state|];
    [|split; [now eexists|right; now right]].
  destruct (PyStr.truthy (PyStr.strip state)) eqn:Es; cbn [negb];
    [|split; [now eexists|right; right; cbn; now rewrite Es]].
  cbn [js_id js_name js_state js_start_at js_end_at js_complete_at].
  split; [now exists sid, name, state|].
  repeat split; try apply Hopt;
    first [ apply (truthy_strip_trimmed _ En) | apply (truthy_strip_trimmed _ Es) ].
Qed.
End MapperMore.

(** ** Credentials and settings read from the environment *)

Module EnvMore.
Import EnvAuth StrShape StrFacts GraphqlMore.

Lemma otruthy_some (o : option string) :
  PyStr.otruthy o = true -> exists s, o = Some s /\ s <> "".
Proof.
  destruct o as [s|]; [|discriminate]. destruct s; [discriminate|].
  intros _. eexists. split; [reflexivity|discriminate].
Qed.

Lemma all_str_spec (cookies : gmap string json) :
  map_fold (fun (_ : string) v ok => ok && is_str v) true cookies = true ->
  map_Forall (fun _ v => is_str v = true) cookies.
Proof.
  apply (map_fold_weak_ind
           (fun r (m : gmap string json) =>
              r = true -> map_Forall (fun _ v => is_str v = true) m)).
  - intros _. apply map_Forall_empty.
  - intros i x m r Hi IH H. apply andb_true_iff in H as [Hr Hx].
    apply map_Forall_insert_2; [exact Hx|now apply IH].
Qed.

(** [X21] [_auth_from_env] chooses by precedence: the refresh-token
    provider when refresh token, client id and client secret are all
    non-empty; else the bearer provider for a non-empty access token,
    unless its stripped value equals the stripped non-empty client
    secret, which is the only error; else basic authentication when
    email and API token are non-empty; else the cookie provider, and
    only for a JSON object whose values are all strings; else nothing. *)
Theorem X21_provider_is_chosen_by_precedence :
  forall (env : gmap string string) (json_loads : string -> option json),
    let refresh :=
      PyStr.otruthy (env !! "ATLASSIAN_OAUTH_REFRESH_TOKEN")
      && PyStr.otruthy (env !! "ATLASSIAN_CLIENT_ID")
      && PyStr.otruthy (env !! "ATLASSIAN_CLIENT_SECRET") in
    let basic :=
      PyStr.otruthy (env !! "ATLASSIAN_EMAIL")
      && PyStr.otruthy (env !! "ATLASSIAN_API_TOKEN") in
    match _auth_from_env env json_loads with
    | inl e =>
        e = access_token_is_client_secret /\ refresh = false /\
        exists token secret,
          env !! "ATLASSIAN_OAUTH_ACCESS_TOKEN" = Some token /\
          env !! "ATLASSIAN_CLIENT_SECRET" = Some secret /\
          token <> "" /\ secret <> "" /\ PyStr.strip token = PyStr.strip secret
    | inr (Some (OAuthRefreshTokenAuth client_id client_secret refresh_token)) =>
        env !! "ATLASSIAN_CLIENT_ID" = Some client_id /\
        env !! "ATLASSIAN_CLIENT_SECRET" = Some client_secret /\
        env !! "ATLASSIAN_OAUTH_REFRESH_TOKEN" = Some refresh_token /\
        client_id <> "" /\ client_secret <> "" /\ refresh_token <> ""
    | inr (Some (OAuthBearerAuth token)) =>
        refresh = false /\
        env !! "ATLASSIAN_OAUTH_ACCESS_TOKEN" = Some token /\ token <> "" /\
        (forall secret, env !! "ATLASSIAN_CLIENT_SECRET" = Some secret ->
                        secret <> "" -> PyStr.strip token <> PyStr.strip secret)
    | inr (Some (BasicApiTokenAuth email api_token)) =>
        refresh = false /\
        PyStr.otruthy (env !! "ATLASSIAN_OAUTH_ACCESS_TOKEN") = false /\
        env !! "ATLASSIAN_EMAIL" = Some email /\
        env !! "ATLASSIAN_API_TOKEN" = Some api_token /\
        email <> "" /\ api_token <> ""
    | inr (Some (CookieAuth cookies)) =>
        refresh = false /\
        PyStr.otruthy (env !! "ATLASSIAN_OAUTH_ACCESS_TOKEN") = false /\
        basic = false /\
        exists raw, env !! "ATLASSIAN_COOKIES_JSON" = Some raw /\ raw <> "" /\
                    json_loads raw = Some (JDict cookies) /\
                    map_Forall (fun _ v => is_str v = true) cookies
    | inr None =>
        refresh = false /\
        PyStr.otruthy (env !! "ATLASSIAN_OAUTH_ACCESS_TOKEN") = false /\
        basic = false
    end.
Proof.
  intros env json_loads refresh basic. subst refresh basic.
  unfold _auth_from_env.
  destruct (PyStr.otruthy (env !! "ATLASSIAN_OAUTH_REFRESH_TOKEN")
            && PyStr.otruthy (env !! "ATLASSIAN_CLIENT_ID")
            && PyStr.otruthy (env !! "ATLASSIAN_CLIENT_SECRET")) eqn:Eref.
  { apply andb_true_iff in Eref as [Eref Hcs].
    apply andb_true_iff in Eref as [Hrt Hci].
    apply otruthy_some in Hcs as (cs & -> & Hcs).
    apply otruthy_some in Hrt as (rt & -> & Hrt).
    apply otruthy_some in Hci as (ci & -> & Hci).
    cbn. repeat split; assumption. }
  destruct (PyStr.otruthy (env !! "ATLASSIAN_OAUTH_ACCESS_TOKEN")) eqn:Etok.
  { apply otruthy_some in Etok as (token & Htok & Hne). rewrite Htok.
    destruct (PyStr.otruthy (env !! "ATLASSIAN_CLIENT_SECRET")
              && String.eqb (PyStr.strip (default "" (Some token)))
                            (PyStr.strip (default "" (env !! "ATLASSIAN_CLIENT_SECRET"))))
             eqn:Esec.
    - apply andb_true_iff in Esec as [Hs Heq].
      apply otruthy_some in Hs as (secret & Hsec & Hsne).
      rewrite Hsec in Heq. apply String.eqb_eq in Heq. cbn in Heq.
      split; [reflexivity|]. split; [reflexivity|].
      exists token, secret. repeat split; assumption.
    - cbn. split; [reflexivity|]. split; [reflexivity|]. split; [exact Hne|].
      intros secret Hsec Hsne Heq. rewrite Hsec in Esec. cbn in Esec.
      destruct secret; [now apply Hsne|]. cbn in Esec.
      apply String.eqb_neq in Esec. now apply Esec. }
  destruct (PyStr.otruthy (env !! "ATLASSIAN_EMAIL")
            && PyStr.otruthy (env !! "ATLASSIAN_API_TOKEN")) eqn:Ebasic.
  { apply andb_true_iff in Ebasic as [He Ha].
    apply otruthy_some in He as (em & -> & He).
    apply otruthy_some in Ha as (at_ & -> & Ha).
    cbn. repeat split; assumption. }
  destruct (PyStr.otruthy (env !! "ATLASSIAN_COOKIES_JSON")) eqn:Ecj;
    [|repeat split].
  apply otruthy_some in Ecj as (raw & -> & Hraw).
  change (default "" (Some raw)) with raw.
  destruct (json_loads raw) as [[|b|n|q|s|l|cookies]|] eqn:Ej; try (repeat split; fail).
  destruct (map_fold _ true cookies) eqn:Eall; [|repeat split].
  split; [reflexivity|]. split; [reflexivity|]. split; [reflexivity|].
  exists raw. repeat split; try assumption. now apply all_str_spec.
Qed.

Lemma X21_witness :
  Samples.env_token_is_secret_with_refresh !! "ATLASSIAN_CLIENT_ID" = Some "app-1" /\
  Samples.env_token_is_secret_with_refresh !! "ATLASSIAN_CLIENT_SECRET" = Some "s3cr3t" /\
  Samples.env_token_is_secret_with_refresh !! "ATLASSIAN_OAUTH_REFRESH_TOKEN"
  = Some "r3fr3sh" /\
  "app-1" <> "" /\ "s3cr3t" <> "" /\ "r3fr3sh" <> "".
Proof.
  exact (X21_provider_is_chosen_by_precedence
           Samples.env_token_is_secret_with_refresh Samples.no_json).
Defined.

(** [X22] [fetch_issue_by_key] makes no request without credentials or
    without a base URL: it raises the configuration error whatever the
    client is.  With an OAuth access token or refresh token in the
    environment and no base URL, the client is built for
    [https://api.atlassian.com]; with a base URL, for that URL. *)
Theorem X22_fetch_needs_credentials_and_defaults_the_base_url :
  forall (env : gmap string string) (json_loads : string -> option json)
         client (cloud_id issue_key : string),
    let apis := match _env_experimental_apis env with [] => None | l => Some l end in
    (_auth_from_env env json_loads = inr None ->
     fetch_issue_by_key env json_loads client cloud_id issue_key
     = inl missing_configuration) /\
    (forall auth,
        _auth_from_env env json_loads = inr (Some auth) ->
        PyStr.otruthy (env !! "ATLASSIAN_GQL_BASE_URL") = false ->
        fetch_issue_by_key env json_loads client cloud_id issue_key
        = if PyStr.otruthy (env !! "ATLASSIAN_OAUTH_ACCESS_TOKEN")
             || PyStr.otruthy (env !! "ATLASSIAN_OAUTH_REFRESH_TOKEN")
          then IssueApi.get_issue_by_key (client "https://api.atlassian.com" auth)
                                         cloud_id issue_key apis
          else inl missing_configuration) /\
    (forall auth url,
        _auth_from_env env json_loads = inr (Some auth) ->
        env !! "ATLASSIAN_GQL_BASE_URL" = Some url -> url <> "" ->
        fetch_issue_by_key env json_loads client cloud_id issue_key
        = IssueApi.get_issue_by_key (client url auth) cloud_id issue_key apis).
Proof.
  intros env json_loads client cloud_id issue_key apis. subst apis.
  unfold fetch_issue_by_key. split; [|split].
  - intros ->. reflexivity.
  - intros auth -> Hurl. cbn [mbind result_bind]. rewrite Hurl. cbn [negb andb].
    destruct (PyStr.otruthy (env !! "ATLASSIAN_OAUTH_ACCESS_TOKEN")
              || PyStr.otruthy (env !! "ATLASSIAN_OAUTH_REFRESH_TOKEN")).
    + now destruct (_env_experimental_apis env).
    + rewrite Hurl. reflexivity.
  - intros auth url -> Hurl Hne. cbn [mbind result_bind]. rewrite Hurl.
    destruct url; [now contradiction Hne|].
    now destruct (_env_experimental_apis env).
Qed.

Lemma X22_witness :
  fetch_issue_by_key ∅ Samples.no_json
                     (fun _ _ _ _ => inl (TransportError 500 "")) "cloud-123" "A-1"
  = inl missing_configuration.
Proof.
  apply (proj1 (X22_fetch_needs_credentials_and_defaults_the_base_url
                  ∅ Samples.no_json (fun _ _ _ _ => inl (TransportError 500 ""))
                  "cloud-123" "A-1")).
  reflexivity.
Defined.

(** [X23] The experimental APIs read from the environment are never
    blank: every entry is neither empty nor padded with white space.
    An unset or empty variable gives no entry at all, and then
    [fetch_issue_by_key] passes no list to the accessor. *)
Theorem X23_experimental_apis_are_trimmed :
  forall env : gmap string string,
    Forall trimmed (_env_experimental_apis env) /\
    (default "" (env !! "ATLASSIAN_GQL_EXPERIMENTAL_APIS") = "" ->
     _env_experimental_apis env = []).
Proof.
  intros env. unfold _env_experimental_apis. split.
  - induction (split_comma _ _) as [|part parts IH]; [constructor|].
    cbn [omap list_omap].
    destruct (PyStr.truthy (PyStr.strip part)) eqn:E; [|exact IH].
    constructor; [now apply truthy_strip_trimmed|exact IH].
  - intros ->. reflexivity.
Qed.

Lemma X23_witness :
  _env_experimental_apis ∅ = [].
Proof.
  apply (proj2 (X23_experimental_apis_are_trimmed ∅)). reflexivity.
Defined.
End EnvMore.

(** ** Error entries and log sanitising *)

Module ModelsMore.
Import ErrorItems Logging.

Lemma items_loop_acc (l : list json) (items : list Item) :
  items_loop l items = (items ++ items_loop l [])%list.
Proof.
  revert items. induction l as [|err rest IH]; intros items.
  - cbn. now rewrite app_nil_r.
  - cbn [items_loop]. destruct err as [|b|n|q|s|l|d]; try apply IH.
    destruct (dict_get d "message") as [|b|n|q|m|l|d']; try apply IH.
    rewrite (IH (items ++ _)%list), (IH ([] ++ _)%list).
    now rewrite <- app_assoc.
Qed.

Lemma items_loop_cons (err : json) (rest : list json) :
  items_loop (err :: rest) []
  = (items_loop [err] [] ++ items_loop rest [])%list.
Proof.
  cbn [items_loop]. destruct err as [|b|n|q|s|l|d]; try reflexivity.
  destruct (dict_get d "message") as [|b|n|q|m|l|d']; try reflexivity.
  now rewrite items_loop_acc.
Qed.

Lemma items_loop_app (l1 l2 : list json) :
  items_loop (l1 ++ l2) [] = (items_loop l1 [] ++ items_loop l2 [])%list.
Proof.
  induction l1 as [|err rest IH]; [reflexivity|].
  rewrite <- app_comm_cons, items_loop_cons, IH, (items_loop_cons err rest).
  now rewrite app_assoc.
Qed.

Lemma items_loop_one (err : json) :
  item_message <$> items_loop [err] [] = from_option (fun m => [m]) [] (message_of err)
  /\ (length (items_loop [err] []) <= 1)%nat.
Proof.
  cbn [items_loop message_of]. destruct err as [|b|n|q|s|l|d]; cbn; try (split; [reflexivity|lia]).
  unfold dict_get. destruct (d !! "message") as [[|b|n|q|m|l|d']|]; cbn;
    split; try reflexivity; lia.
Qed.

(** [X24] [parse_error_items] returns nothing exactly for a value that
    is not a list.  For a list it returns one entry for each element
    that is an object with a string [message], with these messages in
    the order of the list, and skips every other element; the entries
    of a concatenation are the entries of its parts, one after the
    other. *)
Theorem X24_error_items_keep_the_well_formed_entries :
  (forall raw, parse_error_items raw = None <-> is_list raw = false) /\
  (forall l, exists items,
      parse_error_items (JList l) = Some items /\
      item_message <$> items = omap message_of l /\
      (length items <= length l)%nat) /\
  (forall l1 l2, exists a b,
      parse_error_items (JList l1) = Some a /\
      parse_error_items (JList l2) = Some b /\
      parse_error_items (JList (l1 ++ l2)) = Some (a ++ b)%list).
Proof.
  split; [|split].
  - intros raw. destruct raw; cbn; split; congruence.
  - intros l. exists (items_loop l []). split; [reflexivity|].
    induction l as [|err rest [IHm IHl]]; [split; [reflexivity|cbn; lia]|].
    rewrite items_loop_cons, fmap_app, length_app, IHm.
    destruct (items_loop_one err) as [Hm Hl]. rewrite Hm.
    split; [|cbn [length]; lia].
    cbn [omap list_omap]. now destruct (message_of err).
  - intros l1 l2. exists (items_loop l1 []), (items_loop l2 []).
    cbn [parse_error_items]. now rewrite items_loop_app.
Qed.

Lemma sanitize_lookup (headers : gmap string string) (key : string) :
  sanitize_headers headers !! key = shown key <$> headers !! key.
Proof.
  unfold sanitize_headers.
  apply (map_fold_weak_ind
           (fun (r m : gmap string string) => r !! key = shown key <$> m !! key)).
  - now rewrite !lookup_empty.
  - intros i x m r Hi IH.
    destruct (decide (i = key)) as [->|Hne].
    + rewrite lookup_insert_eq. cbn [fmap option_fmap option_map].
      unfold shown, hidden.
      destruct (bool_decide (PyStr.lower key ∈ sensitive));
        now rewrite lookup_insert_eq.
    + rewrite (lookup_insert_ne m) by exact Hne.
      destruct (bool_decide (PyStr.lower i ∈ sensitive));
        now rewrite lookup_insert_ne by exact Hne.
Qed.

(** [X25] [sanitize_headers] keeps every header name and adds none; a
    header whose lower-cased name is [authorization] or [cookie] gets the
    value [<redacted>], so that the result does not depend on its value;
    every other header with a name in ASCII keeps its value; and
    sanitising twice is sanitising once. *)
Theorem X25_sensitive_headers_are_redacted :
  forall headers : gmap string string,
    dom (sanitize_headers headers) = dom headers /\
    (forall key value, headers !! key = Some value -> hidden key = true ->
                       sanitize_headers headers !! key = Some redacted) /\
    (forall key value, headers !! key = Some value -> ascii_only key = true ->
                       hidden key = false ->
                       sanitize_headers headers !! key = Some value) /\
    (forall key v1 v2, hidden key = true ->
                       sanitize_headers (<[key := v1]> headers)
                       = sanitize_headers (<[key := v2]> headers)) /\
    sanitize_headers (sanitize_headers headers) = sanitize_headers headers.
Proof.
  intros headers. repeat split.
  - apply set_eq. intros key. rewrite !elem_of_dom, sanitize_lookup.
    now rewrite fmap_is_Some.
  - intros key value Hk Hh. rewrite sanitize_lookup, Hk. cbn.
    unfold shown. now rewrite Hh.
  - intros key value Hk _ Hh. rewrite sanitize_lookup, Hk. cbn.
    unfold shown. now rewrite Hh.
  - intros key v1 v2 Hh. apply map_eq. intros k. rewrite !sanitize_lookup.
    destruct (decide (key = k)) as [->|Hne].
    + rewrite !lookup_insert_eq. cbn. unfold shown. now rewrite Hh.
    + now rewrite !lookup_insert_ne by exact Hne.
  - apply map_eq. intros k. rewrite !sanitize_lookup.
    destruct (headers !! k) as [v|]; [|reflexivity]. cbn.
    unfold shown. now destruct (hidden k).
Qed.

Lemma X25_witness :
  sanitize_headers sample_headers !! "COOKIE" = Some redacted /\
  sanitize_headers sample_headers !! "Accept" = Some "application/json".
Proof.
  destruct (X25_sensitive_headers_are_redacted sample_headers)
    as (_ & Hhide & Hkeep & _).
  split.
  - apply (Hhide "COOKIE" "sid=1"); reflexivity.
  - apply (Hkeep "Accept" "application/json"); reflexivity.
Defined.
End ModelsMore.

(** ** What the iterators yield *)

Module IterMore.
Import StrShape GraphqlMore MapperMore.

Lemma drain_Forall {A B} (P : B -> Prop) (f : A -> result B) (items : list A) :
  (forall x y, f x = inr y -> P y) ->
  forall acc acc' o,
    drain f items acc = (acc', o) -> Forall P acc -> Forall P acc'.
Proof.
  intros Hf. induction items as [|x rest IH]; intros acc acc' o; cbn [drain].
  - now intros [= <- <-].
  - destruct (f x) as [e|y] eqn:Hx.
    + now intros [= <- <-].
    + intros H Hacc. apply (IH _ _ _ H).
      apply Forall_app. split; [exact Hacc|]. constructor; [|constructor].
      now apply (Hf x).
Qed.

Lemma sprints_loop_yields (P : JiraSprint -> Prop) get_json board_path state_clean
      page_size :
  (forall x y, RestPaging.map_sprint x = inr y -> P y) ->
  forall fuel n start_at seen acc,
    Forall P acc ->
    Forall P (yielded (RestPaging.sprints_loop get_json board_path state_clean
                                               page_size fuel n start_at seen acc)).
Proof.
  intros Hf. induction fuel as [|fuel IH]; intros n start_at seen acc Hacc;
    cbn [RestPaging.sprints_loop]; [exact Hacc|].
  destruct (decide (start_at ∈ seen)); [exact Hacc|].
  destruct (get_json n board_path _) as [e|payload]; [exact Hacc|].
  destruct (AgileApi.SprintPage_from_dict payload "data") as [e|page]; [exact Hacc|].
  destruct (drain RestPaging.map_sprint (AgileApi.values page) acc)
    as [acc' o] eqn:Hdrain.
  pose proof (drain_Forall P _ _ Hf _ _ _ Hdrain Hacc) as Hacc'.
  destruct o as [e|]; [exact Hacc'|].
  destruct (_ && _); [exact Hacc'|].
  destruct (_ <? _)%Z; [exact Hacc'|].
  destruct (_ =? _)%nat; [destruct (_ && _); exact Hacc'|].
  now apply IH.
Qed.

Lemma worklogs_loop_yields (P : JiraWorklog -> Prop) PI EH execute cloud_id_clean
      issue_key_clean page_size apis :
  (forall x y, WorklogPaging.map_worklog issue_key_clean x = inr y -> P y) ->
  forall fuel n after seen acc,
    Forall P acc ->
    Forall P (yielded (WorklogPaging.worklogs_loop PI EH execute cloud_id_clean
                                                   issue_key_clean page_size apis
                                                   fuel n after seen acc)).
Proof.
  intros Hf. induction fuel as [|fuel IH]; intros n after seen acc Hacc;
    cbn [WorklogPaging.worklogs_loop]; [exact Hacc|].
  destruct (execute n _ apis) as [e|r]; [exact Hacc|].
  assert (Hrest :
            Forall P
              (yielded
                 match parse_or_operation_error
                         (WorklogsApi.parse_issue_worklogs_page PI EH) r with
                 | inl e => mkRun acc (S n) (Failed e)
                 | inr conn =>
                     match drain (fun e => WorklogPaging.map_worklog issue_key_clean
                                                                     (WorklogsApi.node e))
                                 (WorklogsApi.edges conn) acc with
                     | (acc', Some e) => mkRun acc' (S n) (Failed e)
                     | (acc', None) =>
                         match WorklogPaging.next_after_of PI EH issue_key_clean conn with
                         | inl e => mkRun acc' (S n) (Failed e)
                         | inr None => mkRun acc' (S n) Done
                         | inr (Some next_after) =>
                             if decide (next_after ∈ seen) then
                               mkRun acc' (S n) (Failed WorklogPaging.cursor_repeated)
                             else
                               WorklogPaging.worklogs_loop
                                 PI EH execute cloud_id_clean issue_key_clean page_size
                                 apis fuel (S n) (Some next_after)
                                 ({[next_after]} ∪ seen) acc'
                         end
                     end
                 end)).
  { destruct (parse_or_operation_error _ r) as [e|conn]; [exact Hacc|].
    destruct (drain _ (WorklogsApi.edges conn) acc) as [acc' o] eqn:Hdrain.
    assert (Hacc' : Forall P acc').
    { apply (drain_Forall P _ _ (fun e y => Hf (WorklogsApi.node e) y)
                          _ _ _ Hdrain Hacc). }
    destruct o as [e|]; [exact Hacc'|].
    destruct (WorklogPaging.next_after_of _ _ _ conn) as [e|[next|]];
      [exact Hacc'| |exact Hacc'].
    destruct (decide (next ∈ seen)); [exact Hacc'|]. now apply IH. }
  destruct (data r); first [exact Hacc | exact Hrest].
Qed.

Lemma versions_loop_yields (P : RestVersions.JiraVersion -> Prop) get_json from_dict
      project_clean page_size :
  (forall x y, RestVersions.map_rest_version project_clean x = inr y -> P y) ->
  forall fuel n start_at seen acc,
    Forall P acc ->
    Forall P (yielded (RestVersions.versions_loop get_json from_dict project_clean
                                                  page_size fuel n start_at seen acc)).
Proof.
  intros Hf. induction fuel as [|fuel IH]; intros n start_at seen acc Hacc;
    cbn [RestVersions.versions_loop]; [exact Hacc|].
  destruct (decide (start_at ∈ seen)); [exact Hacc|].
  destruct (get_json n _ _) as [e|payload]; [exact Hacc|].
  destruct (from_dict payload "data") as [e|page]; [exact Hacc|].
  destruct (drain (RestVersions.map_rest_version project_clean)
                  (RestVersions.values page) acc) as [acc' o] eqn:Hdrain.
  pose proof (drain_Forall P _ _ Hf _ _ _ Hdrain Hacc) as Hacc'.
  destruct o as [e|]; [exact Hacc'|].
  destruct (_ && _); [exact Hacc'|].
  match goal with
  | |- context [if (if ?a then ?b else ?c) then _ else _] =>
      destruct (if a then b else c); [exact Hacc'|]
  end.
  destruct (_ =? _)%nat; [destruct (_ && _); exact Hacc'|].
  now apply IH.
Qed.

(** [X26] Whatever an iterator has yielded, at any point of its run and
    however the run ends, went through its mapper: every sprint of
    [iter_board_sprints_via_rest] has a name and a state that are
    neither empty nor padded and dates that are absent or neither empty
    nor padded; every worklog of [iter_issue_worklogs_via_graphql]
    carries the stripped issue key that was asked for, a trimmed id and
    a time spent that is not negative; every version of
    [iter_versions_via_rest] carries the stripped project key. *)
Theorem X26_yielded_items_are_mapped :
  (forall get_json fuel board_id state page_size,
      Forall (fun s => trimmed (js_name s) /\ trimmed (js_state s) /\
                       otrimmed (js_start_at s) /\ otrimmed (js_end_at s) /\
                       otrimmed (js_complete_at s))
             (yielded (RestPaging.iter_board_sprints_via_rest
                         get_json fuel board_id state page_size))) /\
  (forall PI EH execute fuel cloud_id issue_key page_size apis,
      Forall (fun w => wl_issue_key w = PyStr.strip issue_key /\
                       trimmed (wl_worklog_id w) /\
                       (0 <= wl_time_spent_seconds w)%Z)
             (yielded (WorklogPaging.iter_issue_worklogs_via_graphql
                         PI EH execute fuel cloud_id issue_key page_size apis))) /\
  (forall get_json from_dict fuel project page_size,
      Forall (fun v => RestVersions.jv_project_key v = PyStr.strip project)
             (yielded (RestVersions.iter_versions_via_rest
                         get_json from_dict fuel project page_size))).
Proof.
  split; [|split].
  - intros get_json fuel board_id state page_size.
    unfold RestPaging.iter_board_sprints_via_rest.
    destruct (board_id <=? 0)%Z; [constructor|].
    destruct (page_size <=? 0)%Z; [constructor|].
    destruct (negb _); [constructor|].
    apply sprints_loop_yields; [|constructor].
    intros x y. apply rest_sprint_shape.
  - intros PI EH execute fuel cloud_id issue_key page_size apis.
    unfold WorklogPaging.iter_issue_worklogs_via_graphql.
    destruct (negb _); [constructor|].
    destruct (negb _); [constructor|].
    destruct (page_size <=? 0)%Z; [constructor|].
    apply worklogs_loop_yields; [|constructor].
    intros x y Hxy.
    destruct (map_worklog_key_and_time _ _ _ Hxy) as (Hk & Hid & Ht).
    rewrite StrFacts.strip_idempotent in Hk.
    split; [exact Hk|split; [exact Hid|exact Ht]].
  - intros get_json from_dict fuel project page_size.
    unfold RestVersions.iter_versions_via_rest.
    destruct (negb _); [constructor|].
    destruct (page_size <=? 0)%Z; [constructor|].
    apply versions_loop_yields; [|constructor].
    now intros x y [= <-].
Qed.
End IterMore.
